(** * Infinity_Portal: backtest metrics, benchmark comparison and engine

    A shallow embedding of
      - [src/backtest/performance_metrics.py]  (class [PerformanceMetrics]),
      - [src/backtest/benchmark_comparison.py] (class [BenchmarkComparison]),
      - [src/backtest/backtest_engine.py]      (class [BacktestEngine]),
    together with the properties the specification states about them.

    Numbers.  Python floats are modelled by [float]: a real number, one of
    the two infinities, or NaN.  Arithmetic on finite values is exact real
    arithmetic (rounding is abstracted away) and zero carries no sign; the
    special values follow IEEE-754 as numpy and pandas expose them (a
    division by zero gives an infinity or NaN, NaN compares false with
    everything, pandas reductions of too-short series give NaN).  The
    properties are chosen to hold of the binary64 computation as well: they
    rest on the order and the sign of values, on exact cases and on the
    special values, or relate a result to the formula that computes it; none
    rests on an identity that rounding breaks.  Where rounding itself is the
    point, the computation is run on primitive binary64 numbers ([np64]).
    The series handed to the metrics hold finite values ([R]); the series
    [pct_change] produces, which can hold infinities and NaN, are series of
    [float].

    Caller code.  The algorithm code handed to the engine, the constructor
    of its strategy class and [generate_signals] run in the process of the
    engine with [np] in scope: they are modelled as computations on the
    state of numpy's global generator ([rand]), which the engine draws from
    as well. *)

From Stdlib Require DecimalString DecimalZ PrimFloat Uint63.
From Stdlib Require Import String Ascii ZArith Bool Arith.
From Stdlib Require Import Reals Lra Lia List FinFun.
Import ListNotations.

Open Scope R_scope.

(* ================================================================== *)
(** ** Floating-point values *)
(* ================================================================== *)

Inductive float : Type :=
| Fin (r : R)
| PInf
| NInf
| NaN.

Definition Reqb (x y : R) : bool := if Req_dec_T x y then true else false.
Definition Rltb (x y : R) : bool := if Rlt_dec x y then true else false.
Definition Rleb (x y : R) : bool := if Rle_dec x y then true else false.

Module Float.

(** [a == b] *)
Definition eqb (a b : float) : bool :=
  match a, b with
  | Fin x, Fin y => Reqb x y
  | PInf, PInf => true
  | NInf, NInf => true
  | _, _ => false
  end.

(** [a != b]; true as soon as one side is NaN. *)
Definition neqb (a b : float) : bool := negb (eqb a b).

(** [a < b] *)
Definition ltb (a b : float) : bool :=
  match a, b with
  | NaN, _ | _, NaN => false
  | Fin x, Fin y => Rltb x y
  | NInf, NInf => false
  | NInf, _ => true
  | _, NInf => false
  | PInf, _ => false
  | Fin _, PInf => true
  end.

(** [a > b] *)
Definition gtb (a b : float) : bool := ltb b a.

Definition neg (a : float) : float :=
  match a with
  | Fin x => Fin (- x)
  | PInf => NInf
  | NInf => PInf
  | NaN => NaN
  end.

Definition abs (a : float) : float :=
  match a with
  | Fin x => Fin (Rabs x)
  | PInf | NInf => PInf
  | NaN => NaN
  end.

(** Sums, products and quotients of finite values are exact: no rounding,
    no overflow to an infinity, no underflow to zero. *)
Definition add (a b : float) : float :=
  match a, b with
  | NaN, _ | _, NaN => NaN
  | Fin x, Fin y => Fin (x + y)
  | PInf, NInf | NInf, PInf => NaN
  | PInf, _ | _, PInf => PInf
  | NInf, _ | _, NInf => NInf
  end.

Definition sub (a b : float) : float := add a (neg b).

(** The infinity with the sign of [s], NaN when [s] is zero. *)
Definition signed_inf (s : R) : float :=
  if Rltb 0 s then PInf else if Rltb s 0 then NInf else NaN.

Definition mul (a b : float) : float :=
  match a, b with
  | NaN, _ | _, NaN => NaN
  | Fin x, Fin y => Fin (x * y)
  | PInf, Fin y | Fin y, PInf => signed_inf y
  | NInf, Fin y | Fin y, NInf => signed_inf (- y)
  | PInf, PInf | NInf, NInf => PInf
  | PInf, NInf | NInf, PInf => NaN
  end.

(** numpy's float division: no exception, [x/0] is an infinity of the sign
    of [x] and [0/0] is NaN. *)
Definition div (a b : float) : float :=
  match a, b with
  | NaN, _ | _, NaN => NaN
  | Fin x, Fin y => if Reqb y 0 then signed_inf x else Fin (x / y)
  | Fin _, (PInf | NInf) => Fin 0
  | PInf, Fin y => if Rleb 0 y then PInf else NInf
  | NInf, Fin y => if Rleb 0 y then NInf else PInf
  | (PInf | NInf), (PInf | NInf) => NaN
  end.

Definition is_nan (a : float) : bool :=
  match a with NaN => true | _ => false end.

End Float.

(* ================================================================== *)
(** ** The numpy and pandas reductions the code calls *)
(* ================================================================== *)

(** Sum of a list of reals; the sum of no element is [0]. *)
Definition Rsum (l : list R) : R := fold_right Rplus 0 l.

(** Arithmetic mean of a non-empty list. *)
Definition Rmean (l : list R) : R := Rsum l / INR (length l).

(** Sum of the squared deviations from the mean. *)
Definition sq_dev (l : list R) : R :=
  Rsum (map (fun x => (x - Rmean l) * (x - Rmean l)) l).

(** Sum of the products of the deviations of two lists, position by
    position. *)
Definition co_dev (a b : list R) : R :=
  Rsum (map (fun p => (fst p - Rmean a) * (snd p - Rmean b)) (combine a b)).

Module pd.

(** [Series.mean()]: NaN on an empty series. *)
Definition mean (s : list R) : float :=
  match s with
  | [] => NaN
  | _ => Fin (Rmean s)
  end.

(** [Series.std()]: the sample standard deviation ([ddof=1]), NaN when the
    series has fewer than two values.  In exact arithmetic it is 0 on every
    constant series; pandas' own result can then be a rounding error away
    from 0. *)
Definition std (s : list R) : float :=
  if (length s <=? 1)%nat then NaN
  else Fin (sqrt (sq_dev s / (INR (length s) - 1))).

(** [Series.sum()] *)
Definition sum (s : list R) : R := Rsum s.

(** [Series.cummax()] *)
Fixpoint cummax_from (m : R) (s : list R) : list R :=
  match s with
  | [] => []
  | x :: t => Rmax m x :: cummax_from (Rmax m x) t
  end.

Definition cummax (s : list R) : list R :=
  match s with
  | [] => []
  | x :: t => x :: cummax_from x t
  end.

(** The smaller of two values, NaN being skipped. *)
Definition min2 (a b : float) : float :=
  match a, b with
  | NaN, _ => b
  | _, NaN => a
  | _, _ => if Float.ltb b a then b else a
  end.

(** [Series.min()] with the default [skipna=True]: NaN only when no value
    is left. *)
Definition min (s : list float) : float := fold_right min2 NaN s.

End pd.

Module np.

(** [np.sqrt] of a non-negative constant. *)
Definition sqrt (x : R) : float := Fin (R_sqrt.sqrt x).

(** [np.mean] *)
Definition mean (a : list R) : float :=
  match a with
  | [] => NaN
  | _ => Fin (Rmean a)
  end.

(** [np.var]: the population variance ([ddof=0]); exactly 0 on a constant
    array here, up to a rounding error in numpy (see [np64]). *)
Definition var (a : list R) : float :=
  match a with
  | [] => NaN
  | _ => Fin (sq_dev a / INR (length a))
  end.

(** [np.std]: the population standard deviation ([ddof=0]); exactly 0 on a
    constant array here, up to a rounding error in numpy (see [np64]). *)
Definition std (a : list R) : float :=
  match a with
  | [] => NaN
  | _ => Fin (R_sqrt.sqrt (sq_dev a / INR (length a)))
  end.

(** Entry [[0][1]] of [np.cov(a, b)] for two arrays of equal length: the
    sample covariance ([ddof=1]); with fewer than two observations the
    normalisation divides zero by zero. *)
Definition cov01 (a b : list R) : float :=
  if (length a <=? 1)%nat then NaN
  else Fin (co_dev a b / (INR (length a) - 1)).

(** [np.clip(x, -1, 1)], which leaves NaN alone. *)
Definition clip1 (x : float) : float :=
  match x with
  | Fin r => Fin (Rmax (-1) (Rmin r 1))
  | PInf => Fin 1
  | NInf => Fin (-1)
  | NaN => NaN
  end.

(** Entry [[0][1]] of [np.corrcoef(a, b)]: the covariance divided by both
    standard deviations in turn, then clipped to [[-1, 1]]. *)
Definition corrcoef01 (a b : list R) : float :=
  if (length a <=? 1)%nat then NaN
  else
    let n1 := INR (length a) - 1 in
    let c := Fin (co_dev a b / n1) in
    let sa := Fin (R_sqrt.sqrt (sq_dev a / n1)) in
    let sb := Fin (R_sqrt.sqrt (sq_dev b / n1)) in
    clip1 (Float.div (Float.div c sa) sb).

End np.

(** [(1 + m) ** 252 - 1], the annualised value of a mean daily return. *)
Definition annualize (m : float) : float :=
  match m with
  | Fin x => Fin ((1 + x) ^ 252 - 1)
  | PInf => PInf
  | NInf => PInf
  | NaN => NaN
  end.

(* ================================================================== *)
(** ** performance_metrics.py *)
(* ================================================================== *)

(** A row of the trades frame; the metrics read its ['pnl'] column only. *)
Record Trade : Type := mkTrade { pnl : R }.

Module PerformanceMetrics.

(** [calculate_sharpe_ratio(returns, risk_free_rate)] *)
Definition calculate_sharpe_ratio (returns : list R) (risk_free_rate : R)
  : float :=
  let excess_returns := map (fun x => x - risk_free_rate / 252) returns in
  if Float.eqb (pd.std excess_returns) (Fin 0) then Fin 0
  else
    Float.mul
      (Float.div (pd.mean excess_returns) (pd.std excess_returns))
      (np.sqrt 252).

(** [calculate_sortino_ratio(returns, risk_free_rate)] *)
Definition calculate_sortino_ratio (returns : list R) (risk_free_rate : R)
  : float :=
  let excess_returns := map (fun x => x - risk_free_rate / 252) returns in
  let downside_returns := filter (fun x => Rltb x 0) excess_returns in
  if ((length downside_returns =? 0)%nat
      || Float.eqb (pd.std downside_returns) (Fin 0))%bool
  then Fin 0
  else
    Float.mul
      (Float.div (pd.mean excess_returns) (pd.std downside_returns))
      (np.sqrt 252).

(** The series [(equity_curve - cummax) / cummax]. *)
Definition drawdown (equity_curve : list R) : list float :=
  map (fun p => Float.div (Fin (fst p - snd p)) (Fin (snd p)))
      (combine equity_curve (pd.cummax equity_curve)).

(** [calculate_max_drawdown(equity_curve)] *)
Definition calculate_max_drawdown (equity_curve : list R) : float :=
  Float.mul (Float.abs (pd.min (drawdown equity_curve))) (Fin 100).

(** [calculate_calmar_ratio(returns, max_drawdown)] *)
Definition calculate_calmar_ratio (returns : list R) (max_drawdown : float)
  : float :=
  if Float.eqb max_drawdown (Fin 0) then Fin 0
  else
    let annual_return := annualize (pd.mean returns) in
    Float.div annual_return (Float.div max_drawdown (Fin 100)).

(** [calculate_win_rate(trades)] *)
Definition calculate_win_rate (trades : list Trade) : float :=
  if (length trades =? 0)%nat then Fin 0
  else
    let winning_trades := length (filter (fun t => Rltb 0 (pnl t)) trades) in
    Fin (INR winning_trades / INR (length trades) * 100).

(** [calculate_profit_factor(trades)] *)
Definition calculate_profit_factor (trades : list Trade) : float :=
  if (length trades =? 0)%nat then Fin 0
  else
    let gross_profit :=
      pd.sum (map pnl (filter (fun t => Rltb 0 (pnl t)) trades)) in
    let gross_loss :=
      Rabs (pd.sum (map pnl (filter (fun t => Rltb (pnl t) 0) trades))) in
    if Reqb gross_loss 0 then
      (if Rltb 0 gross_profit then PInf else Fin 0)
    else Float.div (Fin gross_profit) (Fin gross_loss).

End PerformanceMetrics.

(* ================================================================== *)
(** ** Python values, dictionaries, exceptions and the log *)
(* ================================================================== *)

(** The Python objects that appear in the result dictionaries. *)
#[warnings="-register-all"] Inductive value : Type :=
| VNone
| VBool (b : bool)
| VInt (z : Z)
| VFloat (x : float)
| VStr (s : string)
| VDict (d : list (string * value)).

(** A [dict] with string keys, in insertion order. *)
Definition dict : Type := list (string * value).

Module Dict.

(** [d[k]], [None] standing for a [KeyError]. *)
Fixpoint get (d : dict) (k : string) : option value :=
  match d with
  | [] => None
  | (k', v) :: t => if String.eqb k' k then Some v else get t k
  end.

(** [k in d] *)
Definition contains (d : dict) (k : string) : bool :=
  match get d k with Some _ => true | None => false end.

(** [d[k] = v]: an existing key keeps its place, a new one goes last. *)
Fixpoint set (d : dict) (k : string) (v : value) : dict :=
  match d with
  | [] => [(k, v)]
  | (k', v') :: t =>
      if String.eqb k' k then (k', v) :: t else (k', v') :: set t k v
  end.

Definition keys (d : dict) : list string := map fst d.

End Dict.

(** The number a Python value denotes in arithmetic and comparisons. *)
Definition to_float (v : value) : option float :=
  match v with
  | VInt z => Some (Fin (IZR z))
  | VFloat x => Some x
  | VBool b => Some (Fin (if b then 1 else 0))
  | _ => None
  end.

(** A raised exception: its class and its message ([str(e)]). *)
Record exn : Type := mkExn { exn_class : string; exn_msg : string }.

Inductive outcome (A : Type) : Type :=
| Ok (a : A)
| Raise (e : exn).
Arguments Ok {A} a.
Arguments Raise {A} e.

Inductive level : Type := INFO | WARNING | ERROR.

(** A record written through [loguru.logger]. *)
Definition log_record : Type := (level * string)%type.

(* ================================================================== *)
(** ** benchmark_comparison.py *)
(* ================================================================== *)

(** A [pd.Series] of numbers: its rows, label first, in order.  Labels are
    timestamps, kept as integers. *)
Definition Series : Type := list (Z * R).

Module Series.

Definition index (s : Series) : list Z := map fst s.
Definition values (s : Series) : list R := map snd s.

Definition mem (t : Z) (idx : list Z) : bool := existsb (Z.eqb t) idx.

(** [Index.unique()]: first occurrences, in order. *)
Fixpoint unique (idx : list Z) : list Z :=
  match idx with
  | [] => []
  | t :: rest => t :: filter (fun u => negb (Z.eqb u t)) (unique rest)
  end.

(** [a.intersection(b)]: the labels of [a] that occur in [b], without
    repetition, in the order of [a]. *)
Definition intersection (a b : list Z) : list Z :=
  filter (fun t => mem t b) (unique a).

(** [s.loc[idx]]: for each label of [idx] in turn, the rows of [s] that
    carry it. *)
Definition loc {A : Type} (s : list (Z * A)) (idx : list Z) : list (Z * A) :=
  flat_map (fun t => filter (fun row => Z.eqb (fst row) t) s) idx.

End Series.

Module BenchmarkComparison.

Definition insufficient_msg : string :=
  "Insufficient overlapping data for alpha/beta calculation".

(** [np.cov(a, b)] refuses two arrays of different lengths. *)
Definition cov_shape_error : exn :=
  mkExn "ValueError"
        "all the input array dimensions except for the concatenation axis must match exactly".

(** [calculate_alpha_beta(strategy_returns, benchmark_returns)]:
    what it logs and what it returns. *)
Definition calculate_alpha_beta
    (strategy_returns benchmark_returns : Series)
  : list log_record * outcome dict :=
  let common_idx :=
    Series.intersection (Series.index strategy_returns)
                        (Series.index benchmark_returns) in
  if (length common_idx <? 30)%nat then
    ([(WARNING, insufficient_msg)],
     Ok [("alpha", VInt 0); ("beta", VInt 1); ("correlation", VInt 0)]%string)
  else
    let strategy_aligned :=
      Series.values (Series.loc strategy_returns common_idx) in
    let benchmark_aligned :=
      Series.values (Series.loc benchmark_returns common_idx) in
    if negb (length strategy_aligned =? length benchmark_aligned)%nat then
      ([], Raise cov_shape_error)
    else
      let covariance := np.cov01 strategy_aligned benchmark_aligned in
      let benchmark_variance := np.var benchmark_aligned in
      let beta :=
        if Float.neqb benchmark_variance (Fin 0)
        then Float.div covariance benchmark_variance
        else Fin 1 in
      let strategy_return := annualize (pd.mean strategy_aligned) in
      let benchmark_return := annualize (pd.mean benchmark_aligned) in
      let alpha :=
        Float.sub strategy_return (Float.mul beta benchmark_return) in
      let correlation :=
        np.corrcoef01 strategy_aligned benchmark_aligned in
      ([],
       Ok [("alpha", VFloat (Float.mul alpha (Fin 100)));
           ("beta", VFloat beta);
           ("correlation", VFloat correlation)]%string).

End BenchmarkComparison.

(* ================================================================== *)
(** ** backtest_engine.py *)
(* ================================================================== *)

(** A row of the OHLCV frame that [yf.download] returns. *)
Record Bar : Type := mkBar {
  timestamp : Z;
  open : R;
  high : R;
  low : R;
  close : R;
  volume : R
}.

Definition PriceData : Type := list Bar.

(** A row of the synthetic social frame. *)
Record SocialRow : Type := mkSocialRow {
  social_timestamp : Z;
  sentiment : float;
  mentions : R
}.

Definition SocialData : Type := list SocialRow.

(** The state of numpy's global random generator: the standard normal
    deviates it is going to deliver, in order. *)
Definition rng : Type := nat -> R.

Module random.

(** [np.random.normal(loc, scale, size)]: draws [size] values and advances
    the generator. *)
Definition normal (loc scale : R) (size : nat) (g : rng) : list R * rng :=
  (map (fun i => loc + scale * g i) (seq 0 size),
   fun i => g (size + i)%nat).

End random.

(** [f"{z}"] for an integer. *)
Definition string_of_Z (z : Z) : string :=
  DecimalString.NilZero.string_of_int (Z.to_int z).

(** The finite values of an array, if all of them are. *)
Fixpoint finite_values (l : list float) : option (list R) :=
  match l with
  | [] => Some []
  | Fin x :: t =>
      match finite_values t with
      | Some rs => Some (x :: rs)
      | None => None
      end
  | _ :: _ => None
  end.

Module npf.

(** The numpy reductions on arrays that may hold infinities or NaN: one
    such entry makes the deviations from the mean NaN. *)
Definition var (a : list float) : float :=
  match finite_values a with
  | Some rs => np.var rs
  | None => NaN
  end.

Definition std (a : list float) : float :=
  match finite_values a with
  | Some rs => np.std rs
  | None => NaN
  end.

Definition cov01 (a b : list float) : float :=
  match finite_values a, finite_values b with
  | Some ra, Some rb => np.cov01 ra rb
  | _, _ => NaN
  end.

(** [np.mean]: the sum divided by the length. *)
Definition mean (a : list float) : float :=
  Float.div (fold_left Float.add a (Fin 0)) (Fin (INR (length a))).

End npf.

(** [np.mean] and [np.std] as numpy computes them in binary64 on an array of
    at most eight values: a sum starts from the first entry and adds the
    sum of the others, taken from left to right. *)
Module np64.

Definition of_nat (n : nat) : PrimFloat.float :=
  PrimFloat.of_uint63 (Uint63.of_Z (Z.of_nat n)).

Definition sum (a : list PrimFloat.float) : PrimFloat.float :=
  match a with
  | [] => PrimFloat.zero
  | x :: rest => PrimFloat.add x (fold_left PrimFloat.add rest PrimFloat.zero)
  end.

Definition mean (a : list PrimFloat.float) : PrimFloat.float :=
  PrimFloat.div (sum a) (of_nat (length a)).

Definition std (a : list PrimFloat.float) : PrimFloat.float :=
  let arrmean := mean a in
  let x := map (fun v => PrimFloat.sub v arrmean) a in
  let x := map (fun v => PrimFloat.mul v v) x in
  PrimFloat.sqrt (PrimFloat.div (sum x) (of_nat (length a))).

End np64.

Module pdf.

(** [Series.pct_change()]: [x / x.shift(1) - 1], NaN in the first row. *)
Fixpoint pct_change_from (prev : R) (l : list R) : list float :=
  match l with
  | [] => []
  | y :: t =>
      Float.sub (Float.div (Fin y) (Fin prev)) (Fin 1)
      :: pct_change_from y t
  end.

Definition pct_change (l : list R) : list float :=
  match l with
  | [] => []
  | x :: t => NaN :: pct_change_from x t
  end.

(** The mean of one full window; NaN when an entry is missing.  Windows
    that hold an infinity (a zero price) are given NaN as well. *)
Definition window_mean (w : list float) : float :=
  match finite_values w with
  | Some rs => Fin (Rmean rs)
  | None => NaN
  end.

(** [Series.rolling(k).mean()]: NaN until [k] rows are available. *)
Definition rolling_mean (k : nat) (l : list float) : list float :=
  map (fun i =>
         if (S i <? k)%nat then NaN
         else window_mean (firstn k (skipn (S i - k) l)))
      (seq 0 (length l)).

(** [Series.dropna()] *)
Definition dropna (s : list (Z * float)) : list (Z * float) :=
  filter (fun row => negb (Float.is_nan (snd row))) s.

(** [Series.max()] and [Series.min()] of finite values. *)
Definition max (s : list R) : float :=
  match s with
  | [] => NaN
  | x :: t => Fin (fold_left Rmax t x)
  end.

Definition min (s : list R) : float :=
  match s with
  | [] => NaN
  | x :: t => Fin (fold_left Rmin t x)
  end.

End pdf.

(** What the engine uses of vectorbt. *)
Module vbt.

Class API : Type := {
  Portfolio : Type;
  (** [vbt.Portfolio.from_signals(close, entries, exits, init_cash, fees,
      slippage, freq='1D')] *)
  from_signals :
    list (Z * R) -> list bool -> list bool -> R -> R -> R ->
    outcome Portfolio;
  (** [vbt.Portfolio.from_holding(close)] *)
  from_holding : list (Z * R) -> outcome Portfolio;
  total_return : Portfolio -> float;
  sharpe_ratio : Portfolio -> float;
  sortino_ratio : Portfolio -> float;
  calmar_ratio : Portfolio -> float;
  max_drawdown : Portfolio -> float;
  win_rate : Portfolio -> float;
  (** [portfolio.trades.count()] *)
  trades_count : Portfolio -> Z;
  (** [portfolio.trades.duration.mean()]: a number of days when the result
      has a [days] attribute. *)
  trades_duration_mean_days : Portfolio -> option Z;
  (** [portfolio.returns()] *)
  returns : Portfolio -> Series;
  final_value : Portfolio -> float;
  total_fees : Portfolio -> float
}.

End vbt.

(** The [outcome] monad. *)
Definition bind {A B : Type} (m : outcome A) (k : A -> outcome B)
  : outcome B :=
  match m with
  | Ok a => k a
  | Raise e => Raise e
  end.

Notation "x <- m ;; k" := (bind m (fun x => k))
  (at level 61, m at next level, right associativity).

(** Code that runs in the process of the engine shares numpy's global
    generator with it: it is handed the state of the generator, may raise,
    and leaves the generator in the state its draws brought it to, also
    when it raises. *)
Definition rand (A : Type) : Type := rng -> outcome A * rng.

Definition rbind {A B : Type} (m : rand A) (k : A -> rand B) : rand B :=
  fun g =>
    match m g with
    | (Ok a, g') => k a g'
    | (Raise e, g') => (Raise e, g')
    end.

(** A step that does not touch the generator. *)
Definition lift {A : Type} (m : outcome A) : rand A := fun g => (m, g).

Notation "x <~ m ;; k" := (rbind m (fun x => k))
  (at level 61, m at next level, right associativity).

(** An instance of a strategy class.  [generate_signals] is caller code,
    executed with [np] in scope. *)
Record Strategy : Type := mkStrategy {
  generate_signals :
    PriceData -> option SocialData -> rand (list bool * list bool)
}.

(** A strategy class, called as [strategy_class(params={})]. *)
Definition StrategyClass : Type := rand Strategy.

Definition key_error (k : string) : exn := mkExn "KeyError" k.
Definition type_error (msg : string) : exn := mkExn "TypeError" msg.

(** [d[k]], raising [KeyError]. *)
Definition getitem (d : dict) (k : string) : outcome value :=
  match Dict.get d k with
  | Some v => Ok v
  | None => Raise (key_error k)
  end.

(** The elements of a list as numbers, as [np.std] and [np.mean] need
    them. *)
Fixpoint as_floats (l : list value) : outcome (list float) :=
  match l with
  | [] => Ok []
  | v :: t =>
      match to_float v with
      | Some x => xs <- as_floats t ;; Ok (x :: xs)
      | None => Raise (type_error "unsupported operand type")
      end
  end.

Definition error_dict (msg : string) : dict := [("error"%string, VStr msg)].

(** ['error' in s] for a string [s]. *)
Definition has_substring (needle s : string) : bool :=
  match String.index 0 needle s with
  | Some _ => true
  | None => false
  end.

Module BacktestEngine.

Section Engine.

Context {V : vbt.API}.

(** [yf.download(ticker, start=now - years*365 days, end=now)]. *)
Variable yf_download : string -> Z -> outcome PriceData.

(** [exec(algorithm_code, exec_globals)] followed by the search for the first
    class whose name ends with ['Strategy'].  The code is the caller's and
    has [np] among its globals. *)
Variable exec_code : string -> rand (option StrategyClass).

(** The calendar month a timestamp falls in, months being numbered in
    order. *)
Variable month_of : Z -> Z.

Definition benchmark_ticker : string := "SPY".

(** [fetch_historical_data(ticker, years)] *)
Definition fetch_historical_data (ticker : string) (years : Z)
  : option PriceData :=
  match yf_download ticker years with
  | Ok [] => None
  | Ok data => Some data
  | Raise _ => None
  end.

(** [fetch_social_historical_data(ticker, years)] *)
Definition fetch_social_historical_data (ticker : string) (years : Z)
    (g : rng) : option SocialData * rng :=
  match fetch_historical_data ticker years with
  | None => (None, g)
  | Some price_data =>
      let returns := pdf.pct_change (map close price_data) in
      let trend := pdf.rolling_mean 5 returns in
      let (noise, g1) := random.normal 0 (1 / 10) (length price_data) g in
      let sentiments :=
        map (fun p => Float.add (fst p) (Fin (snd p))) (combine trend noise) in
      let (raw, g2) := random.normal 100 50 (length price_data) g1 in
      let mention_counts := map Rabs raw in
      (Some
         (map (fun row =>
                 mkSocialRow (timestamp (fst row)) (fst (snd row))
                             (snd (snd row)))
              (combine price_data (combine sentiments mention_counts))),
       g2)
  end.

Definition close_series (data : PriceData) : Series :=
  map (fun b => (timestamp b, close b)) data.

(** [returns.resample('M').apply(lambda x: (1 + x).prod() - 1)]: one value
    for every calendar month from the first row's to the last row's. *)
Definition monthly_returns (returns : Series) : list R :=
  match returns with
  | [] => []
  | (t0, _) :: _ =>
      let m0 := month_of t0 in
      let m1 := month_of (fst (last returns (t0, 0))) in
      map (fun i =>
             let m := (m0 + Z.of_nat i)%Z in
             fold_right Rmult 1
               (map (fun row => 1 + snd row)
                    (filter (fun row => Z.eqb (month_of (fst row)) m) returns))
             - 1)
          (seq 0 (Z.to_nat (m1 - m0 + 1)))
  end.

(** [_calculate_metrics(portfolio, price_data, ticker)] *)
Definition _calculate_metrics (portfolio : vbt.Portfolio)
    (price_data : PriceData) (ticker : string) : dict :=
  let total_return := Float.mul (vbt.total_return portfolio) (Fin 100) in
  let sharpe_ratio := vbt.sharpe_ratio portfolio in
  let max_drawdown := Float.mul (vbt.max_drawdown portfolio) (Fin 100) in
  let win_rate := Float.mul (vbt.win_rate portfolio) (Fin 100) in
  let sortino_ratio := vbt.sortino_ratio portfolio in
  let calmar_ratio := vbt.calmar_ratio portfolio in
  let total_trades := vbt.trades_count portfolio in
  let avg_trade_duration := vbt.trades_duration_mean_days portfolio in
  let monthly := monthly_returns (vbt.returns portfolio) in
  [ ("total_return", VFloat total_return);
    ("sharpe_ratio", VFloat sharpe_ratio);
    ("sortino_ratio", VFloat sortino_ratio);
    ("calmar_ratio", VFloat calmar_ratio);
    ("max_drawdown", VFloat max_drawdown);
    ("win_rate", VFloat win_rate);
    ("total_trades", VInt total_trades);
    ("avg_trade_duration_days",
      VInt (match avg_trade_duration with Some d => d | None => 0%Z end));
    ("best_month", VFloat (Float.mul (pdf.max monthly) (Fin 100)));
    ("worst_month", VFloat (Float.mul (pdf.min monthly) (Fin 100)));
    ("positive_months",
      VInt (Z.of_nat (length (filter (fun m => Rltb 0 m) monthly))));
    ("negative_months",
      VInt (Z.of_nat (length (filter (fun m => Rltb m 0) monthly))));
    ("final_portfolio_value", VFloat (vbt.final_value portfolio));
    ("total_fees_paid", VFloat (vbt.total_fees portfolio)) ]%string.

(** [_compare_with_benchmark(portfolio, ticker, years)] *)
Definition _compare_with_benchmark (portfolio : vbt.Portfolio)
    (ticker : string) (years : Z) : dict :=
  let attempt : outcome dict :=
    match fetch_historical_data benchmark_ticker years with
    | None => Ok (error_dict "Benchmark data unavailable")
    | Some spy_data =>
        let closes := map close spy_data in
        let spy_returns :=
          Float.mul
            (Float.sub (Float.div (Fin (last closes 0)) (Fin (hd 0 closes)))
                       (Fin 1))
            (Fin 100) in
        let strategy_returns :=
          Float.mul (vbt.total_return portfolio) (Fin 100) in
        let alpha := Float.sub strategy_returns spy_returns in
        let portfolio_returns :=
          map (fun row => (fst row, Fin (snd row))) (vbt.returns portfolio) in
        let spy_daily_returns :=
          pdf.dropna
            (combine (map timestamp spy_data) (pdf.pct_change closes)) in
        let common_idx :=
          Series.intersection (map fst portfolio_returns)
                              (map fst spy_daily_returns) in
        let portfolio_returns_aligned :=
          map snd (Series.loc portfolio_returns common_idx) in
        let spy_returns_aligned :=
          map snd (Series.loc spy_daily_returns common_idx) in
        if negb (length portfolio_returns_aligned
                 =? length spy_returns_aligned)%nat
        then Raise BenchmarkComparison.cov_shape_error
        else
          let covariance :=
            npf.cov01 portfolio_returns_aligned spy_returns_aligned in
          let market_variance := npf.var spy_returns_aligned in
          let beta :=
            if Float.neqb market_variance (Fin 0)
            then Float.div covariance market_variance
            else Fin 1 in
          holding <- vbt.from_holding (close_series spy_data) ;;
          let relative_sharpe :=
            if Float.neqb (vbt.sharpe_ratio holding) (Fin 0)
            then VFloat (Float.div (vbt.sharpe_ratio portfolio)
                                   (vbt.sharpe_ratio holding))
            else VInt 0 in
          Ok [ ("sp500_return", VFloat spy_returns);
               ("strategy_return", VFloat strategy_returns);
               ("alpha", VFloat alpha);
               ("beta", VFloat beta);
               ("outperformance", VBool (Float.gtb alpha (Fin 0)));
               ("relative_sharpe", relative_sharpe) ]%string
    end in
  match attempt with
  | Ok d => d
  | Raise e => error_dict (exn_msg e)
  end.

(** [run_backtest(algorithm_code, ticker, years, initial_capital)]: the
    dictionary it returns and the generator state it leaves. *)
Definition run_backtest (algorithm_code ticker : string) (years : Z)
    (initial_capital : R) (g : rng) : dict * rng :=
  let price_data := fetch_historical_data ticker years in
  let (social_data, g') := fetch_social_historical_data ticker years g in
  match price_data with
  | None => (error_dict "Data fetch failed", g')
  | Some price_data =>
      let attempt : rand dict :=
        found <~ exec_code algorithm_code ;;
        match found with
        | None => lift (Ok (error_dict "No strategy class found in code"))
        | Some strategy_class =>
            strategy <~ strategy_class ;;
            signals <~ generate_signals strategy price_data social_data ;;
            lift
              (portfolio <-
                 vbt.from_signals (close_series price_data)
                                  (fst signals) (snd signals)
                                  initial_capital (1 / 1000) (5 / 10000) ;;
               let results :=
                 _calculate_metrics portfolio price_data ticker in
               let benchmark_comparison :=
                 _compare_with_benchmark portfolio ticker years in
               let results :=
                 Dict.set results "benchmark_comparison"
                          (VDict benchmark_comparison) in
               let results :=
                 Dict.set results "backtest_period"
                          (VStr (string_of_Z years ++ " years")) in
               let results := Dict.set results "ticker" (VStr ticker) in
               Ok results)
        end in
      match attempt g' with
      | (Ok d, g'') => (d, g'')
      | (Raise e, g'') => (error_dict (exn_msg e), g'')
      end
  end.

(** The dictionary [run_backtest] returns once the simulation has produced a
    portfolio: the metrics with the three entries added at the end. *)
Definition report_of (portfolio : vbt.Portfolio) (price_data : PriceData)
    (ticker : string) (years : Z) : dict :=
  Dict.set
    (Dict.set
       (Dict.set (_calculate_metrics portfolio price_data ticker)
                 "benchmark_comparison"
                 (VDict (_compare_with_benchmark portfolio ticker years)))
       "backtest_period" (VStr (string_of_Z years ++ " years")))
    "ticker" (VStr ticker).

(** The loop body of [_analyze_consistency]: the Sharpe ratios and total
    returns of the windows without an ['error'] entry, in order. *)
Fixpoint collect_windows (items : dict)
  : outcome (list value * list value) :=
  match items with
  | [] => Ok ([], [])
  | (period, data) :: rest =>
      if negb (String.eqb period "consistency_analysis") then
        match data with
        | VDict d =>
            if negb (Dict.contains d "error") then
              s <- getitem d "sharpe_ratio" ;;
              r <- getitem d "total_return" ;;
              acc <- collect_windows rest ;;
              Ok (s :: fst acc, r :: snd acc)
            else collect_windows rest
        | VStr text =>
            if negb (has_substring "error" text)
            then Raise (type_error "string indices must be integers")
            else collect_windows rest
        | _ => Raise (type_error "argument is not iterable")
        end
      else collect_windows rest
  end.

(** [_analyze_consistency(results)] *)
Definition _analyze_consistency (results : dict) : outcome dict :=
  acc <- collect_windows results ;;
  match fst acc with
  | [] => Ok []
  | _ =>
      sharpe_ratios <- as_floats (fst acc) ;;
      returns <- as_floats (snd acc) ;;
      Ok [ ("sharpe_consistency", VFloat (npf.std sharpe_ratios));
           ("return_consistency", VFloat (npf.std returns));
           ("avg_sharpe", VFloat (npf.mean sharpe_ratios));
           ("avg_return", VFloat (npf.mean returns));
           ("is_consistent",
             VBool (Float.ltb (npf.std sharpe_ratios) (Fin (1 / 2)))) ]%string
  end.

(** The key [f'{years}Y'] of a window. *)
Definition period_key (years : Z) : string := (string_of_Z years ++ "Y")%string.

(** The loop of [run_multiple_backtests]. *)
Fixpoint run_periods (algorithm_code ticker : string) (periods : list Z)
    (results : dict) (g : rng) : dict * rng :=
  match periods with
  | [] => (results, g)
  | years :: rest =>
      let (result, g') := run_backtest algorithm_code ticker years 100000 g in
      run_periods algorithm_code ticker rest
                  (Dict.set results (period_key years) (VDict result)) g'
  end.

(** [run_multiple_backtests(algorithm_code, ticker, periods)] *)
Definition run_multiple_backtests (algorithm_code ticker : string)
    (periods : list Z) (g : rng) : outcome dict * rng :=
  let (results, g') := run_periods algorithm_code ticker periods [] g in
  (analysis <- _analyze_consistency results ;;
   Ok (Dict.set results "consistency_analysis" (VDict analysis)),
   g').

End Engine.

End BacktestEngine.

(* ================================================================== *)
(** ** Loading a Python module *)
(* ================================================================== *)

(** What the interpreter does with the top-level statements of a module as
    far as name binding goes: imports bind names, a [class] statement runs
    its body, and a [def] statement evaluates the default values and the
    annotations of its parameters (not its body) when it is executed. *)
Module Py.

#[warnings="-register-all"] Inductive expr : Type :=
| Name (id : string)
| Attribute (e : expr) (attr : string)
| Subscript (e : expr) (index : expr)
| Constant
| ListLit (elts : list expr).

Record arg : Type := mkArg {
  arg_name : string;
  annotation : option expr;
  default : option expr
}.

#[warnings="-register-all"] Inductive stmt : Type :=
| Import (module asname : string)
| ImportFrom (module : string) (names : list string)
| ClassDef (name : string) (body : list stmt)
| FunctionDef (name : string) (args : list arg) (returns : option expr)
| Docstring.

Definition name_error (id : string) : exn :=
  mkExn "NameError" ("name '" ++ id ++ "' is not defined")%string.

(** Some names of the [builtins] module. *)
Definition builtins : list string :=
  [ "object"; "type"; "int"; "float"; "bool"; "str"; "bytes"; "list";
    "tuple"; "dict"; "set"; "frozenset"; "len"; "range"; "abs"; "isinstance";
    "hasattr"; "exec"; "print"; "Exception"; "None"; "True"; "False" ]%string.

Definition bound (id : string) (scope : list string) : bool :=
  existsb (String.eqb id) scope.

(** Evaluating an expression in a scope: the first unbound name raises.
    Attributes of bound objects are taken to exist. *)
Fixpoint eval (scope : list string) (e : expr) : outcome unit :=
  match e with
  | Name id => if bound id scope then Ok tt else Raise (name_error id)
  | Attribute e' _ => eval scope e'
  | Subscript e' index => _ <- eval scope e' ;; eval scope index
  | Constant => Ok tt
  | ListLit elts =>
      (fix eval_all (l : list expr) : outcome unit :=
         match l with
         | [] => Ok tt
         | x :: t => _ <- eval scope x ;; eval_all t
         end) elts
  end.

Definition eval_opt (scope : list string) (e : option expr) : outcome unit :=
  match e with
  | Some e' => eval scope e'
  | None => Ok tt
  end.

Fixpoint eval_each (scope : list string) (es : list (option expr))
  : outcome unit :=
  match es with
  | [] => Ok tt
  | e :: t => _ <- eval_opt scope e ;; eval_each scope t
  end.

(** Executing statements: [locals] is the namespace being filled (the
    module's globals at top level, the class namespace inside a class body)
    and [enclosing] what is visible besides it. *)
Fixpoint exec (enclosing locals : list string) (s : stmt)
  : outcome (list string) :=
  match s with
  | Import _ asname => Ok (locals ++ [asname])
  | ImportFrom _ names => Ok (locals ++ names)
  | Docstring => Ok locals
  | FunctionDef name args returns =>
      let scope := locals ++ enclosing in
      _ <- eval_each scope (map default args) ;;
      _ <- eval_each scope (map annotation args) ;;
      _ <- eval_opt scope returns ;;
      Ok (locals ++ [name])
  | ClassDef name body =>
      _ <- (fix exec_body (class_ns : list string) (l : list stmt)
              : outcome (list string) :=
              match l with
              | [] => Ok class_ns
              | s' :: t =>
                  class_ns' <- exec (locals ++ enclosing) class_ns s' ;;
                  exec_body class_ns' t
              end) [] body ;;
      Ok (locals ++ [name])
  end.

Fixpoint exec_all (enclosing locals : list string) (l : list stmt)
  : outcome (list string) :=
  match l with
  | [] => Ok locals
  | s :: t => locals' <- exec enclosing locals s ;; exec_all enclosing locals' t
  end.

(** Running a module's code: the globals it ends with, or the exception
    that aborts the import. *)
Definition load_module (code : list stmt) : outcome (list string) :=
  exec_all builtins [] code.

(** [from <module> import <name>] *)
Definition import_from (code : list stmt) (name : string) : outcome unit :=
  globals <- load_module code ;;
  if bound name globals then Ok tt
  else Raise (mkExn "ImportError"
                    ("cannot import name '" ++ name ++ "'")%string).

End Py.

(** The top level of [src/backtest/backtest_engine.py]. *)
Definition backtest_engine_py : list Py.stmt :=
  let self := Py.mkArg "self" None None in
  let annotated name ann := Py.mkArg name (Some ann) None in
  let defaulted name ann := Py.mkArg name (Some ann) (Some Py.Constant) in
  let str := Py.Name "str" in
  let int := Py.Name "int" in
  let Dict := Py.Name "Dict" in
  let DataFrame := Py.Attribute (Py.Name "pd") "DataFrame" in
  let Portfolio := Py.Attribute (Py.Name "vbt") "Portfolio" in
  [ Py.Import "vectorbt" "vbt";
    Py.Import "pandas" "pd";
    Py.Import "numpy" "np";
    Py.ImportFrom "datetime" ["datetime"; "timedelta"];
    Py.ImportFrom "typing" ["Dict"; "Tuple"];
    Py.ImportFrom "loguru" ["logger"];
    Py.Import "yfinance" "yf";
    Py.ClassDef "BacktestEngine"
      [ Py.Docstring;
        Py.FunctionDef "__init__" [self] None;
        Py.FunctionDef "fetch_historical_data"
          [self; annotated "ticker" str; defaulted "years" int]
          (Some DataFrame);
        Py.FunctionDef "fetch_social_historical_data"
          [self; annotated "ticker" str; defaulted "years" int]
          (Some DataFrame);
        Py.FunctionDef "run_backtest"
          [self; annotated "algorithm_code" str; annotated "ticker" str;
           defaulted "years" int;
           defaulted "initial_capital" (Py.Name "float")]
          (Some Dict);
        Py.FunctionDef "_calculate_metrics"
          [self; annotated "portfolio" Portfolio;
           annotated "price_data" DataFrame; annotated "ticker" str]
          (Some Dict);
        Py.FunctionDef "_compare_with_benchmark"
          [self; annotated "portfolio" Portfolio; annotated "ticker" str;
           annotated "years" int]
          (Some Dict);
        Py.FunctionDef "run_multiple_backtests"
          [self; annotated "algorithm_code" str; annotated "ticker" str;
           Py.mkArg "periods"
             (Some (Py.Subscript (Py.Name "List") int))
             (Some (Py.ListLit [Py.Constant; Py.Constant]))]
          (Some Dict);
        Py.FunctionDef "_analyze_consistency"
          [self; annotated "results" Dict]
          (Some Dict) ] ]%string.

(** The same module with [List] added to the [typing] import. *)
Definition backtest_engine_py_with_List : list Py.stmt :=
  map (fun s =>
         match s with
         | Py.ImportFrom "typing" names =>
             Py.ImportFrom "typing" (names ++ ["List"%string])
         | other => other
         end)
      backtest_engine_py.

(* ================================================================== *)
(** ** A portfolio simulator to run the engine with *)
(* ================================================================== *)

(** Modelled from the spec: the engine delegates the simulation to
    vectorbt's [Portfolio.from_signals], a third-party library whose source
    is not in the repository.  This module follows the PortfolioSimulator of
    the specification (section 4.1: a FLAT/LONG machine walked bar by bar,
    full-capital long-only sizing, slippage on the execution price, a fee on
    the notional of both legs, open positions marked to market and kept out
    of the ledger) and derives the report figures with [PerformanceMetrics].
    It serves as an instance of [vbt.API] on which the engine can be run on
    concrete data. *)
Module PortfolioSimulator.

Inductive Position : Type :=
| FLAT
| LONG (entry_timestamp : Z) (entry_price quantity entry_fee : R).

Record ClosedTrade : Type := mkClosedTrade {
  entry_timestamp : Z;
  exit_timestamp : Z;
  entry_price : R;
  exit_price : R;
  quantity : R;
  gross_pnl : R;
  fees_paid : R;
  net_pnl : R;
  duration : Z
}.

Record State : Type := mkState {
  position : Position;
  cash : R;
  ledger : list ClosedTrade;
  equity : Series;
  fees : R
}.

Record Portfolio : Type := mkPortfolio {
  init_cash : R;
  final : State
}.

Definition simulation_error (msg : string) : exn :=
  mkExn "SimulationError" msg.

(** One bar of the walk. *)
Definition step (fee_rate slippage_rate : R) (st : State) (bar : Z * R)
    (enter exit : bool) : outcome State :=
  let t := fst bar in
  let price := snd bar in
  match position st with
  | FLAT =>
      if enter then
        let exec_price := price * (1 + slippage_rate) in
        if Rleb exec_price 0
        then Raise (simulation_error "non-positive entry price")
        else
          let q := cash st / exec_price in
          let fee := fee_rate * (q * exec_price) in
          Ok (mkState (LONG t exec_price q fee) (cash st) (ledger st)
                      (equity st ++ [(t, q * price - fee)])
                      (fees st + fee))
      else
        Ok (mkState FLAT (cash st) (ledger st)
                    (equity st ++ [(t, cash st)]) (fees st))
  | LONG t0 p0 q fee0 =>
      if exit then
        let exec_price := price * (1 - slippage_rate) in
        let proceeds := q * exec_price in
        let fee1 := fee_rate * proceeds in
        let gross := proceeds - q * p0 in
        let cash' := proceeds - fee0 - fee1 in
        Ok (mkState FLAT cash'
                    (ledger st ++
                     [mkClosedTrade t0 t p0 exec_price q gross (fee0 + fee1)
                                    (gross - (fee0 + fee1)) (t - t0)])
                    (equity st ++ [(t, cash')])
                    (fees st + fee1))
      else
        Ok (mkState (LONG t0 p0 q fee0) (cash st) (ledger st)
                    (equity st ++ [(t, q * price - fee0)]) (fees st))
  end.

Fixpoint walk (fee_rate slippage_rate : R) (st : State)
    (bars : list ((Z * R) * (bool * bool))) : outcome State :=
  match bars with
  | [] => Ok st
  | (bar, (enter, exit)) :: rest =>
      st' <- step fee_rate slippage_rate st bar enter exit ;;
      walk fee_rate slippage_rate st' rest
  end.

(** [simulate(price_series, signal_series, initial_capital, fee_rate,
    slippage_rate)] *)
Definition simulate (prices : Series) (enter exit : list bool)
    (initial_capital fee_rate slippage_rate : R) : outcome Portfolio :=
  if negb ((length enter =? length prices)%nat
           && (length exit =? length prices)%nat)
  then Raise (simulation_error "signal/price length mismatch")
  else
    st <- walk fee_rate slippage_rate
               (mkState FLAT initial_capital [] [] 0)
               (combine prices (combine enter exit)) ;;
    Ok (mkPortfolio initial_capital st).

Definition final_value (p : Portfolio) : R :=
  snd (last (equity (final p)) (0%Z, init_cash p)).

(** The bar-to-bar returns of the equity curve, [0] on the first bar. *)
Fixpoint returns_from (prev : R) (curve : Series) : Series :=
  match curve with
  | [] => []
  | (t, e) :: rest => (t, (e - prev) / prev) :: returns_from e rest
  end.

Definition returns (p : Portfolio) : Series :=
  match equity (final p) with
  | [] => []
  | (t, e) :: rest => (t, 0) :: returns_from e rest
  end.

Definition trades (p : Portfolio) : list Trade :=
  map (fun c => mkTrade (net_pnl c)) (ledger (final p)).

Definition max_drawdown_pct (p : Portfolio) : float :=
  PerformanceMetrics.calculate_max_drawdown (Series.values (equity (final p))).

Definition mean_duration (p : Portfolio) : option Z :=
  match ledger (final p) with
  | [] => None
  | l => Some (fold_right Z.add 0%Z (map duration l) / Z.of_nat (length l))%Z
  end.

#[export] Instance api : vbt.API := {|
  vbt.Portfolio := Portfolio;
  vbt.from_signals := simulate;
  vbt.from_holding close :=
    simulate close (map (fun i => Nat.eqb i 0) (seq 0 (length close)))
             (map (fun _ => false) close) 100 0 0;
  vbt.total_return p := Float.div (Fin (final_value p - init_cash p))
                                  (Fin (init_cash p));
  vbt.sharpe_ratio p :=
    PerformanceMetrics.calculate_sharpe_ratio (Series.values (returns p))
                                              (2 / 100);
  vbt.sortino_ratio p :=
    PerformanceMetrics.calculate_sortino_ratio (Series.values (returns p))
                                               (2 / 100);
  vbt.calmar_ratio p :=
    PerformanceMetrics.calculate_calmar_ratio (Series.values (returns p))
                                              (max_drawdown_pct p);
  vbt.max_drawdown p := Float.div (max_drawdown_pct p) (Fin 100);
  vbt.win_rate p :=
    Float.div (PerformanceMetrics.calculate_win_rate (trades p)) (Fin 100);
  vbt.trades_count p := Z.of_nat (length (ledger (final p)));
  vbt.trades_duration_mean_days := mean_duration;
  vbt.returns := returns;
  vbt.final_value p := Fin (final_value p);
  vbt.total_fees p := Fin (fees (final p))
|}.

End PortfolioSimulator.

(* ================================================================== *)
(** ** performance_metrics.py and benchmark_comparison.py, continued *)
(* ================================================================== *)

(** [s.iloc[-1]] and [s.iloc[0]] on an empty series. *)
Definition index_error : exn :=
  mkExn "IndexError" "single positional indexer is out-of-bounds".

(** [((s.iloc[-1] / s.iloc[0]) - 1) * 100] for a series whose first value
    is [first]. *)
Definition total_return_pct (first : R) (s : list R) : float :=
  Float.mul
    (Float.sub (Float.div (Fin (last s 0)) (Fin first)) (Fin 1))
    (Fin 100).

Module MetricsReport.

(** [PerformanceMetrics.calculate_all_metrics(returns, equity_curve,
    trades)], with the default risk-free rate of the two ratios. *)
Definition calculate_all_metrics (returns equity_curve : list R)
    (trades : list Trade) : outcome dict :=
  let max_dd := PerformanceMetrics.calculate_max_drawdown equity_curve in
  match equity_curve with
  | [] => Raise index_error
  | first :: _ =>
      Ok [ ("sharpe_ratio",
             VFloat (PerformanceMetrics.calculate_sharpe_ratio returns
                                                               (2 / 100)));
           ("sortino_ratio",
             VFloat (PerformanceMetrics.calculate_sortino_ratio returns
                                                                (2 / 100)));
           ("max_drawdown", VFloat max_dd);
           ("calmar_ratio",
             VFloat (PerformanceMetrics.calculate_calmar_ratio returns max_dd));
           ("win_rate", VFloat (PerformanceMetrics.calculate_win_rate trades));
           ("profit_factor",
             VFloat (PerformanceMetrics.calculate_profit_factor trades));
           ("total_return", VFloat (total_return_pct first equity_curve));
           ("annual_return",
             VFloat (Float.mul (annualize (pd.mean returns)) (Fin 100)));
           ("annual_volatility",
             VFloat (Float.mul (Float.mul (pd.std returns) (np.sqrt 252))
                               (Fin 100))) ]%string
  end.

End MetricsReport.

(** A series of floats, as [pct_change] produces it: a zero in the
    denominator gives an infinity, or NaN under a zero numerator. *)
Definition FloatSeries : Type := list (Z * float).

Module BenchmarkReport.

(** [s.pct_change()] on a labelled series. *)
Definition pct_change (s : Series) : FloatSeries :=
  combine (Series.index s) (pdf.pct_change (Series.values s)).

(** Entry [[0][1]] of [np.corrcoef(a, b)] on arrays that may hold
    infinities. *)
Definition corrcoef01 (a b : list float) : float :=
  match finite_values a, finite_values b with
  | Some ra, Some rb => np.corrcoef01 ra rb
  | _, _ => NaN
  end.

(** [Series.mean()] with the default [skipna=True]. *)
Definition mean (a : list float) : float :=
  npf.mean (filter (fun x => negb (Float.is_nan x)) a).

(** [calculate_alpha_beta] on the series [compare] hands it. *)
Definition calculate_alpha_beta
    (strategy_returns benchmark_returns : FloatSeries)
  : list log_record * outcome dict :=
  let common_idx :=
    Series.intersection (map fst strategy_returns)
                        (map fst benchmark_returns) in
  if (length common_idx <? 30)%nat then
    ([(WARNING, BenchmarkComparison.insufficient_msg)],
     Ok [("alpha", VInt 0); ("beta", VInt 1); ("correlation", VInt 0)]%string)
  else
    let strategy_aligned :=
      map snd (Series.loc strategy_returns common_idx) in
    let benchmark_aligned :=
      map snd (Series.loc benchmark_returns common_idx) in
    if negb (length strategy_aligned =? length benchmark_aligned)%nat then
      ([], Raise BenchmarkComparison.cov_shape_error)
    else
      let covariance := npf.cov01 strategy_aligned benchmark_aligned in
      let benchmark_variance := npf.var benchmark_aligned in
      let beta :=
        if Float.neqb benchmark_variance (Fin 0)
        then Float.div covariance benchmark_variance
        else Fin 1 in
      let strategy_return := annualize (mean strategy_aligned) in
      let benchmark_return := annualize (mean benchmark_aligned) in
      let alpha :=
        Float.sub strategy_return (Float.mul beta benchmark_return) in
      let correlation := corrcoef01 strategy_aligned benchmark_aligned in
      ([],
       Ok [("alpha", VFloat (Float.mul alpha (Fin 100)));
           ("beta", VFloat beta);
           ("correlation", VFloat correlation)]%string).

(** [compare(strategy_equity, benchmark_equity)]: what it logs and what it
    returns. *)
Definition compare (strategy_equity benchmark_equity : Series)
  : list log_record * outcome dict :=
  let strategy_returns := pdf.dropna (pct_change strategy_equity) in
  let benchmark_returns := pdf.dropna (pct_change benchmark_equity) in
  let (log, alpha_beta) :=
    calculate_alpha_beta strategy_returns benchmark_returns in
  (log,
   alpha_beta <- alpha_beta ;;
   match Series.values strategy_equity, Series.values benchmark_equity with
   | [], _ => Raise index_error
   | _ :: _, [] => Raise index_error
   | s0 :: _, b0 :: _ =>
       let strategy_total_return :=
         total_return_pct s0 (Series.values strategy_equity) in
       let benchmark_total_return :=
         total_return_pct b0 (Series.values benchmark_equity) in
       alpha <- getitem alpha_beta "alpha" ;;
       beta <- getitem alpha_beta "beta" ;;
       correlation <- getitem alpha_beta "correlation" ;;
       Ok [ ("strategy_return", VFloat strategy_total_return);
            ("benchmark_return", VFloat benchmark_total_return);
            ("outperformance",
              VFloat (Float.sub strategy_total_return benchmark_total_return));
            ("alpha", alpha);
            ("beta", beta);
            ("correlation", correlation);
            ("beats_benchmark",
              VBool (Float.gtb strategy_total_return benchmark_total_return))
          ]%string
   end).

Section Fetch.

(** [yf.download(ticker, start=start_date, end=end_date)]. *)
Variable yf_download : string -> Z -> Z -> outcome PriceData.

(** [self.benchmark_ticker] *)
Variable benchmark_ticker : string.

(** [fetch_benchmark_data(start_date, end_date)]: the closing prices, or an
    empty series after any exception. *)
Definition fetch_benchmark_data (start_date end_date : Z)
  : list log_record * Series :=
  match yf_download benchmark_ticker start_date end_date with
  | Ok benchmark => ([], BacktestEngine.close_series benchmark)
  | Raise e =>
      ([(ERROR, ("Error fetching benchmark: " ++ exn_msg e)%string)], [])
  end.

End Fetch.

End BenchmarkReport.

(* ================================================================== *)
(** ** The notions the specification uses *)
(* ================================================================== *)

(** *** Drawdown *)

(** The maximum and the minimum of a non-empty list. *)
Fixpoint list_max (l : list R) : R :=
  match l with
  | [] => 0
  | x :: t => match t with [] => x | _ => Rmax x (list_max t) end
  end.

Fixpoint list_min (l : list R) : R :=
  match l with
  | [] => 0
  | x :: t => match t with [] => x | _ => Rmin x (list_min t) end
  end.

(** [M_t = max(E_0..E_t)] *)
Definition running_max (E : list R) (t : nat) : R :=
  list_max (firstn (S t) E).

(** [drawdown_t = (E_t - M_t) / M_t] *)
Definition drawdown_at (E : list R) (t : nat) : R :=
  (nth t E 0 - running_max E t) / running_max E t.

(** [abs(min(drawdown_t)) * 100] *)
Definition max_drawdown_formula (E : list R) : R :=
  Rabs (list_min (map (drawdown_at E) (seq 0 (length E)))) * 100.

Definition non_decreasing (E : list R) : Prop :=
  forall i j, (i <= j < length E)%nat -> nth i E 0 <= nth j E 0.

(** At bar [j] the curve is strictly below an earlier value. *)
Definition falls_below_peak (E : list R) : Prop :=
  exists i j, (i < j < length E)%nat /\ nth j E 0 < nth i E 0.

(** *** Benchmark comparison *)

(** A series of thirty daily returns alternating between 1% and 3%, on
    thirty consecutive timestamps. *)
Definition zigzag_returns : Series :=
  map (fun i => (Z.of_nat i, if Nat.even i then 1 / 100 else 3 / 100))
      (seq 0 30).


(** The record returned on insufficient overlap. *)
Definition degenerate_result : dict :=
  [ ("alpha", VInt 0); ("beta", VInt 1); ("correlation", VInt 0) ]%string.

(** A record carries a flag when it has an entry besides the three
    figures. *)
Definition carries_flag (d : dict) : Prop :=
  exists k, In k (Dict.keys d)
            /\ k <> "alpha"%string /\ k <> "beta"%string
            /\ k <> "correlation"%string.

Definition overlap (s b : Series) : nat :=
  length (Series.intersection (Series.index s) (Series.index b)).


(** *** Consistency across windows *)

(** The reports of the windows that succeeded: the entries of the results
    that are dictionaries without an ['error'] key. *)
Fixpoint successful_windows (results : dict) : list dict :=
  match results with
  | [] => []
  | (_, VDict d) :: rest =>
      if Dict.contains d "error" then successful_windows rest
      else d :: successful_windows rest
  | _ :: rest => successful_windows rest
  end.

(** The float stored under a key of a report. *)
Definition float_entry (k : string) (d : dict) : float :=
  match Dict.get d k with
  | Some (VFloat x) => x
  | _ => NaN
  end.

Definition sharpe_ratios_of (results : dict) : list float :=
  map (float_entry "sharpe_ratio") (successful_windows results).

Definition total_returns_of (results : dict) : list float :=
  map (float_entry "total_return") (successful_windows results).

(** The population standard deviation: the square root of the mean squared
    deviation from the mean. *)
Definition population_std (l : list R) : R :=
  sqrt (Rmean (map (fun x => (x - Rmean l) ^ 2) l)).

(** The aggregate over the Sharpe ratios and total returns of the
    successful windows; empty when there is none. *)
Definition consistency_report (sharpes totals : list float) : dict :=
  match sharpes with
  | [] => []
  | _ =>
      [ ("sharpe_consistency", VFloat (npf.std sharpes));
        ("return_consistency", VFloat (npf.std totals));
        ("avg_sharpe", VFloat (npf.mean sharpes));
        ("avg_return", VFloat (npf.mean totals));
        ("is_consistent",
          VBool (Float.ltb (npf.std sharpes) (Fin (1 / 2)))) ]%string
  end.

(** A result of [run_backtest]: an error record, or a report with its
    Sharpe ratio and total return. *)
Definition window_result (d : dict) : Prop :=
  Dict.contains d "error" = true
  \/ (Dict.contains d "error" = false
      /\ exists s r, Dict.get d "sharpe_ratio" = Some (VFloat s)
                     /\ Dict.get d "total_return" = Some (VFloat r)).

(** Results that hold one [run_backtest] result per window and nothing
    else. *)
Definition window_results (results : dict) : Prop :=
  Forall (fun kv => fst kv <> "consistency_analysis"%string
                    /\ exists d, snd kv = VDict d /\ window_result d)
         results.

(** Two windows whose Sharpe ratio is infinite, as vectorbt reports it for
    returns without any variation. *)
Definition infinite_sharpe_results : dict :=
  [ ("1Y", VDict [ ("total_return", VFloat (Fin 0));
                   ("sharpe_ratio", VFloat PInf) ]);
    ("5Y", VDict [ ("total_return", VFloat (Fin 0));
                   ("sharpe_ratio", VFloat PInf) ]) ]%string.


(** *** Runs of the engine on concrete data *)

(** The strategies algorithm code can come to: the instances of the class
    it defines, under some state of the generator. *)
Definition yields_strategy (code : rand (option StrategyClass))
    (strategy : Strategy) : Prop :=
  exists g strategy_class h,
    fst (code g) = Ok (Some strategy_class)
    /\ fst (strategy_class h) = Ok strategy.

(** The signals of the strategy do not depend on the social data it is
    given. *)
Definition ignores_social_data (code : rand (option StrategyClass))
  : Prop :=
  forall strategy, yields_strategy code strategy ->
  forall price_data s1 s2 g,
    generate_signals strategy price_data s1 g
    = generate_signals strategy price_data s2 g.

(** What the algorithm code, the constructor of its class and
    [generate_signals] return does not depend on the state of the
    generator. *)
Definition ignores_generator (code : rand (option StrategyClass)) : Prop :=
  (forall g1 g2, fst (code g1) = fst (code g2))
  /\ (forall g strategy_class,
        fst (code g) = Ok (Some strategy_class) ->
        forall h1 h2, fst (strategy_class h1) = fst (strategy_class h2))
  /\ (forall strategy, yields_strategy code strategy ->
      forall price_data social_data g1 g2,
        fst (generate_signals strategy price_data social_data g1)
        = fst (generate_signals strategy price_data social_data g2)).


(** A strategy that buys on the bars whose mention count exceeds 100 and
    never sells. *)
Definition mention_strategy : Strategy :=
  mkStrategy
    (fun price_data social_data =>
       lift
         match social_data with
         | Some rows =>
             Ok (map (fun row => Rltb 100 (mentions row)) rows,
                 map (fun _ => false) rows)
         | None =>
             Ok (map (fun _ => false) price_data,
                 map (fun _ => false) price_data)
         end).

(** A strategy that buys on the first bar and holds. *)
Definition hold_strategy : Strategy :=
  mkStrategy
    (fun price_data _ =>
       lift (Ok (map (fun _ => true) price_data,
                 map (fun _ => false) price_data))).

(** A strategy that ignores the social data and buys on the bars for which
    [np.random.normal(0, 1)] comes out above 1/2. *)
Definition coin_strategy : Strategy :=
  mkStrategy
    (fun price_data _ g =>
       let (draws, g') := random.normal 0 1 (length price_data) g in
       (Ok (map (fun x => Rltb (1 / 2) x) draws,
            map (fun _ => false) price_data),
        g')).

(** Algorithm code that defines the class of a strategy and draws nothing. *)
Definition class_of (strategy : Strategy) (code : string)
  : rand (option StrategyClass) :=
  lift (Ok (Some (lift (Ok strategy)))).

(** Algorithm code that defines no strategy class. *)
Definition no_class (code : string) : rand (option StrategyClass) :=
  lift (Ok None).

(** A data provider with a single bar at 100. *)
Definition one_bar (ticker : string) (years : Z) : outcome PriceData :=
  Ok [mkBar 0 100 100 100 100 1000].

(** A data provider that is down. *)
Definition no_data (ticker : string) (years : Z) : outcome PriceData :=
  Raise (mkExn "ConnectionError" "no route to host").

Definition thirty_day_months (t : Z) : Z := (t / 30)%Z.

(** Two states of the random generator. *)
Definition quiet : rng := fun _ => 0.
Definition loud : rng := fun _ => 1.

(** The doubles nearest to 0.1 and to 0.5. *)
Definition tenth : PrimFloat.float :=
  PrimFloat.div (np64.of_nat 1) (np64.of_nat 10).
Definition half : PrimFloat.float :=
  PrimFloat.div (np64.of_nat 1) (np64.of_nat 2).

(** Two windows with the same Sharpe ratio. *)
Definition steady_results : dict :=
  [ ("1Y", VDict [ ("total_return", VFloat (Fin 10));
                   ("sharpe_ratio", VFloat (Fin 1)) ]);
    ("5Y", VDict [ ("total_return", VFloat (Fin 60));
                   ("sharpe_ratio", VFloat (Fin 1)) ]) ]%string.

(** *** Further notions and sample data *)

(** The entries of the report of [calculate_all_metrics], in order. *)
Definition all_metrics_keys : list string :=
  [ "sharpe_ratio"; "sortino_ratio"; "max_drawdown"; "calmar_ratio";
    "win_rate"; "profit_factor"; "total_return"; "annual_return";
    "annual_volatility" ]%string.

(** The entries of the result of [calculate_alpha_beta], in order. *)
Definition alpha_beta_keys : list string :=
  [ "alpha"; "beta"; "correlation" ]%string.

(** Thirty days with a return of 0 each. *)
Definition flat_returns : Series :=
  map (fun i => (Z.of_nat i, 0)) (seq 0 30).

(** The number of bars the data provider has for a ticker and a window. *)
Definition bars (yf_download : string -> Z -> outcome PriceData)
    (ticker : string) (years : Z) : nat :=
  match BacktestEngine.fetch_historical_data yf_download ticker years with
  | Some price_data => length price_data
  | None => 0
  end.

(** The compounded return of the rows of a series that fall in a month. *)
Definition month_product (month_of : Z -> Z) (returns : Series) (m : Z) : R :=
  fold_right Rmult 1
    (map (fun row => 1 + snd row)
         (filter (fun row => Z.eqb (month_of (fst row)) m) returns)).

(** The entries of a backtest report, in order. *)
Definition report_keys : list string :=
  [ "total_return"; "sharpe_ratio"; "sortino_ratio"; "calmar_ratio";
    "max_drawdown"; "win_rate"; "total_trades"; "avg_trade_duration_days";
    "best_month"; "worst_month"; "positive_months"; "negative_months";
    "final_portfolio_value"; "total_fees_paid"; "benchmark_comparison";
    "backtest_period"; "ticker" ]%string.


(** A provider that has data for every ticker but the benchmark. *)
Definition no_benchmark (ticker : string) (years : Z) : outcome PriceData :=
  if String.eqb ticker "SPY" then Ok []
  else Ok [mkBar 0 100 100 100 100 1000].

(** A portfolio whose equity was recorded on two bars, forty days apart. *)
Definition two_month_portfolio : PortfolioSimulator.Portfolio :=
  PortfolioSimulator.mkPortfolio 100
    (PortfolioSimulator.mkState PortfolioSimulator.FLAT 110 []
       [(0%Z, 100); (40%Z, 110)] 0).

(** A window that neither failed nor reports a Sharpe ratio. *)
Definition partial_window : dict := [("total_return", VFloat (Fin 1))]%string.

(** A series of finite values as a series of floats. *)
Definition finite_series (s : Series) : FloatSeries :=
  map (fun row => (fst row, Fin (snd row))) s.

(** The simple returns [E_t / E_(t-1) - 1] of an equity curve, from its
    second bar on. *)
Fixpoint daily_returns_from (prev : R) (s : Series) : Series :=
  match s with
  | [] => []
  | (t, x) :: rest => (t, x / prev + - (1)) :: daily_returns_from x rest
  end.

Definition daily_returns (s : Series) : Series :=
  match s with
  | [] => []
  | (_, x) :: rest => daily_returns_from x rest
  end.

(** An equity curve of forty bars that gains [rate] every day. *)
Definition rising_curve (rate : R) : Series :=
  map (fun i => (Z.of_nat i, (1 + rate) ^ i)) (seq 0 40).

(* ================================================================== *)
(** ** Properties *)
(* ================================================================== *)

(** *** Boolean tests on reals *)

Lemma Reqb_true_iff (x y : R) : Reqb x y = true <-> x = y.
Proof. unfold Reqb. destruct (Req_dec_T x y); split; congruence. Qed.

Lemma Reqb_false_iff (x y : R) : Reqb x y = false <-> x <> y.
Proof. unfold Reqb. destruct (Req_dec_T x y); split; congruence. Qed.

Lemma Rltb_true_iff (x y : R) : Rltb x y = true <-> x < y.
Proof. unfold Rltb. destruct (Rlt_dec x y); split; congruence. Qed.

Lemma Rltb_false_iff (x y : R) : Rltb x y = false <-> y <= x.
Proof.
  unfold Rltb. destruct (Rlt_dec x y); split; try congruence; lra.
Qed.

Lemma Rleb_true_iff (x y : R) : Rleb x y = true <-> x <= y.
Proof. unfold Rleb. destruct (Rle_dec x y); split; congruence. Qed.

Lemma Rleb_false_iff (x y : R) : Rleb x y = false <-> y < x.
Proof.
  unfold Rleb. destruct (Rle_dec x y); split; try congruence; lra.
Qed.

Lemma Float_eqb_zero_iff (a : float) :
  Float.eqb a (Fin 0) = true <-> a = Fin 0.
Proof.
  destruct a; simpl; split; try congruence.
  - intros H. apply Reqb_true_iff in H. now subst.
  - intros [= ->]. now apply Reqb_true_iff.
Qed.


(** *** Filters *)

Lemma filter_all {A : Type} (f : A -> bool) (l : list A) :
  (forall x, In x l -> f x = true) -> filter f l = l.
Proof.
  induction l as [|a l IH]; intros H; [reflexivity|]. simpl.
  rewrite (H a) by now left. f_equal. apply IH. intros; apply H; now right.
Qed.

Lemma filter_none {A : Type} (f : A -> bool) (l : list A) :
  (forall x, In x l -> f x = false) -> filter f l = [].
Proof.
  induction l as [|a l IH]; intros H; [reflexivity|]. simpl.
  rewrite (H a) by now left. apply IH. intros; apply H; now right.
Qed.

(** *** Sums, means and deviations *)

Lemma Rsum_nonneg (l : list R) :
  (forall x, In x l -> 0 <= x) -> 0 <= Rsum l.
Proof.
  induction l as [|a l IH]; simpl; intros H; [lra|].
  assert (0 <= a) by (apply H; now left).
  assert (0 <= Rsum l) by (apply IH; intros; apply H; now right).
  lra.
Qed.

Lemma Rsum_nonpos (l : list R) :
  (forall x, In x l -> x <= 0) -> Rsum l <= 0.
Proof.
  induction l as [|a l IH]; simpl; intros H; [lra|].
  assert (a <= 0) by (apply H; now left).
  assert (Rsum l <= 0) by (apply IH; intros; apply H; now right).
  lra.
Qed.

Lemma Rsum_zero_inv (l : list R) :
  (forall x, In x l -> 0 <= x) -> Rsum l = 0 -> forall x, In x l -> x = 0.
Proof.
  induction l as [|a l IH]; simpl; intros H Hs x Hx; [tauto|].
  assert (0 <= a) by (apply H; now left).
  assert (0 <= Rsum l) by (apply Rsum_nonneg; intros; apply H; now right).
  destruct Hx as [<-|Hx]; [lra|].
  apply IH; auto. lra.
Qed.

Lemma Rsum_all_zero (l : list R) :
  (forall x, In x l -> x = 0) -> Rsum l = 0.
Proof.
  induction l as [|a l IH]; simpl; intros H; [reflexivity|].
  rewrite (H a) by now left. rewrite IH; [lra|]. intros; apply H; now right.
Qed.

Lemma Rsum_const (l : list R) (c : R) :
  (forall x, In x l -> x = c) -> Rsum l = INR (length l) * c.
Proof.
  induction l as [|a l IH]; intros H.
  - simpl. lra.
  - change (Rsum (a :: l)) with (a + Rsum l).
    change (length (a :: l)) with (S (length l)). rewrite S_INR.
    rewrite (H a) by now left. rewrite IH; [lra|].
    intros; apply H; now right.
Qed.

Lemma INR_length_pos {A : Type} (l : list A) : l <> [] -> 0 < INR (length l).
Proof.
  destruct l; [congruence|]. intros _. apply lt_0_INR. simpl. lia.
Qed.

Lemma Rmean_const (l : list R) (c : R) :
  l <> [] -> (forall x, In x l -> x = c) -> Rmean l = c.
Proof.
  intros Hne H. unfold Rmean. rewrite (Rsum_const l c H).
  pose proof (INR_length_pos l Hne) as Hpos.
  field. now apply Rgt_not_eq.
Qed.

Lemma Rmult_self_nonneg (d : R) : 0 <= d * d.
Proof. nra. Qed.

Lemma Rmult_self_zero (d : R) : d * d = 0 -> d = 0.
Proof. nra. Qed.

Lemma sq_dev_nonneg (l : list R) : 0 <= sq_dev l.
Proof.
  unfold sq_dev. apply Rsum_nonneg. intros x Hx.
  apply in_map_iff in Hx as (y & <- & _). apply Rmult_self_nonneg.
Qed.

Lemma sq_dev_const (l : list R) (c : R) :
  l <> [] -> (forall x, In x l -> x = c) -> sq_dev l = 0.
Proof.
  intros Hne H. unfold sq_dev. rewrite (Rmean_const l c Hne H).
  apply Rsum_all_zero. intros x Hx.
  apply in_map_iff in Hx as (y & <- & Hy). rewrite (H y Hy). lra.
Qed.

Lemma sq_dev_zero_inv (l : list R) :
  sq_dev l = 0 -> forall x, In x l -> x = Rmean l.
Proof.
  unfold sq_dev. intros H x Hx.
  assert ((x - Rmean l) * (x - Rmean l) = 0) as Hz.
  { apply (Rsum_zero_inv (map (fun y => (y - Rmean l) * (y - Rmean l)) l)).
    - intros y Hy. apply in_map_iff in Hy as (z & <- & _).
      apply Rmult_self_nonneg.
    - exact H.
    - apply in_map_iff. now exists x. }
  apply Rmult_self_zero in Hz. lra.
Qed.

(** A series with two different values has a positive sum of squared
    deviations. *)
Lemma sq_dev_pos (l : list R) (x y : R) :
  In x l -> In y l -> x <> y -> 0 < sq_dev l.
Proof.
  intros Hx Hy Hne. pose proof (sq_dev_nonneg l) as [H|H]; [exact H|].
  exfalso. apply Hne.
  rewrite (sq_dev_zero_inv l (eq_sym H) x Hx).
  now rewrite (sq_dev_zero_inv l (eq_sym H) y Hy).
Qed.

Lemma finite_values_Fin (rs : list R) : finite_values (map Fin rs) = Some rs.
Proof.
  induction rs as [|r rs IH]; [reflexivity|]. simpl. now rewrite IH.
Qed.

Lemma co_dev_self (l : list R) : co_dev l l = sq_dev l.
Proof.
  unfold co_dev, sq_dev. f_equal.
  generalize (Rmean l) as m. intros m.
  induction l as [|a l IH]; simpl; [reflexivity|]. now rewrite IH.
Qed.

(** *** Sharpe and Sortino ratios *)

Lemma pd_std_const (l : list R) (c : R) :
  (2 <= length l)%nat -> (forall x, In x l -> x = c) -> pd.std l = Fin 0.
Proof.
  intros Hlen H. unfold pd.std.
  assert ((length l <=? 1)%nat = false) as -> by (apply Nat.leb_gt; lia).
  rewrite (sq_dev_const l c).
  - unfold Rdiv. now rewrite Rmult_0_l, sqrt_0.
  - destruct l; [simpl in Hlen; lia|discriminate].
  - exact H.
Qed.

Lemma pd_std_finite_length (l : list R) (s : R) :
  pd.std l = Fin s -> (2 <= length l)%nat.
Proof.
  unfold pd.std. destruct (length l <=? 1)%nat eqn:E; [discriminate|].
  intros _. apply Nat.leb_gt in E. lia.
Qed.

(** The sample standard deviation is 0 exactly on series of at least two
    equal values. *)
Lemma pd_std_zero_iff (l : list R) :
  pd.std l = Fin 0
  <-> (2 <= length l)%nat /\ (forall x y, In x l -> In y l -> x = y).
Proof.
  split.
  - intros H. pose proof (pd_std_finite_length l 0 H) as Hlen.
    split; [exact Hlen|]. intros x y Hx Hy.
    unfold pd.std in H.
    assert ((length l <=? 1)%nat = false) as E by (apply Nat.leb_gt; lia).
    rewrite E in H.
    injection H as H.
    assert (1 <= INR (length l) - 1) as Hn.
    { assert (2 <= INR (length l)); [|lra].
      rewrite INR_IZR_INZ. apply IZR_le. lia. }
    assert (sq_dev l = 0) as Hz.
    { pose proof (sq_dev_nonneg l) as Hs.
      apply sqrt_eq_0 in H.
      - unfold Rdiv in H. apply Rmult_integral in H as [H|H]; [exact H|].
        exfalso. apply (Rinv_neq_0_compat (INR (length l) - 1)); [lra|exact H].
      - apply Rle_mult_inv_pos; lra. }
    rewrite (sq_dev_zero_inv l Hz x Hx). symmetry.
    exact (sq_dev_zero_inv l Hz y Hy).
  - intros [Hlen Heq]. destruct l as [|c l]; [simpl in Hlen; lia|].
    apply (pd_std_const _ c Hlen). intros x Hx. apply Heq; [exact Hx|now left].
Qed.

(** C4.  For every daily return series and annual risk-free rate, the Sharpe
    calculation forms the excess returns [r - rf/252], returns 0 when their
    standard deviation equals 0, and otherwise returns
    [mean(excess) / std(excess) * sqrt(252)]; when that deviation is a
    non-zero number the result is the real number given by the formula. *)
Theorem calculate_sharpe_ratio_spec (returns : list R) (risk_free_rate : R) :
  let excess := map (fun x => x - risk_free_rate / 252) returns in
  (Float.eqb (pd.std excess) (Fin 0) = true ->
   PerformanceMetrics.calculate_sharpe_ratio returns risk_free_rate = Fin 0)
  /\
  (Float.eqb (pd.std excess) (Fin 0) = false ->
   PerformanceMetrics.calculate_sharpe_ratio returns risk_free_rate
   = Float.mul (Float.div (pd.mean excess) (pd.std excess)) (np.sqrt 252))
  /\
  (forall s, pd.std excess = Fin s -> s <> 0 ->
   PerformanceMetrics.calculate_sharpe_ratio returns risk_free_rate
   = Fin (Rmean excess / s * sqrt 252)).
Proof.
  intros excess. unfold PerformanceMetrics.calculate_sharpe_ratio.
  fold excess. repeat split.
  - intros ->. reflexivity.
  - intros ->. reflexivity.
  - intros s Hs Hne. rewrite Hs. simpl.
    assert (Reqb s 0 = false) as -> by now apply Reqb_false_iff.
    unfold pd.mean. destruct excess eqn:E.
    + unfold pd.std in Hs. simpl in Hs. discriminate.
    + simpl. assert (Reqb s 0 = false) as -> by now apply Reqb_false_iff.
      reflexivity.
Qed.

(** Two equal daily returns: the excess returns do not vary and the ratio
    is 0. *)
Lemma calculate_sharpe_ratio_spec_witness :
  Float.eqb (pd.std (map (fun x => x - 0 / 252) [1; 1])) (Fin 0) = true
  /\ PerformanceMetrics.calculate_sharpe_ratio [1; 1] 0 = Fin 0.
Proof.
  assert (Float.eqb (pd.std (map (fun x => x - 0 / 252) [1; 1])) (Fin 0)
          = true) as H.
  { apply Float_eqb_zero_iff. apply (pd_std_const _ (1 - 0 / 252)).
    - simpl. lia.
    - simpl. intros x [<-|[<-|[]]]; reflexivity. }
  split; [exact H|].
  exact (proj1 (calculate_sharpe_ratio_spec [1; 1] 0) H).
Defined.

(** C5.  For every daily return series and annual risk-free rate, the
    Sortino calculation forms the excess returns [r - rf/252] and keeps the
    negative ones as the downside; it returns 0 when the downside is empty or
    its standard deviation equals 0, and otherwise returns
    [mean(excess) / std(downside) * sqrt(252)]. *)
Theorem calculate_sortino_ratio_spec (returns : list R) (risk_free_rate : R) :
  let excess := map (fun x => x - risk_free_rate / 252) returns in
  let downside := filter (fun x => Rltb x 0) excess in
  (forall x, In x downside <-> In x excess /\ x < 0)
  /\
  (downside = [] \/ Float.eqb (pd.std downside) (Fin 0) = true ->
   PerformanceMetrics.calculate_sortino_ratio returns risk_free_rate = Fin 0)
  /\
  (downside <> [] -> Float.eqb (pd.std downside) (Fin 0) = false ->
   PerformanceMetrics.calculate_sortino_ratio returns risk_free_rate
   = Float.mul (Float.div (pd.mean excess) (pd.std downside)) (np.sqrt 252))
  /\
  (forall s, pd.std downside = Fin s -> s <> 0 ->
   PerformanceMetrics.calculate_sortino_ratio returns risk_free_rate
   = Fin (Rmean excess / s * sqrt 252)).
Proof.
  intros excess downside.
  unfold PerformanceMetrics.calculate_sortino_ratio.
  fold excess. fold downside. split; [|split; [|split]].
  - intros x. unfold downside. rewrite filter_In, Rltb_true_iff. tauto.
  - intros [->| ->]; [reflexivity|]. now rewrite orb_true_r.
  - intros Hne ->. destruct downside; [congruence|]. reflexivity.
  - intros s Hs Hne. pose proof (pd_std_finite_length _ _ Hs) as Hlen.
    assert (excess <> []) as Hex.
    { intros E. unfold downside in Hlen. rewrite E in Hlen.
      simpl in Hlen. lia. }
    assert ((length downside =? 0)%nat = false) as ->
      by (apply Nat.eqb_neq; lia).
    rewrite Hs. cbn [orb Float.eqb].
    assert (Reqb s 0 = false) as Hz by now apply Reqb_false_iff.
    rewrite Hz. unfold pd.mean. destruct excess; [congruence|].
    unfold Float.div, Float.mul, np.sqrt. now rewrite Hz.
Qed.

(** A single gain: there is no downside and the ratio is 0. *)
Lemma calculate_sortino_ratio_spec_witness :
  filter (fun x => Rltb x 0) (map (fun x => x - 0 / 252) [1]) = []
  /\ PerformanceMetrics.calculate_sortino_ratio [1] 0 = Fin 0.
Proof.
  assert (filter (fun x => Rltb x 0) (map (fun x => x - 0 / 252) [1]) = [])
    as H.
  { simpl. assert (Rltb (1 - 0 / 252) 0 = false) as ->; [|reflexivity].
    apply Rltb_false_iff. lra. }
  split; [exact H|].
  exact (proj1 (proj2 (calculate_sortino_ratio_spec [1] 0)) (or_introl H)).
Defined.

(** *** Maximum drawdown *)

Lemma list_max_cons (x : R) (l : list R) :
  l <> [] -> list_max (x :: l) = Rmax x (list_max l).
Proof. destruct l; [congruence|reflexivity]. Qed.

Lemma list_min_cons (x : R) (l : list R) :
  l <> [] -> list_min (x :: l) = Rmin x (list_min l).
Proof. destruct l; [congruence|reflexivity]. Qed.

Lemma list_max_In (l : list R) : l <> [] -> In (list_max l) l.
Proof.
  induction l as [|x l IH]; [congruence|]. intros _.
  destruct l as [|y l]; [now left|].
  rewrite list_max_cons by discriminate.
  unfold Rmax. destruct (Rle_dec x (list_max (y :: l))).
  - right. apply IH. discriminate.
  - now left.
Qed.

Lemma list_max_ge (l : list R) (x : R) : In x l -> x <= list_max l.
Proof.
  induction l as [|y l IH]; [contradiction|]. intros Hx.
  destruct l as [|z l].
  - destruct Hx as [->|[]]. simpl. lra.
  - rewrite list_max_cons by discriminate.
    destruct Hx as [->|Hx].
    + apply Rmax_l.
    + eapply Rle_trans; [apply IH, Hx|apply Rmax_r].
Qed.

Lemma list_min_In (l : list R) : l <> [] -> In (list_min l) l.
Proof.
  induction l as [|x l IH]; [congruence|]. intros _.
  destruct l as [|y l]; [now left|].
  rewrite list_min_cons by discriminate.
  unfold Rmin. destruct (Rle_dec x (list_min (y :: l))).
  - now left.
  - right. apply IH. discriminate.
Qed.

Lemma list_min_le (l : list R) (x : R) : In x l -> list_min l <= x.
Proof.
  induction l as [|y l IH]; [contradiction|]. intros Hx.
  destruct l as [|z l].
  - destruct Hx as [->|[]]. simpl. lra.
  - rewrite list_min_cons by discriminate.
    destruct Hx as [->|Hx].
    + apply Rmin_l.
    + eapply Rle_trans; [apply Rmin_r|apply IH, Hx].
Qed.

(** [cummax] computes the running maximum. *)
Lemma cummax_from_nth (s : list R) (m : R) (k : nat) :
  (k < length s)%nat ->
  nth k (pd.cummax_from m s) 0 = list_max (m :: firstn (S k) s).
Proof.
  revert m k. induction s as [|x s IH]; intros m k Hk; [simpl in Hk; lia|].
  destruct k as [|k].
  - simpl. reflexivity.
  - simpl in Hk. change (pd.cummax_from m (x :: s))
      with (Rmax m x :: pd.cummax_from (Rmax m x) s).
    change (nth (S k) (Rmax m x :: pd.cummax_from (Rmax m x) s) 0)
      with (nth k (pd.cummax_from (Rmax m x) s) 0).
    rewrite IH by lia.
    change (firstn (S (S k)) (x :: s)) with (x :: firstn (S k) s).
    destruct s as [|y s]; [simpl in Hk; lia|].
    change (firstn (S k) (y :: s)) with (y :: firstn k s).
    rewrite !list_max_cons by discriminate.
    rewrite <- Rmax_assoc. reflexivity.
Qed.

Lemma cummax_length (s : list R) : length (pd.cummax s) = length s.
Proof.
  destruct s as [|x s]; [reflexivity|]. simpl. f_equal.
  generalize x. induction s as [|y s IH]; intros m; simpl; [reflexivity|].
  now rewrite IH.
Qed.

Lemma cummax_nth (E : list R) (t : nat) :
  (t < length E)%nat -> nth t (pd.cummax E) 0 = running_max E t.
Proof.
  unfold running_max. destruct E as [|x s]; [simpl; lia|]. intros Ht.
  destruct t as [|t]; [reflexivity|].
  simpl in Ht. change (nth (S t) (pd.cummax (x :: s)) 0)
    with (nth t (pd.cummax_from x s) 0).
  rewrite cummax_from_nth by lia. reflexivity.
Qed.

Lemma running_max_ge (E : list R) (i t : nat) :
  (i <= t < length E)%nat -> nth i E 0 <= running_max E t.
Proof.
  intros H. apply list_max_ge.
  rewrite <- (firstn_skipn (S t) E) at 1.
  rewrite app_nth1 by (rewrite length_firstn; lia).
  apply nth_In. rewrite length_firstn. lia.
Qed.

Lemma running_max_attained (E : list R) (t : nat) :
  (t < length E)%nat ->
  exists i, (i <= t)%nat /\ running_max E t = nth i E 0.
Proof.
  intros Ht. unfold running_max.
  assert (firstn (S t) E <> []) as Hne.
  { destruct E; [simpl in Ht; lia|discriminate]. }
  destruct (In_nth _ _ 0 (list_max_In _ Hne)) as (i & Hi & Hnth).
  rewrite length_firstn in Hi. exists i. split; [lia|].
  rewrite <- Hnth. rewrite <- (firstn_skipn (S t) E) at 2.
  rewrite app_nth1 by (rewrite length_firstn; lia). reflexivity.
Qed.

Lemma running_max_pos (E : list R) (t : nat) :
  (forall x, In x E -> 0 < x) -> (t < length E)%nat -> 0 < running_max E t.
Proof.
  intros Hpos Ht. destruct (running_max_attained E t Ht) as (i & Hi & ->).
  apply Hpos, nth_In. lia.
Qed.

Lemma drawdown_at_nonpos (E : list R) (t : nat) :
  (forall x, In x E -> 0 < x) -> (t < length E)%nat -> drawdown_at E t <= 0.
Proof.
  intros Hpos Ht. unfold drawdown_at.
  pose proof (running_max_pos E t Hpos Ht) as Hm.
  pose proof (running_max_ge E t t (conj (le_n t) Ht)) as Hge.
  set (m := running_max E t) in *. set (e := nth t E 0) in *.
  assert (0 < / m) by now apply Rinv_0_lt_compat.
  unfold Rdiv. nra.
Qed.

Lemma combine_as_seq (a b : list R) :
  length a = length b ->
  combine a b = map (fun t => (nth t a 0, nth t b 0)) (seq 0 (length a)).
Proof.
  revert b. induction a as [|x a IH]; intros [|y b] Hlen;
    try discriminate; [reflexivity|].
  simpl. f_equal. rewrite <- seq_shift, map_map. apply IH.
  now injection Hlen.
Qed.

(** On a curve of positive values every drawdown is a finite number. *)
Lemma drawdown_finite (E : list R) :
  (forall x, In x E -> 0 < x) ->
  PerformanceMetrics.drawdown E
  = map (fun t => Fin (drawdown_at E t)) (seq 0 (length E)).
Proof.
  intros Hpos. unfold PerformanceMetrics.drawdown.
  rewrite combine_as_seq by (now rewrite cummax_length).
  rewrite map_map. apply map_ext_in. intros t Ht. apply in_seq in Ht.
  cbn [fst snd]. rewrite cummax_nth by lia.
  pose proof (running_max_pos E t Hpos) as Hm.
  unfold Float.div, drawdown_at.
  assert (Reqb (running_max E t) 0 = false) as ->.
  { apply Reqb_false_iff. apply Rgt_not_eq. apply Hm. lia. }
  reflexivity.
Qed.

Lemma pd_min_finite (l : list R) :
  l <> [] -> pd.min (map Fin l) = Fin (list_min l).
Proof.
  induction l as [|x l IH]; [congruence|]. intros _.
  destruct l as [|y l]; [reflexivity|].
  change (pd.min (map Fin (x :: y :: l)))
    with (pd.min2 (Fin x) (pd.min (map Fin (y :: l)))).
  rewrite IH by discriminate.
  rewrite (list_min_cons x (y :: l)) by discriminate.
  unfold pd.min2, Float.ltb, Rmin, Rltb.
  destruct (Rlt_dec (list_min (y :: l)) x), (Rle_dec x (list_min (y :: l)));
    try reflexivity; exfalso; lra.
Qed.

Lemma calculate_max_drawdown_finite (E : list R) :
  E <> [] -> (forall x, In x E -> 0 < x) ->
  PerformanceMetrics.calculate_max_drawdown E = Fin (max_drawdown_formula E).
Proof.
  intros Hne Hpos. unfold PerformanceMetrics.calculate_max_drawdown.
  rewrite (drawdown_finite E Hpos), <- map_map, pd_min_finite.
  - reflexivity.
  - destruct E; [congruence|]. discriminate.
Qed.

Lemma max_drawdown_formula_cases (E : list R) :
  E <> [] -> (forall x, In x E -> 0 < x) ->
  (non_decreasing E -> max_drawdown_formula E = 0)
  /\ (falls_below_peak E -> 0 < max_drawdown_formula E).
Proof.
  intros Hne Hpos.
  assert (map (drawdown_at E) (seq 0 (length E)) <> []) as Hne'.
  { destruct E; [congruence|discriminate]. }
  unfold max_drawdown_formula. split.
  - intros Hmono.
    destruct (proj1 (in_map_iff _ _ _) (list_min_In _ Hne'))
      as (t & Ht & Hin).
    apply in_seq in Hin. rewrite <- Ht.
    destruct (running_max_attained E t) as (i & Hi & Hmax); [lia|].
    pose proof (running_max_ge E t t) as Hge.
    pose proof (Hmono i t) as Hit.
    unfold drawdown_at. rewrite Hmax in *.
    replace (nth t E 0) with (nth i E 0)
      by (apply Rle_antisym; [apply Hit|apply Hge]; lia).
    unfold Rdiv. rewrite Rminus_diag, Rmult_0_l, Rabs_R0. lra.
  - intros (i & j & Hij & Hlt).
    assert (drawdown_at E j < 0) as Hneg.
    { unfold drawdown_at.
      pose proof (running_max_ge E i j) as Hge.
      pose proof (running_max_pos E j Hpos) as Hm.
      set (m := running_max E j) in *. set (e := nth j E 0) in *.
      assert (0 < / m) by (apply Rinv_0_lt_compat; apply Hm; lia).
      assert (nth i E 0 <= m) by (apply Hge; lia).
      unfold Rdiv. nra. }
    assert (list_min (map (drawdown_at E) (seq 0 (length E))) < 0) as Hmin.
    { eapply Rle_lt_trans; [|exact Hneg]. apply list_min_le.
      apply in_map. apply in_seq. lia. }
    rewrite Rabs_left by exact Hmin. lra.
Qed.

(** C6.  For every non-empty equity curve of positive values, the maximum
    drawdown equals [abs(min_t (E_t - M_t) / M_t) * 100] where [M_t] is the
    running maximum [max(E_0..E_t)]; it is 0 whenever the curve is
    non-decreasing and strictly positive whenever the curve is at some bar
    strictly below an earlier value. *)
Theorem calculate_max_drawdown_spec (E : list R) :
  E <> [] -> (forall x, In x E -> 0 < x) ->
  PerformanceMetrics.calculate_max_drawdown E = Fin (max_drawdown_formula E)
  /\ (non_decreasing E ->
      PerformanceMetrics.calculate_max_drawdown E = Fin 0)
  /\ (falls_below_peak E ->
      Float.gtb (PerformanceMetrics.calculate_max_drawdown E) (Fin 0) = true).
Proof.
  intros Hne Hpos.
  destruct (max_drawdown_formula_cases E Hne Hpos) as [Hflat Hfall].
  rewrite (calculate_max_drawdown_finite E Hne Hpos).
  split; [reflexivity|]. split.
  - intros H. now rewrite (Hflat H).
  - intros H. cbn [Float.gtb Float.ltb]. apply Rltb_true_iff. now apply Hfall.
Qed.

(** A curve that falls from 100 to 90. *)
Lemma calculate_max_drawdown_spec_witness :
  Float.gtb (PerformanceMetrics.calculate_max_drawdown [100; 90]) (Fin 0)
  = true.
Proof.
  apply (calculate_max_drawdown_spec [100; 90]).
  - discriminate.
  - simpl. intros x [<-|[<-|[]]]; lra.
  - exists 0%nat, 1%nat. simpl. split; [lia|lra].
Defined.

(** *** Profit factor *)

Lemma Rsum_filter_pos (l : list R) : 0 <= Rsum (filter (fun x => Rltb 0 x) l).
Proof.
  apply Rsum_nonneg. intros x Hx. apply filter_In in Hx as [_ Hx].
  apply Rltb_true_iff in Hx. lra.
Qed.

Lemma map_pnl_filter (f : R -> bool) (trades : list Trade) :
  map pnl (filter (fun t => f (pnl t)) trades)
  = filter f (map pnl trades).
Proof.
  induction trades as [|t trades IH]; [reflexivity|]. simpl.
  destruct (f (pnl t)); simpl; now rewrite IH.
Qed.

(** The losses sum to zero only when there is none. *)
Lemma Rsum_filter_neg_zero (l : list R) :
  Rsum (filter (fun x => Rltb x 0) l) = 0 <-> (forall x, In x l -> 0 <= x).
Proof.
  split.
  - intros H x Hx. destruct (Rlt_dec x 0) as [Hneg|]; [|lra].
    exfalso.
    assert (- x = 0); [|lra].
    apply (Rsum_zero_inv (map Ropp (filter (fun y => Rltb y 0) l))).
    + intros y Hy. apply in_map_iff in Hy as (z & <- & Hz).
      apply filter_In in Hz as [_ Hz]. apply Rltb_true_iff in Hz. lra.
    + clear - H. revert H. generalize (filter (fun y => Rltb y 0) l).
      intros m. induction m as [|a m IH]; simpl; intros H; [lra|].
      assert (Rsum (map Ropp m) = - Rsum m) as ->; [|lra].
      clear. induction m as [|b m IH]; simpl; [lra|]. rewrite IH. lra.
    + apply in_map. apply filter_In. split; [exact Hx|].
      now apply Rltb_true_iff.
  - intros H. rewrite filter_none; [reflexivity|].
    intros x Hx. apply Rltb_false_iff. now apply H.
Qed.

(** C7.  For every trade ledger, the profit factor is 0 when the ledger is
    empty; otherwise it is the gross profit (the sum of the positive pnl)
    divided by the gross loss (the absolute value of the sum of the negative
    pnl), and when the gross loss is 0 it is +infinity if the gross profit is
    positive and 0 if the gross profit is 0 as well.  The gross profit is
    never negative and the gross loss is 0 exactly when no trade loses. *)
Theorem calculate_profit_factor_spec (trades : list Trade) :
  let gross_profit :=
    Rsum (map pnl (filter (fun t => Rltb 0 (pnl t)) trades)) in
  let gross_loss :=
    Rabs (Rsum (map pnl (filter (fun t => Rltb (pnl t) 0) trades))) in
  0 <= gross_profit
  /\ (gross_loss = 0 <-> forall t, In t trades -> 0 <= pnl t)
  /\ (trades = [] ->
      PerformanceMetrics.calculate_profit_factor trades = Fin 0)
  /\ (trades <> [] -> gross_loss <> 0 ->
      PerformanceMetrics.calculate_profit_factor trades
      = Fin (gross_profit / gross_loss))
  /\ (trades <> [] -> gross_loss = 0 -> 0 < gross_profit ->
      PerformanceMetrics.calculate_profit_factor trades = PInf)
  /\ (trades <> [] -> gross_loss = 0 -> gross_profit = 0 ->
      PerformanceMetrics.calculate_profit_factor trades = Fin 0).
Proof.
  intros gross_profit gross_loss.
  assert ((trades <> [] -> (length trades =? 0)%nat = false)) as Hlen.
  { intros H. destruct trades; [congruence|reflexivity]. }
  unfold PerformanceMetrics.calculate_profit_factor, pd.sum.
  fold gross_profit. fold gross_loss.
  split; [|split; [|split; [|split; [|split]]]].
  - unfold gross_profit.
    rewrite (map_pnl_filter (fun x => Rltb 0 x)). apply Rsum_filter_pos.
  - unfold gross_loss. rewrite (map_pnl_filter (fun x => Rltb x 0)).
    split.
    + intros H t Ht.
      apply (proj1 (Rsum_filter_neg_zero (map pnl trades))).
      * set (losses := Rsum (filter (fun x => Rltb x 0) (map pnl trades))) in *.
        destruct (Req_dec_T losses 0) as [E|E]; [exact E|].
        apply Rabs_no_R0 in E. contradiction.
      * now apply in_map.
    + intros H. rewrite (proj2 (Rsum_filter_neg_zero (map pnl trades))).
      * apply Rabs_R0.
      * intros x Hx. apply in_map_iff in Hx as (t & <- & Ht). now apply H.
  - intros ->. reflexivity.
  - intros Hne Hloss. rewrite (Hlen Hne).
    rewrite (proj2 (Reqb_false_iff _ _) Hloss).
    unfold Float.div. now rewrite (proj2 (Reqb_false_iff _ _) Hloss).
  - intros Hne Hloss Hprofit. rewrite (Hlen Hne).
    rewrite (proj2 (Reqb_true_iff _ _) Hloss).
    now rewrite (proj2 (Rltb_true_iff _ _) Hprofit).
  - intros Hne Hloss Hprofit. rewrite (Hlen Hne).
    rewrite (proj2 (Reqb_true_iff _ _) Hloss).
    assert (Rltb 0 gross_profit = false) as ->; [|reflexivity].
    apply Rltb_false_iff. lra.
Qed.

(** A ledger with a single winning trade: no loss, a positive profit, and
    an infinite profit factor. *)
Lemma calculate_profit_factor_spec_witness :
  PerformanceMetrics.calculate_profit_factor [mkTrade 5] = PInf.
Proof.
  assert (Rltb 0 5 = true) as Hwin by (apply Rltb_true_iff; lra).
  assert (Rltb 5 0 = false) as Hlose by (apply Rltb_false_iff; lra).
  apply (proj1 (proj2 (proj2 (proj2 (proj2
           (calculate_profit_factor_spec [mkTrade 5])))))).
  - discriminate.
  - simpl. rewrite Hlose. simpl. apply Rabs_R0.
  - simpl. rewrite Hwin. simpl. lra.
Defined.

(** *** Alignment of a series with itself *)

Lemma unique_NoDup (idx : list Z) : NoDup idx -> Series.unique idx = idx.
Proof.
  induction 1 as [|t idx Hnotin Hnd IH]; [reflexivity|].
  simpl. rewrite IH. f_equal. apply filter_all.
  intros u Hu. apply negb_true_iff, Z.eqb_neq. intros ->. contradiction.
Qed.

Lemma mem_In (t : Z) (idx : list Z) : In t idx -> Series.mem t idx = true.
Proof.
  intros H. unfold Series.mem. apply existsb_exists. exists t.
  split; [exact H|apply Z.eqb_refl].
Qed.

Lemma intersection_self (idx : list Z) :
  NoDup idx -> Series.intersection idx idx = idx.
Proof.
  intros H. unfold Series.intersection. rewrite (unique_NoDup idx H).
  apply filter_all. intros t Ht. now apply mem_In.
Qed.

Lemma flat_map_ext_In {A B : Type} (f g : A -> list B) (l : list A) :
  (forall a, In a l -> f a = g a) -> flat_map f l = flat_map g l.
Proof.
  induction l as [|a l IH]; intros H; [reflexivity|]. simpl.
  rewrite (H a) by now left. f_equal. apply IH. intros; apply H; now right.
Qed.

Lemma loc_self {A : Type} (s : list (Z * A)) :
  NoDup (map fst s) -> Series.loc s (map fst s) = s.
Proof.
  unfold Series.loc. induction s as [|row s IH]; intros H; [reflexivity|].
  inversion H as [|t idx Hnotin Hnd]; subst.
  cbn [map flat_map filter]. rewrite Z.eqb_refl.
  rewrite (filter_none (fun r => Z.eqb (fst r) (fst row)) s).
  - cbn [app]. f_equal. rewrite <- (IH Hnd) at 2.
    apply flat_map_ext_In.
    intros t Ht. cbn [filter].
    destruct (Z.eqb_spec (fst row) t) as [Heq|]; [|reflexivity].
    rewrite Heq in Hnotin. contradiction.
  - intros r Hr. apply Z.eqb_neq. intros Heq. apply Hnotin.
    rewrite <- Heq. now apply in_map.
Qed.

Lemma Float_div_finite (x y : R) :
  y <> 0 -> Float.div (Fin x) (Fin y) = Fin (x / y).
Proof.
  intros H. unfold Float.div.
  now rewrite (proj2 (Reqb_false_iff y 0) H).
Qed.

Lemma Float_neqb_finite (x : R) :
  x <> 0 -> Float.neqb (Fin x) (Fin 0) = true.
Proof.
  intros H. unfold Float.neqb, Float.eqb.
  now rewrite (proj2 (Reqb_false_iff x 0) H).
Qed.

Lemma leb_length_false {A : Type} (l : list A) (k : nat) :
  (k < length l)%nat -> (length l <=? k)%nat = false.
Proof. intros H. apply Nat.leb_gt. exact H. Qed.

Lemma np_var_finite (a : list R) :
  a <> [] -> np.var a = Fin (sq_dev a / INR (length a)).
Proof. destruct a; [congruence|reflexivity]. Qed.

Lemma pd_mean_finite (a : list R) : a <> [] -> pd.mean a = Fin (Rmean a).
Proof. destruct a; [congruence|reflexivity]. Qed.

(** The correlation of a non-constant array with itself. *)
Lemma corrcoef01_self (a : list R) :
  (2 <= length a)%nat -> 0 < sq_dev a -> np.corrcoef01 a a = Fin 1.
Proof.
  intros Hlen Hpos. unfold np.corrcoef01.
  rewrite leb_length_false by lia. cbv zeta.
  assert (2 <= INR (length a)) as Hn.
  { rewrite INR_IZR_INZ. apply IZR_le. lia. }
  rewrite co_dev_self.
  set (v := sq_dev a / (INR (length a) - 1)).
  assert (0 < v) as Hv.
  { unfold v. apply Rdiv_lt_0_compat; lra. }
  assert (0 < sqrt v) as Hs by now apply sqrt_lt_R0.
  rewrite !Float_div_finite by lra.
  unfold np.clip1. f_equal.
  replace (v / sqrt v / sqrt v) with 1.
  - rewrite Rmin_left by lra. rewrite Rmax_right by lra. reflexivity.
  - rewrite <- (sqrt_sqrt v) at 1 by lra. field. lra.
Qed.

(** What [calculate_alpha_beta] returns for a series compared against
    itself, once it is long enough and not constant. *)
Lemma calculate_alpha_beta_self (x : Series) (a b : R) :
  NoDup (Series.index x) -> (30 <= length x)%nat ->
  In a (Series.values x) -> In b (Series.values x) -> a <> b ->
  let n := INR (length x) in
  let growth := (1 + Rmean (Series.values x)) ^ 252 - 1 in
  BenchmarkComparison.calculate_alpha_beta x x
  = ([],
     Ok [ ("alpha", VFloat (Fin (- (growth / (n - 1)) * 100)));
          ("beta", VFloat (Fin (n / (n - 1))));
          ("correlation", VFloat (Fin 1)) ]%string).
Proof.
  intros Hnd Hlen Ha Hb Hab n growth.
  unfold BenchmarkComparison.calculate_alpha_beta, Series.index in *.
  rewrite (intersection_self _ Hnd), length_map.
  assert ((length x <? 30)%nat = false) as -> by (apply Nat.ltb_ge; lia).
  rewrite (loc_self x Hnd). rewrite Nat.eqb_refl. cbn [negb].
  set (xs := Series.values x) in *.
  assert (length xs = length x) as Hxs by apply length_map.
  assert (xs <> []) as Hne by (destruct xs; [simpl in Hxs; lia|discriminate]).
  pose proof (sq_dev_pos xs a b Ha Hb Hab) as Hpos.
  assert (30 <= n) as Hn.
  { unfold n. rewrite INR_IZR_INZ. apply IZR_le. lia. }
  unfold np.cov01. rewrite leb_length_false by lia.
  rewrite co_dev_self, (np_var_finite xs Hne), (pd_mean_finite xs Hne), Hxs.
  fold n. cbn [annualize]. fold growth.
  assert (sq_dev xs / n <> 0) as Hvar.
  { apply Rgt_not_eq. apply Rdiv_lt_0_compat; lra. }
  rewrite (Float_neqb_finite _ Hvar), (Float_div_finite _ _ Hvar).
  rewrite corrcoef01_self by (try lia; exact Hpos).
  cbn [Float.sub Float.mul Float.neg Float.add].
  assert (sq_dev xs / (n - 1) / (sq_dev xs / n) = n / (n - 1)) as ->.
  { field. repeat split; lra. }
  replace (growth + - (n / (n - 1) * growth)) with (- (growth / (n - 1))).
  - reflexivity.
  - generalize growth. intros g. field. lra.
Qed.

(** The quotient of [_compare_with_benchmark], lines 265 to 267, for a
    series of returns against itself. *)
Lemma engine_beta_self (xs : list R) (a b : R) :
  In a xs -> In b xs -> a <> b ->
  Float.div (npf.cov01 (map Fin xs) (map Fin xs)) (npf.var (map Fin xs))
  = Fin (INR (length xs) / (INR (length xs) - 1)).
Proof.
  intros Ha Hb Hab. unfold npf.cov01, npf.var. rewrite finite_values_Fin.
  pose proof (sq_dev_pos xs a b Ha Hb Hab) as Hpos.
  assert (2 <= length xs)%nat as Hlen.
  { destruct xs as [|x [|y xs]]; simpl in *; try lia; try tauto.
    destruct Ha as [<-|[]], Hb as [<-|[]]. congruence. }
  assert (2 <= INR (length xs)) as Hn
    by (rewrite INR_IZR_INZ; apply IZR_le; lia).
  unfold np.cov01. rewrite leb_length_false by lia.
  rewrite co_dev_self, np_var_finite
    by (destruct xs; [simpl in Hlen; lia|discriminate]).
  rewrite Float_div_finite.
  - f_equal. field. repeat split; lra.
  - apply Rgt_not_eq. apply Rdiv_lt_0_compat; lra.
Qed.

Lemma zigzag_index_NoDup : NoDup (Series.index zigzag_returns).
Proof.
  unfold Series.index, zigzag_returns. rewrite map_map. cbn [fst].
  apply Injective_map_NoDup; [|apply seq_NoDup].
  intros i j H. now apply Nat2Z.inj.
Qed.

Lemma zigzag_mean : Rmean (Series.values zigzag_returns) = 2 / 100.
Proof.
  unfold Rmean.
  replace (Rsum (Series.values zigzag_returns)) with (60 / 100).
  - replace (INR (length (Series.values zigzag_returns))) with 30.
    + lra.
    + rewrite INR_IZR_INZ. reflexivity.
  - cbv [zigzag_returns Series.values Rsum map seq fold_right snd Nat.even].
    lra.
Qed.

(** C1.  The specification has [beta(x, x) == 1.0] and [alpha(x, x) == 0]
    for every non-constant series compared against itself.  On thirty
    returns alternating between 1% and 3% the code returns beta 30/29 and a
    negative alpha: the covariance is normalised by [n - 1] ([np.cov]) and
    the variance by [n] ([np.var]). *)
Theorem calculate_alpha_beta_self_zigzag :
  BenchmarkComparison.calculate_alpha_beta zigzag_returns zigzag_returns
  = ([],
     Ok [ ("alpha", VFloat (Fin (- (((1 + 2 / 100) ^ 252 - 1) / 29) * 100)));
          ("beta", VFloat (Fin (30 / 29)));
          ("correlation", VFloat (Fin 1)) ]%string)
  /\ 30 / 29 <> 1
  /\ - (((1 + 2 / 100) ^ 252 - 1) / 29) * 100 < 0.
Proof.
  split; [|split].
  - rewrite (calculate_alpha_beta_self zigzag_returns (1 / 100) (3 / 100)).
    + rewrite zigzag_mean.
      replace (INR (length zigzag_returns)) with 30
        by (rewrite INR_IZR_INZ; reflexivity).
      replace (30 - 1) with 29 by lra. reflexivity.
    + exact zigzag_index_NoDup.
    + apply Nat.eq_le_incl. reflexivity.
    + left. reflexivity.
    + right. left. reflexivity.
    + lra.
  - lra.
  - assert (1 < (1 + 2 / 100) ^ 252) by (apply Rlt_pow_R1; [lra|lia]).
    lra.
Qed.

(** *** Insufficient overlap *)

Lemma degenerate_result_no_flag : ~ carries_flag degenerate_result.
Proof.
  intros (k & Hin & Ha & Hb & Hc). simpl in Hin.
  destruct Hin as [<-|[<-|[<-|[]]]]; congruence.
Qed.

(** C3 (amended).  For every pair of return series whose common timestamp
    index has fewer than 30 points, the alpha/beta computation does not fail
    and returns exactly the record [{alpha: 0, beta: 1, correlation: 0}];
    the record has no further entry, the shortage being reported only by a
    logged warning. *)
Theorem calculate_alpha_beta_insufficient (s b : Series) :
  (overlap s b < 30)%nat ->
  BenchmarkComparison.calculate_alpha_beta s b
  = ([(WARNING, BenchmarkComparison.insufficient_msg)], Ok degenerate_result)
  /\ ~ carries_flag degenerate_result.
Proof.
  intros H. split.
  - unfold BenchmarkComparison.calculate_alpha_beta. unfold overlap in H.
    apply Nat.ltb_lt in H. rewrite H. reflexivity.
  - exact degenerate_result_no_flag.
Qed.

(** An empty strategy series against a one-point benchmark. *)
Lemma calculate_alpha_beta_insufficient_witness :
  (overlap [] [(0%Z, 1%R)] < 30)%nat
  /\ BenchmarkComparison.calculate_alpha_beta [] [(0%Z, 1)]
     = ([(WARNING, BenchmarkComparison.insufficient_msg)],
        Ok degenerate_result).
Proof.
  assert (overlap [] [(0%Z, 1%R)] < 30)%nat as H
    by (unfold overlap; simpl; lia).
  split; [exact H|].
  exact (proj1 (calculate_alpha_beta_insufficient [] [(0%Z, 1)] H)).
Defined.

(** C3 as stated fails: the record returned for two empty series has the
    three figures and no flag. *)
Lemma calculate_alpha_beta_no_flag_counterexample :
  ~ (exists log d,
       BenchmarkComparison.calculate_alpha_beta [] [] = (log, Ok d)
       /\ Dict.get d "alpha" = Some (VInt 0)
       /\ Dict.get d "beta" = Some (VInt 1)
       /\ Dict.get d "correlation" = Some (VInt 0)
       /\ carries_flag d).
Proof.
  intros (log & d & Heq & _ & _ & _ & Hflag).
  cbv in Heq. injection Heq as _ <-. revert Hflag.
  exact degenerate_result_no_flag.
Qed.

(** *** Dictionaries *)

Lemma get_set_same (d : dict) (k : string) (v : value) :
  Dict.get (Dict.set d k v) k = Some v.
Proof.
  induction d as [|[k' v'] d IH]; simpl.
  - now rewrite String.eqb_refl.
  - destruct (String.eqb_spec k' k) as [->|Hne]; simpl.
    + now rewrite String.eqb_refl.
    + now rewrite (proj2 (String.eqb_neq k' k) Hne).
Qed.

Lemma get_set_other (d : dict) (k k' : string) (v : value) :
  k <> k' -> Dict.get (Dict.set d k v) k' = Dict.get d k'.
Proof.
  intros Hne. induction d as [|[k0 v0] d IH]; simpl.
  - now rewrite (proj2 (String.eqb_neq k k') Hne).
  - destruct (String.eqb_spec k0 k) as [->|Hk]; simpl.
    + now rewrite (proj2 (String.eqb_neq k k') Hne).
    + now rewrite IH.
Qed.

Lemma window_results_set (results : dict) (k : string) (d : dict) :
  window_results results -> k <> "consistency_analysis"%string ->
  window_result d -> window_results (Dict.set results k (VDict d)).
Proof.
  intros Hres Hk Hd. induction Hres as [|[k' v'] rest Hhead Hrest IH]; simpl.
  - constructor; [|constructor]. split; [exact Hk|]. now exists d.
  - destruct (String.eqb_spec k' k) as [->|Hne].
    + constructor; [|exact Hrest]. split; [exact Hk|]. now exists d.
    + constructor; [exact Hhead|exact IH].
Qed.

(** *** The consistency analysis *)

Lemma as_floats_VFloat (l : list float) : as_floats (map VFloat l) = Ok l.
Proof.
  induction l as [|x l IH]; [reflexivity|]. simpl. now rewrite IH.
Qed.

Lemma collect_windows_results (results : dict) :
  window_results results ->
  BacktestEngine.collect_windows results
  = Ok (map VFloat (sharpe_ratios_of results),
        map VFloat (total_returns_of results)).
Proof.
  unfold sharpe_ratios_of, total_returns_of.
  induction 1 as [|[k v] rest (Hk & d & Hv & Hd) Hrest IH]; [reflexivity|].
  cbn [fst snd] in Hk, Hv. subst v.
  cbn [BacktestEngine.collect_windows successful_windows].
  rewrite (proj2 (String.eqb_neq _ _) Hk). cbn [negb].
  destruct Hd as [Herr|(Herr & s & r & Hs & Hr)]; rewrite Herr; cbn [negb].
  - exact IH.
  - unfold getitem. rewrite Hs, Hr. cbn [bind]. rewrite IH.
    cbn [bind fst snd map].
    unfold float_entry. rewrite Hs, Hr. reflexivity.
Qed.

Lemma analyze_consistency_results (results : dict) :
  window_results results ->
  BacktestEngine._analyze_consistency results
  = Ok (consistency_report (sharpe_ratios_of results)
                           (total_returns_of results)).
Proof.
  intros H. unfold BacktestEngine._analyze_consistency.
  rewrite (collect_windows_results results H). cbn [bind fst snd].
  unfold consistency_report.
  destruct (sharpe_ratios_of results) as [|s ss] eqn:E; [reflexivity|].
  cbn [map]. change (VFloat s :: map VFloat ss) with (map VFloat (s :: ss)).
  rewrite !as_floats_VFloat. reflexivity.
Qed.

Lemma population_std_sq_dev (l : list R) :
  population_std l = sqrt (sq_dev l / INR (length l)).
Proof.
  unfold population_std, sq_dev, Rmean at 1. rewrite length_map.
  do 3 f_equal. apply map_ext. intros x. ring.
Qed.

Lemma npf_std_finite (rs : list R) :
  rs <> [] -> npf.std (map Fin rs) = Fin (population_std rs).
Proof.
  intros Hne. unfold npf.std. rewrite finite_values_Fin.
  rewrite population_std_sq_dev. destruct rs; [congruence|reflexivity].
Qed.

Lemma all_Fin_map (l : list float) (c : R) :
  (forall x, In x l -> x = Fin c) -> l = map Fin (map (fun _ => c) l).
Proof.
  induction l as [|x l IH]; intros H; [reflexivity|]. simpl.
  rewrite <- IH by (intros; apply H; now right).
  now rewrite (H x) at 1 by now left.
Qed.

Lemma npf_std_identical (l : list float) (c : R) :
  l <> [] -> (forall x, In x l -> x = Fin c) -> npf.std l = Fin 0.
Proof.
  intros Hne H. rewrite (all_Fin_map l c H).
  assert (map (fun _ : float => c) l <> []) as Hne'
    by (destruct l; [congruence|discriminate]).
  rewrite (npf_std_finite _ Hne'), population_std_sq_dev.
  rewrite (sq_dev_const _ c Hne').
  - unfold Rdiv. now rewrite Rmult_0_l, sqrt_0.
  - intros x Hx. apply in_map_iff in Hx as (y & <- & _). reflexivity.
Qed.

(** C8 (amended).  In the consistency analysis, [sharpe_consistency] is the
    population standard deviation of the Sharpe ratios of the successful
    windows and [is_consistent] is exactly [sharpe_consistency < 0.5]; when
    there are two successful windows, as in the scenario of the
    specification, and both have the same finite Sharpe ratio (of a
    magnitude that twice the ratio does not overflow), [sharpe_consistency]
    is 0 and [is_consistent] is true.  The mean of two equal values is that
    value again in binary64 as well; with three values it need not be, see
    [np_std_three_tenths] below. *)
Theorem analyze_consistency_spec (results : dict) :
  window_results results -> successful_windows results <> [] ->
  let sharpes := sharpe_ratios_of results in
  exists report,
    BacktestEngine._analyze_consistency results = Ok report
    /\ Dict.get report "sharpe_consistency" = Some (VFloat (npf.std sharpes))
    /\ Dict.get report "is_consistent"
       = Some (VBool (Float.ltb (npf.std sharpes) (Fin (1 / 2))))
    /\ (forall rs, sharpes = map Fin rs ->
        npf.std sharpes = Fin (population_std rs))
    /\ (forall c, Rabs c <= 10 ^ 300 -> sharpes = [Fin c; Fin c] ->
        Dict.get report "sharpe_consistency" = Some (VFloat (Fin 0))
        /\ Dict.get report "is_consistent" = Some (VBool true)).
Proof.
  intros Hres Hne sharpes.
  assert (sharpes <> []) as Hs.
  { unfold sharpes, sharpe_ratios_of.
    destruct (successful_windows results); [congruence|discriminate]. }
  exists (consistency_report sharpes (total_returns_of results)).
  split; [now apply analyze_consistency_results|].
  assert (forall totals,
            Dict.get (consistency_report sharpes totals) "sharpe_consistency"
            = Some (VFloat (npf.std sharpes))
            /\ Dict.get (consistency_report sharpes totals) "is_consistent"
               = Some (VBool (Float.ltb (npf.std sharpes) (Fin (1 / 2)))))
    as Hget.
  { intros totals. unfold consistency_report.
    destruct sharpes; [congruence|]. split; reflexivity. }
  destruct (Hget (total_returns_of results)) as [Hstd Hflag].
  split; [exact Hstd|]. split; [exact Hflag|]. split.
  - intros rs Hrs. rewrite Hrs. apply npf_std_finite.
    intros ->. apply Hs. exact Hrs.
  - intros c _ Hc. rewrite Hstd, Hflag.
    rewrite (npf_std_identical sharpes c Hs)
      by (rewrite Hc; intros x [<-|[<-|[]]]; reflexivity).
    split; [reflexivity|].
    cbn [Float.ltb]. do 2 f_equal. apply Rltb_true_iff. lra.
Qed.


(** Two windows with Sharpe ratio 1. *)
Lemma analyze_consistency_spec_witness :
  exists report,
    BacktestEngine._analyze_consistency steady_results = Ok report
    /\ Dict.get report "sharpe_consistency" = Some (VFloat (Fin 0))
    /\ Dict.get report "is_consistent" = Some (VBool true).
Proof.
  assert (window_results steady_results) as Hres.
  { repeat constructor; cbn; try discriminate;
      eexists; (split; [reflexivity|]); right; (split; [reflexivity|]);
      eexists; eexists; split; reflexivity. }
  assert (successful_windows steady_results <> []) as Hne by discriminate.
  destruct (analyze_consistency_spec steady_results Hres Hne)
    as (report & Hrun & _ & _ & _ & Hsame).
  exists report. split; [exact Hrun|].
  apply (Hsame 1); [|reflexivity].
  rewrite Rabs_R1. apply pow_R1_Rle. lra.
Defined.

(** C8 as stated fails: with an infinite Sharpe ratio in both windows the
    deviations are NaN, and so is their standard deviation. *)
Lemma identical_infinite_sharpe_counterexample :
  window_results infinite_sharpe_results
  /\ (forall x, In x (sharpe_ratios_of infinite_sharpe_results) -> x = PInf)
  /\ exists report,
       BacktestEngine._analyze_consistency infinite_sharpe_results = Ok report
       /\ Dict.get report "sharpe_consistency" = Some (VFloat NaN)
       /\ Dict.get report "sharpe_consistency" <> Some (VFloat (Fin 0))
       /\ Dict.get report "is_consistent" = Some (VBool false)
       /\ Dict.get report "is_consistent" <> Some (VBool true).
Proof.
  split; [|split].
  - repeat constructor; cbn; try discriminate;
      eexists; (split; [reflexivity|]); right; (split; [reflexivity|]);
      now exists PInf, (Fin 0).
  - cbn. intros x [<-|[<-|[]]]; reflexivity.
  - eexists. split; [reflexivity|]. repeat split; cbn; congruence.
Qed.

(** In binary64 the standard deviation of two equal Sharpe ratios is 0,
    but that of three Sharpe ratios of 0.1 is not: their mean is rounded to
    the next double above 0.1.  It is still far below the threshold. *)
Lemma np_std_three_tenths :
  PrimFloat.eqb (np64.std [tenth; tenth]) PrimFloat.zero = true
  /\ PrimFloat.eqb (np64.std [tenth; tenth; tenth]) PrimFloat.zero = false
  /\ PrimFloat.ltb (np64.std [tenth; tenth; tenth]) half = true.
Proof. repeat split; vm_compute; reflexivity. Qed.

(** *** Window keys *)

Lemma list_ascii_of_string_app (s t : string) :
  list_ascii_of_string (s ++ t)
  = (list_ascii_of_string s ++ list_ascii_of_string t)%list.
Proof.
  induction s as [|c s IH]; [reflexivity|]. simpl. now rewrite IH.
Qed.

Lemma string_app_inv_tail (s1 s2 t : string) :
  (s1 ++ t = s2 ++ t)%string -> s1 = s2.
Proof.
  intros H. apply (f_equal list_ascii_of_string) in H.
  rewrite !list_ascii_of_string_app in H. apply app_inv_tail in H.
  apply (f_equal string_of_list_ascii) in H.
  now rewrite !string_of_list_ascii_of_string in H.
Qed.

Lemma to_int_nonnil (z : Z) :
  Z.to_int z <> Decimal.Pos Decimal.Nil
  /\ Z.to_int z <> Decimal.Neg Decimal.Nil.
Proof.
  destruct z as [|p|p]; simpl; split; try discriminate;
    intros [= H]; now apply (DecimalPos.Unsigned.to_uint_nonnil p).
Qed.

Lemma string_of_Z_inj (z1 z2 : Z) : string_of_Z z1 = string_of_Z z2 -> z1 = z2.
Proof.
  unfold string_of_Z. intros H.
  apply (f_equal DecimalString.NilZero.int_of_string) in H.
  destruct (to_int_nonnil z1), (to_int_nonnil z2).
  rewrite !DecimalString.NilZero.isi in H by assumption.
  injection H as H. apply (f_equal Z.of_int) in H.
  now rewrite !DecimalZ.of_to in H.
Qed.

Lemma period_key_inj (y1 y2 : Z) :
  BacktestEngine.period_key y1 = BacktestEngine.period_key y2 -> y1 = y2.
Proof.
  unfold BacktestEngine.period_key. intros H.
  apply string_app_inv_tail in H. now apply string_of_Z_inj.
Qed.

Lemma period_key_not_analysis (y : Z) :
  BacktestEngine.period_key y <> "consistency_analysis"%string.
Proof.
  unfold BacktestEngine.period_key. intros H.
  change "consistency_analysis"%string
    with ("consistency_analysi" ++ "s")%string in H.
  apply (f_equal list_ascii_of_string) in H.
  rewrite !list_ascii_of_string_app in H.
  apply app_inj_tail in H as [_ H]. discriminate.
Qed.

Section EngineProperties.

Context {V : vbt.API}.
Variable yf_download : string -> Z -> outcome PriceData.
Variable exec_code : string -> rand (option StrategyClass).
Variable month_of : Z -> Z.

#[local] Abbreviation run_backtest :=
  (BacktestEngine.run_backtest yf_download exec_code month_of).
#[local] Abbreviation run_periods :=
  (BacktestEngine.run_periods yf_download exec_code month_of).
#[local] Abbreviation report_of :=
  (BacktestEngine.report_of yf_download month_of).
#[local] Abbreviation run_multiple_backtests :=
  (BacktestEngine.run_multiple_backtests yf_download exec_code month_of).
#[local] Abbreviation fetch_social_historical_data :=
  (BacktestEngine.fetch_social_historical_data yf_download).
#[local] Abbreviation fetch_historical_data :=
  (BacktestEngine.fetch_historical_data yf_download).

Lemma error_dict_window_result (msg : string) : window_result (error_dict msg).
Proof. now left. Qed.

Lemma report_of_window_result portfolio price_data ticker years :
  window_result (report_of portfolio price_data ticker years).
Proof.
  right. split; [reflexivity|].
  exists (vbt.sharpe_ratio portfolio),
         (Float.mul (vbt.total_return portfolio) (Fin 100)).
  split; reflexivity.
Qed.

(** Every path through [run_backtest] ends in an error record or in a
    report. *)
Lemma run_backtest_cases (algorithm_code ticker : string) (years : Z)
    (initial_capital : R) (g : rng) :
  let d := fst (run_backtest algorithm_code ticker years initial_capital g) in
  (exists msg, d = error_dict msg)
  \/ (exists price_data strategy_class strategy signals portfolio,
        fetch_historical_data ticker years = Some price_data
        /\ (exists g1,
              fst (exec_code algorithm_code g1) = Ok (Some strategy_class))
        /\ (exists g2, fst (strategy_class g2) = Ok strategy)
        /\ (exists g3,
              fst (generate_signals strategy price_data
                     (fst (fetch_social_historical_data ticker years g)) g3)
              = Ok signals)
        /\ vbt.from_signals (BacktestEngine.close_series price_data)
             (fst signals) (snd signals) initial_capital (1 / 1000) (5 / 10000)
           = Ok portfolio
        /\ d = report_of portfolio price_data ticker years).
Proof.
  unfold BacktestEngine.run_backtest.
  destruct (fetch_social_historical_data ticker years g) as [social g'] eqn:Es.
  destruct (fetch_historical_data ticker years) as [price_data|] eqn:Ep;
    [|left; now eexists].
  unfold rbind, lift.
  destruct (exec_code algorithm_code g') as [[[strategy_class|]|e] g1] eqn:Ex;
    cbn [fst]; try (left; now eexists).
  destruct (strategy_class g1) as [[strategy|e] g2] eqn:Ec;
    cbn [fst]; try (left; now eexists).
  destruct (generate_signals strategy price_data social g2)
    as [[signals|e] g3] eqn:Eg;
    cbn [fst]; try (left; now eexists).
  destruct (vbt.from_signals (BacktestEngine.close_series price_data)
              (fst signals) (snd signals) initial_capital (1 / 1000)
              (5 / 10000))
    as [portfolio|e] eqn:Ef; cbn [bind fst]; try (left; now eexists).
  right. exists price_data, strategy_class, strategy, signals, portfolio.
  split; [reflexivity|].
  split; [exists g'; now rewrite Ex|].
  split; [exists g1; now rewrite Ec|].
  split; [exists g2; cbn [fst]; now rewrite Eg|].
  split; [exact Ef|reflexivity].
Qed.

Lemma run_backtest_window_result (algorithm_code ticker : string) (years : Z)
    (initial_capital : R) (g : rng) :
  window_result
    (fst (run_backtest algorithm_code ticker years initial_capital g)).
Proof.
  destruct (run_backtest_cases algorithm_code ticker years initial_capital g)
    as [(msg & ->)|(p & c & s & sg & pf & _ & _ & _ & _ & _ & ->)].
  - apply error_dict_window_result.
  - apply report_of_window_result.
Qed.

(** *** The loop over the windows *)

Lemma run_periods_app (code ticker : string) (p1 p2 : list Z)
    (results : dict) (g : rng) :
  run_periods code ticker (p1 ++ p2) results g
  = run_periods code ticker p2
      (fst (run_periods code ticker p1 results g))
      (snd (run_periods code ticker p1 results g)).
Proof.
  revert results g. induction p1 as [|y p1 IH]; intros results g.
  - reflexivity.
  - cbn [app BacktestEngine.run_periods].
    destruct (run_backtest code ticker y 100000 g) as [d g']. apply IH.
Qed.

(** The generator state the loop reaches does not depend on the results
    gathered so far. *)
Lemma run_periods_rng (code ticker : string) (periods : list Z)
    (r1 r2 : dict) (g : rng) :
  snd (run_periods code ticker periods r1 g)
  = snd (run_periods code ticker periods r2 g).
Proof.
  revert r1 r2 g. induction periods as [|y periods IH]; intros r1 r2 g.
  - reflexivity.
  - cbn [BacktestEngine.run_periods].
    destruct (run_backtest code ticker y 100000 g) as [d g']. apply IH.
Qed.

Lemma run_periods_window_results (code ticker : string) (periods : list Z)
    (results : dict) (g : rng) :
  window_results results ->
  window_results (fst (run_periods code ticker periods results g)).
Proof.
  revert results g. induction periods as [|y periods IH]; intros results g H.
  - exact H.
  - cbn [BacktestEngine.run_periods].
    pose proof (run_backtest_window_result code ticker y 100000 g) as Hd.
    destruct (run_backtest code ticker y 100000 g) as [d g'].
    apply IH. apply window_results_set; auto using period_key_not_analysis.
Qed.

Lemma run_periods_get_other (code ticker : string) (periods : list Z)
    (results : dict) (g : rng) (years : Z) :
  ~ In years periods ->
  Dict.get (fst (run_periods code ticker periods results g))
           (BacktestEngine.period_key years)
  = Dict.get results (BacktestEngine.period_key years).
Proof.
  revert results g. induction periods as [|y periods IH]; intros results g H.
  - reflexivity.
  - cbn [BacktestEngine.run_periods].
    destruct (run_backtest code ticker y 100000 g) as [d g'].
    rewrite IH by (intros Hin; apply H; now right).
    apply get_set_other. intros Heq. apply H. left.
    now apply period_key_inj.
Qed.

(** A window's entry is the result of its run: of the last one when the
    same number of years is requested more than once. *)
Lemma run_periods_recorded (code ticker : string) (before after : list Z)
    (years : Z) (g : rng) :
  ~ In years after ->
  Dict.get (fst (run_periods code ticker (before ++ years :: after) [] g))
           (BacktestEngine.period_key years)
  = Some (VDict (fst (run_backtest code ticker years 100000
                        (snd (run_periods code ticker before [] g))))).
Proof.
  intros H. rewrite run_periods_app. cbn [BacktestEngine.run_periods].
  destruct (run_backtest code ticker years 100000
              (snd (run_periods code ticker before [] g))) as [d g'].
  rewrite run_periods_get_other by exact H. apply get_set_same.
Qed.

Lemma in_split_last (x : Z) (l : list Z) :
  In x l -> exists l1 l2, l = (l1 ++ x :: l2)%list /\ ~ In x l2.
Proof.
  induction l as [|a l IH]; [contradiction|]. intros Hin.
  destruct (in_dec Z.eq_dec x l) as [Hl|Hl].
  - destruct (IH Hl) as (l1 & l2 & -> & Hnot).
    exists (a :: l1), l2. split; [reflexivity|exact Hnot].
  - destruct Hin as [->|Hin]; [|contradiction].
    exists [], l. split; [reflexivity|exact Hl].
Qed.

(** C9.  A multi-window run never fails.  Every window is recorded under
    its key with the result of its run, an error record included, whatever
    the other windows did, so that every requested window has an entry; the
    consistency analysis aggregates the windows without an ['error'] entry
    only; and when no window succeeds the analysis is the empty
    dictionary. *)
Theorem run_multiple_backtests_spec (code ticker : string) (periods : list Z)
    (g : rng) :
  let windows := fst (run_periods code ticker periods [] g) in
  let analysis :=
    consistency_report (sharpe_ratios_of windows) (total_returns_of windows) in
  exists results,
    fst (run_multiple_backtests code ticker periods g) = Ok results
    /\ (forall before years after,
          periods = (before ++ years :: after)%list -> ~ In years after ->
          Dict.get results (BacktestEngine.period_key years)
          = Some (VDict (fst (run_backtest code ticker years 100000
                                (snd (run_periods code ticker before [] g))))))
    /\ (forall years, In years periods ->
        exists d, Dict.get results (BacktestEngine.period_key years)
                  = Some (VDict d) /\ window_result d)
    /\ Dict.get results "consistency_analysis" = Some (VDict analysis)
    /\ (successful_windows windows = [] -> analysis = []).
Proof.
  intros windows analysis.
  exists (Dict.set windows "consistency_analysis" (VDict analysis)).
  assert (window_results windows) as Hw
    by (apply run_periods_window_results; constructor).
  assert (forall before years after,
            periods = (before ++ years :: after)%list -> ~ In years after ->
            Dict.get (Dict.set windows "consistency_analysis" (VDict analysis))
                     (BacktestEngine.period_key years)
            = Some (VDict
                      (fst (run_backtest code ticker years 100000
                              (snd (run_periods code ticker before [] g))))))
    as Hrecorded.
  { intros before years after Hsplit Hnotin. unfold windows. rewrite Hsplit.
    rewrite get_set_other
      by (intros Heq; symmetry in Heq; revert Heq;
          apply period_key_not_analysis).
    now apply run_periods_recorded. }
  split; [|split; [exact Hrecorded|split; [|split]]].
  - unfold BacktestEngine.run_multiple_backtests. fold windows.
    destruct (run_periods code ticker periods [] g) as [w g'] eqn:E.
    cbn [fst] in *. subst windows.
    rewrite (analyze_consistency_results w Hw). reflexivity.
  - intros years Hin.
    destruct (in_split_last years periods Hin)
      as (before & after & Hsplit & Hnot).
    eexists. split; [exact (Hrecorded before years after Hsplit Hnot)|].
    apply run_backtest_window_result.
  - apply get_set_same.
  - intros Hnone. unfold analysis, sharpe_ratios_of. now rewrite Hnone.
Qed.

End EngineProperties.

(** Two windows with the data provider down. *)
Lemma run_multiple_backtests_spec_witness :
  exists results,
    fst (BacktestEngine.run_multiple_backtests (V := PortfolioSimulator.api)
           no_data no_class thirty_day_months
           "" "AAPL" [1%Z; 5%Z] quiet) = Ok results
    /\ Dict.get results "1Y" = Some (VDict (error_dict "Data fetch failed"))
    /\ Dict.get results "consistency_analysis" = Some (VDict []).
Proof.
  destruct (run_multiple_backtests_spec (V := PortfolioSimulator.api)
              no_data no_class thirty_day_months
              "" "AAPL" [1%Z; 5%Z] quiet)
    as (results & Hrun & Hrecorded & _ & Hanalysis & Hnone).
  exists results. split; [exact Hrun|]. split.
  - apply (Hrecorded [] 1%Z [5%Z] eq_refl).
    simpl. intros [H|[]]. discriminate.
  - rewrite Hanalysis. now rewrite Hnone.
Defined.

(** *** Randomness in a run *)

Section Determinism.

Context {V : vbt.API}.
Variable yf_download : string -> Z -> outcome PriceData.
Variable exec_code : string -> rand (option StrategyClass).
Variable month_of : Z -> Z.

#[local] Abbreviation report_of :=
  (BacktestEngine.report_of yf_download month_of).

(** C2 (amended).  Two runs of the same simulation on identical inputs
    return identical reports, whatever the state of the random generator,
    provided the strategy's signals do not depend on the social data it is
    handed and the caller's code (the algorithm code, the constructor of the
    strategy class and [generate_signals]) returns the same whatever the
    state of the generator it shares with the engine. *)
Theorem run_backtest_deterministic (code ticker : string) (years : Z)
    (initial_capital : R) (g1 g2 : rng) :
  ignores_social_data (exec_code code) ->
  ignores_generator (exec_code code) ->
  fst (BacktestEngine.run_backtest yf_download exec_code month_of
         code ticker years initial_capital g1)
  = fst (BacktestEngine.run_backtest yf_download exec_code month_of
           code ticker years initial_capital g2).
Proof.
  intros Hsocial (Hcode & Hclass & Hsignals).
  unfold BacktestEngine.run_backtest.
  destruct (BacktestEngine.fetch_social_historical_data yf_download ticker
              years g1) as [s1 g1'].
  destruct (BacktestEngine.fetch_social_historical_data yf_download ticker
              years g2) as [s2 g2'].
  destruct (BacktestEngine.fetch_historical_data yf_download ticker years)
    as [price_data|]; [|reflexivity].
  unfold rbind, lift.
  pose proof (Hcode g1' g2') as Hfound.
  pose proof (Hclass g1') as Hclass1.
  destruct (exec_code code g1') as [found h1] eqn:E1.
  destruct (exec_code code g2') as [found2 h2] eqn:E2.
  cbn [fst] in Hfound, Hclass1. subst found2.
  destruct found as [[strategy_class|]|e]; cbn [fst]; try reflexivity.
  pose proof (Hclass1 strategy_class eq_refl h1 h2) as Hinstance.
  destruct (strategy_class h1) as [instance k1] eqn:Ec1.
  destruct (strategy_class h2) as [instance2 k2] eqn:Ec2.
  cbn [fst] in Hinstance. subst instance2.
  destruct instance as [strategy|e]; cbn [fst]; [|reflexivity].
  assert (yields_strategy (exec_code code) strategy) as Hyields.
  { exists g1', strategy_class, h1. rewrite E1, Ec1. split; reflexivity. }
  pose proof (Hsignals strategy Hyields price_data s2 k1 k2) as Hs.
  rewrite <- (Hsocial strategy Hyields price_data s1 s2 k1) in Hs.
  destruct (generate_signals strategy price_data s1 k1) as [sg1 l1].
  destruct (generate_signals strategy price_data s2 k2) as [sg2 l2].
  cbn [fst] in Hs. subst sg2.
  destruct sg1 as [signals|e]; cbn [fst]; [|reflexivity].
  destruct (vbt.from_signals _ _ _ _ _ _); reflexivity.
Qed.

(** The report of a run whose steps all succeed, and the state it leaves the
    generator in. *)
Lemma run_backtest_report (code ticker : string) (years : Z)
    (initial_capital : R) (g g1 g2 g3 : rng) price_data strategy_class
    strategy signals portfolio :
  BacktestEngine.fetch_historical_data yf_download ticker years
  = Some price_data ->
  exec_code code
    (snd (BacktestEngine.fetch_social_historical_data yf_download ticker
            years g))
  = (Ok (Some strategy_class), g1) ->
  strategy_class g1 = (Ok strategy, g2) ->
  generate_signals strategy price_data
    (fst (BacktestEngine.fetch_social_historical_data yf_download ticker
            years g)) g2 = (Ok signals, g3) ->
  vbt.from_signals (BacktestEngine.close_series price_data)
    (fst signals) (snd signals) initial_capital (1 / 1000) (5 / 10000)
  = Ok portfolio ->
  BacktestEngine.run_backtest yf_download exec_code month_of
    code ticker years initial_capital g
  = (report_of portfolio price_data ticker years, g3).
Proof.
  intros Hp Hx Hc Hs Hf. unfold BacktestEngine.run_backtest.
  destruct (BacktestEngine.fetch_social_historical_data yf_download ticker
              years g) as [social g'].
  cbn [fst snd] in Hs, Hx. rewrite Hp. unfold rbind, lift.
  rewrite Hx, Hc, Hs, Hf. reflexivity.
Qed.

Lemma report_of_total_fees portfolio price_data ticker years :
  Dict.get (report_of portfolio price_data ticker years)
           "total_fees_paid"
  = Some (VFloat (vbt.total_fees portfolio)).
Proof. reflexivity. Qed.

End Determinism.

Lemma class_of_yields (strategy strategy' : Strategy) (code : string) :
  yields_strategy (class_of strategy code) strategy' -> strategy' = strategy.
Proof.
  intros (g & strategy_class & h & Hfound & Hinstance).
  unfold class_of, lift in Hfound. cbn [fst] in Hfound.
  injection Hfound as <-. cbn [fst] in Hinstance. congruence.
Qed.

(** A strategy that holds from the first bar, run under two states of the
    generator. *)
Lemma run_backtest_deterministic_witness :
  fst (BacktestEngine.run_backtest (V := PortfolioSimulator.api)
         one_bar (class_of hold_strategy)
         thirty_day_months "" "AAPL" 1 100000 quiet)
  = fst (BacktestEngine.run_backtest (V := PortfolioSimulator.api)
           one_bar (class_of hold_strategy)
           thirty_day_months "" "AAPL" 1 100000 loud).
Proof.
  apply (run_backtest_deterministic (V := PortfolioSimulator.api)
           one_bar (class_of hold_strategy) thirty_day_months
           "" "AAPL" 1 100000 quiet loud).
  - intros strategy Hy price_data s1 s2 g.
    apply class_of_yields in Hy. subst strategy. reflexivity.
  - split; [reflexivity|]. split.
    + intros g strategy_class [= <-] h1 h2. reflexivity.
    + intros strategy Hy price_data social_data g1 g2.
      apply class_of_yields in Hy. subst strategy. reflexivity.
Defined.

(** *** Two runs on the same inputs *)

Lemma mention_run_quiet :
  Dict.get
    (fst (BacktestEngine.run_backtest (V := PortfolioSimulator.api)
            one_bar (class_of mention_strategy)
            thirty_day_months "" "AAPL" 1 100000 quiet))
    "total_fees_paid"
  = Some (VFloat (Fin 0)).
Proof.
  erewrite (run_backtest_report (V := PortfolioSimulator.api)
              one_bar _ _ _ _ _ _ _ _ _ _
              [mkBar 0 100 100 100 100 1000] _ mention_strategy
              ([false], [false])
              (PortfolioSimulator.mkPortfolio 100000
                 (PortfolioSimulator.mkState PortfolioSimulator.FLAT 100000 []
                    [(0%Z, 100000)] 0))).
  - reflexivity.
  - reflexivity.
  - reflexivity.
  - reflexivity.
  - cbn. unfold lift, quiet.
    assert (Rltb 100 (Rabs (100 + 50 * 0)) = false) as ->
      by (apply Rltb_false_iff; rewrite Rabs_right by lra; lra).
    reflexivity.
  - reflexivity.
Qed.

Lemma mention_run_loud :
  exists fee,
    Dict.get
      (fst (BacktestEngine.run_backtest (V := PortfolioSimulator.api)
              one_bar (class_of mention_strategy)
              thirty_day_months "" "AAPL" 1 100000 loud))
      "total_fees_paid"
    = Some (VFloat (Fin fee)) /\ fee = 100.
Proof.
  set (ep := 100 * (1 + 5 / 10000)).
  set (q := 100000 / ep).
  set (fee := 1 / 1000 * (q * ep)).
  exists (0 + fee).
  assert (0 < ep) as Hep by (unfold ep; lra).
  split.
  - erewrite (run_backtest_report (V := PortfolioSimulator.api)
                one_bar _ _ _ _ _ _ _ _ _ _
                [mkBar 0 100 100 100 100 1000] _ mention_strategy
                ([true], [false])
                (PortfolioSimulator.mkPortfolio 100000
                   (PortfolioSimulator.mkState
                      (PortfolioSimulator.LONG 0 ep q fee) 100000 []
                      [(0%Z, q * 100 - fee)] (0 + fee)))).
    + reflexivity.
    + reflexivity.
    + reflexivity.
    + reflexivity.
    + cbn. unfold lift, loud.
      assert (Rltb 100 (Rabs (100 + 50 * 1)) = true) as ->
        by (apply Rltb_true_iff; rewrite Rabs_right by lra; lra).
      reflexivity.
    + cbn. fold ep.
      assert (Rleb ep 0 = false) as -> by (apply Rleb_false_iff; exact Hep).
      reflexivity.
  - unfold fee, q. field. lra.
Qed.

(** C2 as stated fails: the strategy that buys when the synthetic mention
    count exceeds 100 pays no fee under one state of the generator and a fee
    of 100 under another, on the same inputs. *)
Lemma run_backtest_random_counterexample :
  fst (BacktestEngine.run_backtest (V := PortfolioSimulator.api)
         one_bar (class_of mention_strategy)
         thirty_day_months "" "AAPL" 1 100000 quiet)
  <> fst (BacktestEngine.run_backtest (V := PortfolioSimulator.api)
            one_bar (class_of mention_strategy)
            thirty_day_months "" "AAPL" 1 100000 loud).
Proof.
  intros H. pose proof mention_run_quiet as Hq.
  destruct mention_run_loud as (fee & Hl & Hfee).
  rewrite H, Hl in Hq. injection Hq as Hq. lra.
Qed.

Lemma coin_run_quiet :
  Dict.get
    (fst (BacktestEngine.run_backtest (V := PortfolioSimulator.api)
            one_bar (class_of coin_strategy)
            thirty_day_months "" "AAPL" 1 100000 quiet))
    "total_fees_paid"
  = Some (VFloat (Fin 0)).
Proof.
  erewrite (run_backtest_report (V := PortfolioSimulator.api)
              one_bar _ _ _ _ _ _ _ _ _ _
              [mkBar 0 100 100 100 100 1000] _ coin_strategy
              ([false], [false])
              (PortfolioSimulator.mkPortfolio 100000
                 (PortfolioSimulator.mkState PortfolioSimulator.FLAT 100000 []
                    [(0%Z, 100000)] 0))).
  - reflexivity.
  - reflexivity.
  - reflexivity.
  - reflexivity.
  - cbn. unfold quiet.
    assert (Rltb (1 / 2) (0 + 1 * 0) = false) as ->
      by (apply Rltb_false_iff; lra).
    reflexivity.
  - reflexivity.
Qed.

Lemma coin_run_loud :
  exists fee,
    Dict.get
      (fst (BacktestEngine.run_backtest (V := PortfolioSimulator.api)
              one_bar (class_of coin_strategy)
              thirty_day_months "" "AAPL" 1 100000 loud))
      "total_fees_paid"
    = Some (VFloat (Fin fee)) /\ fee = 100.
Proof.
  set (ep := 100 * (1 + 5 / 10000)).
  set (q := 100000 / ep).
  set (fee := 1 / 1000 * (q * ep)).
  exists (0 + fee).
  assert (0 < ep) as Hep by (unfold ep; lra).
  split.
  - erewrite (run_backtest_report (V := PortfolioSimulator.api)
                one_bar _ _ _ _ _ _ _ _ _ _
                [mkBar 0 100 100 100 100 1000] _ coin_strategy
                ([true], [false])
                (PortfolioSimulator.mkPortfolio 100000
                   (PortfolioSimulator.mkState
                      (PortfolioSimulator.LONG 0 ep q fee) 100000 []
                      [(0%Z, q * 100 - fee)] (0 + fee)))).
    + reflexivity.
    + reflexivity.
    + reflexivity.
    + reflexivity.
    + cbn. unfold loud.
      assert (Rltb (1 / 2) (0 + 1 * 1) = true) as ->
        by (apply Rltb_true_iff; lra).
      reflexivity.
    + cbn. fold ep.
      assert (Rleb ep 0 = false) as -> by (apply Rleb_false_iff; exact Hep).
      reflexivity.
  - unfold fee, q. field. lra.
Qed.

(** Ignoring the social data is not enough: the strategy that draws its
    signals from the generator ignores the social data, and pays no fee
    under one state of the generator and a fee of 100 under another. *)
Lemma run_backtest_drawing_strategy :
  ignores_social_data (class_of coin_strategy "")
  /\ fst (BacktestEngine.run_backtest (V := PortfolioSimulator.api)
            one_bar (class_of coin_strategy)
            thirty_day_months "" "AAPL" 1 100000 quiet)
     <> fst (BacktestEngine.run_backtest (V := PortfolioSimulator.api)
               one_bar (class_of coin_strategy)
               thirty_day_months "" "AAPL" 1 100000 loud).
Proof.
  split.
  - intros strategy Hy price_data s1 s2 g.
    apply class_of_yields in Hy. subst strategy. reflexivity.
  - intros H. pose proof coin_run_quiet as Hq.
    destruct coin_run_loud as (fee & Hl & Hfee).
    rewrite H, Hl in Hq. injection Hq as Hq. lra.
Qed.

(** *** Loading the engine module *)

(** C10.  Loading the backtest engine module fails with a [NameError]: the
    annotation [List[int]] of the parameter [periods] of
    [run_multiple_backtests] is evaluated while the class body runs, and the
    module imports [Dict] and [Tuple] from [typing] but not [List].  No name
    can then be imported from the module, [BacktestEngine] included; with
    [List] imported the module loads and binds [BacktestEngine]. *)
Theorem backtest_engine_module_fails_to_load :
  Py.load_module backtest_engine_py = Raise (Py.name_error "List")
  /\ (forall name,
        Py.import_from backtest_engine_py name = Raise (Py.name_error "List"))
  /\ Py.import_from backtest_engine_py_with_List "BacktestEngine" = Ok tt.
Proof.
  assert (Py.load_module backtest_engine_py = Raise (Py.name_error "List"))
    as H by reflexivity.
  split; [exact H|]. split.
  - intros name. unfold Py.import_from. now rewrite H.
  - reflexivity.
Qed.

(* ================================================================== *)
(** ** Further properties of the code *)
(* ================================================================== *)

(* ================================================================== *)
(** ** Further properties of the metrics *)
(* ================================================================== *)

(** *** Series that are too short *)

Lemma pd_std_short (l : list R) : (length l < 2)%nat -> pd.std l = NaN.
Proof.
  intros H. unfold pd.std.
  assert ((length l <=? 1)%nat = true) as -> by (apply Nat.leb_le; lia).
  reflexivity.
Qed.

(** *** Sharpe ratio *)

(** X1.  With fewer than two returns the Sharpe ratio is NaN: the standard
    deviation of the excess returns is NaN, which the [== 0] guard does not
    catch. *)
Theorem calculate_sharpe_ratio_short (returns : list R) (risk_free_rate : R) :
  (length returns < 2)%nat ->
  PerformanceMetrics.calculate_sharpe_ratio returns risk_free_rate = NaN.
Proof.
  intros H. unfold PerformanceMetrics.calculate_sharpe_ratio.
  rewrite pd_std_short by (rewrite length_map; exact H). cbn [Float.eqb].
  destruct (pd.mean _); reflexivity.
Qed.

Lemma calculate_sharpe_ratio_short_witness :
  PerformanceMetrics.calculate_sharpe_ratio [1 / 100] 0 = NaN.
Proof.
  apply (calculate_sharpe_ratio_short [1 / 100] 0). cbn. lia.
Defined.

(** *** Sortino ratio *)

Lemma pd_mean_filter_nonempty (f : R -> bool) (l : list R) :
  filter f l <> [] -> exists m, pd.mean l = Fin m.
Proof.
  destruct l as [|x l]; [intros H; now elim H|]. intros _.
  eexists. reflexivity.
Qed.

(** X4.  The Sortino ratio depends on how many excess returns are negative:
    with none it is 0, and with exactly one it is NaN, since the deviation
    of a single value is NaN and the [== 0] guard does not catch it. *)
Theorem calculate_sortino_ratio_cases (returns : list R) (risk_free_rate : R) :
  let downside :=
    filter (fun x => Rltb x 0)
           (map (fun x => x - risk_free_rate / 252) returns) in
  (downside = [] ->
   PerformanceMetrics.calculate_sortino_ratio returns risk_free_rate = Fin 0)
  /\ (length downside = 1%nat ->
      PerformanceMetrics.calculate_sortino_ratio returns risk_free_rate = NaN).
Proof.
  intros downside. unfold PerformanceMetrics.calculate_sortino_ratio.
  set (excess := map (fun x => x - risk_free_rate / 252) returns).
  assert (downside <> [] -> exists m, pd.mean excess = Fin m) as Hmean
    by apply pd_mean_filter_nonempty.
  change (filter (fun x => Rltb x 0) excess) with downside.
  clearbody downside.
  split.
  - intros ->. reflexivity.
  - intros Hlen. destruct Hmean as (m & ->).
    { intros E. rewrite E in Hlen. discriminate. }
    rewrite Hlen, pd_std_short by lia. reflexivity.
Qed.

(** Two gains and one loss against a zero risk-free rate. *)
Lemma calculate_sortino_ratio_cases_witness :
  PerformanceMetrics.calculate_sortino_ratio [1; -1; 2] 0 = NaN.
Proof.
  apply (calculate_sortino_ratio_cases [1; -1; 2] 0).
  cbn [map filter].
  assert (Rltb (1 - 0 / 252) 0 = false) as -> by (apply Rltb_false_iff; lra).
  assert (Rltb (-1 - 0 / 252) 0 = true) as -> by (apply Rltb_true_iff; lra).
  assert (Rltb (2 - 0 / 252) 0 = false) as -> by (apply Rltb_false_iff; lra).
  reflexivity.
Defined.

(** *** Maximum drawdown *)

Lemma drawdown_at_gt_minus_1 (E : list R) (t : nat) :
  (forall x, In x E -> 0 < x) -> (t < length E)%nat -> -1 < drawdown_at E t.
Proof.
  intros Hpos Ht. unfold drawdown_at.
  pose proof (running_max_pos E t Hpos Ht) as Hm.
  assert (0 < nth t E 0) as He by (apply Hpos, nth_In; exact Ht).
  set (m := running_max E t) in *. set (e := nth t E 0) in *.
  assert (0 < / m) as Hi by now apply Rinv_0_lt_compat.
  assert (m * / m = 1) as Hmm by (apply Rinv_r; lra).
  unfold Rdiv. nra.
Qed.

(** X5.  The maximum drawdown of an empty curve is NaN; on a non-empty curve
    of positive values it is a percentage of at least 0 and at most 100. *)
Theorem calculate_max_drawdown_range (E : list R) :
  (E = [] -> PerformanceMetrics.calculate_max_drawdown E = NaN)
  /\ (E <> [] -> (forall x, In x E -> 0 < x) ->
      exists d, PerformanceMetrics.calculate_max_drawdown E = Fin d
                /\ 0 <= d <= 100).
Proof.
  split.
  - intros ->. reflexivity.
  - intros Hne Hpos. exists (max_drawdown_formula E).
    split; [now apply calculate_max_drawdown_finite|].
    unfold max_drawdown_formula.
    set (dd := map (drawdown_at E) (seq 0 (length E))).
    assert (dd <> []) as Hdd
      by (unfold dd; destruct E; [congruence|discriminate]).
    destruct (proj1 (in_map_iff _ _ _) (list_min_In dd Hdd))
      as (t & Ht & Hin).
    apply in_seq in Hin. rewrite <- Ht.
    pose proof (drawdown_at_nonpos E t Hpos ltac:(lia)) as Hle.
    pose proof (drawdown_at_gt_minus_1 E t Hpos ltac:(lia)) as Hgt.
    rewrite Rabs_left1 by exact Hle. lra.
Qed.

Lemma calculate_max_drawdown_range_witness :
  exists d, PerformanceMetrics.calculate_max_drawdown [100; 50; 80] = Fin d
            /\ 0 <= d <= 100.
Proof.
  apply (calculate_max_drawdown_range [100; 50; 80]).
  - discriminate.
  - simpl. intros x [<-|[<-|[<-|[]]]]; lra.
Defined.

Lemma running_max_app (E E' : list R) (t : nat) :
  (t < length E)%nat -> running_max (E ++ E') t = running_max E t.
Proof.
  intros Ht. unfold running_max. rewrite firstn_app.
  replace (S t - length E)%nat with 0%nat by lia.
  cbn [firstn]. now rewrite app_nil_r.
Qed.

Lemma drawdown_at_app (E E' : list R) (t : nat) :
  (t < length E)%nat -> drawdown_at (E ++ E') t = drawdown_at E t.
Proof.
  intros Ht. unfold drawdown_at.
  now rewrite running_max_app, app_nth1 by exact Ht.
Qed.

(** X7.  The drawdown of a bar depends on the curve up to that bar only, so
    extending a curve of positive values never lowers its maximum
    drawdown. *)
Theorem calculate_max_drawdown_extend (E E' : list R) :
  E <> [] -> (forall x, In x (E ++ E') -> 0 < x) ->
  exists d d',
    PerformanceMetrics.calculate_max_drawdown E = Fin d
    /\ PerformanceMetrics.calculate_max_drawdown (E ++ E') = Fin d'
    /\ d <= d'.
Proof.
  intros Hne Hpos.
  assert (forall x, In x E -> 0 < x) as HposE
    by (intros x Hx; apply Hpos, in_or_app; now left).
  assert (E ++ E' <> []) as Hne' by (destruct E; [congruence|discriminate]).
  exists (max_drawdown_formula E), (max_drawdown_formula (E ++ E')).
  split; [now apply calculate_max_drawdown_finite|].
  split; [now apply calculate_max_drawdown_finite|].
  unfold max_drawdown_formula.
  set (dd := map (drawdown_at E) (seq 0 (length E))).
  set (dd' := map (drawdown_at (E ++ E')) (seq 0 (length (E ++ E')))).
  assert (dd <> []) as Hdd
    by (unfold dd; destruct E; [congruence|discriminate]).
  destruct (proj1 (in_map_iff _ _ _) (list_min_In dd Hdd)) as (t & Ht & Hin).
  apply in_seq in Hin.
  assert (list_min dd' <= list_min dd) as Hle.
  { apply list_min_le. rewrite <- Ht, <- (drawdown_at_app E E' t) by lia.
    unfold dd'. apply in_map. apply in_seq. rewrite length_app. lia. }
  assert (list_min dd <= 0) as Hneg
    by (rewrite <- Ht; apply drawdown_at_nonpos; [exact HposE|lia]).
  rewrite !Rabs_left1 by lra. lra.
Qed.

Lemma calculate_max_drawdown_extend_witness :
  exists d d',
    PerformanceMetrics.calculate_max_drawdown [100; 90] = Fin d
    /\ PerformanceMetrics.calculate_max_drawdown ([100; 90] ++ [80; 120])
       = Fin d'
    /\ d <= d'.
Proof.
  apply (calculate_max_drawdown_extend [100; 90] [80; 120]).
  - discriminate.
  - simpl. intros x [<-|[<-|[<-|[<-|[]]]]]; lra.
Defined.

(** *** Trade statistics *)

Lemma Rsum_split_sign (l : list R) :
  Rsum l
  = Rsum (filter (fun x => Rltb 0 x) l) + Rsum (filter (fun x => Rltb x 0) l).
Proof.
  induction l as [|a l IH]; [simpl; lra|].
  change (Rsum (a :: l)) with (a + Rsum l). rewrite IH. cbn [filter].
  destruct (Rltb 0 a) eqn:E1, (Rltb a 0) eqn:E2;
    try apply Rltb_true_iff in E1; try apply Rltb_true_iff in E2;
    try apply Rltb_false_iff in E1; try apply Rltb_false_iff in E2;
    repeat match goal with
           | |- context [Rsum (?x :: ?m)] =>
               change (Rsum (x :: m)) with (x + Rsum m)
           end; lra.
Qed.

Lemma Rsum_filter_neg (l : list R) :
  Rsum (filter (fun x => Rltb x 0) l) <= 0.
Proof.
  apply Rsum_nonpos. intros x Hx. apply filter_In in Hx as [_ Hx].
  apply Rltb_true_iff in Hx. lra.
Qed.

(** The two sums the profit factor is made of. *)
Lemma profit_factor_parts (trades : list Trade) :
  trades <> [] ->
  exists gp gl,
    0 <= gp /\ 0 <= gl
    /\ Rsum (map pnl trades) = gp - gl
    /\ PerformanceMetrics.calculate_profit_factor trades
       = if Reqb gl 0 then (if Rltb 0 gp then PInf else Fin 0)
         else Fin (gp / gl).
Proof.
  intros Hne.
  exists (Rsum (filter (fun x => Rltb 0 x) (map pnl trades))),
         (Rabs (Rsum (filter (fun x => Rltb x 0) (map pnl trades)))).
  pose proof (Rsum_filter_pos (map pnl trades)) as Hp.
  pose proof (Rsum_filter_neg (map pnl trades)) as Hn.
  split; [exact Hp|]. split; [apply Rabs_pos|]. split.
  - rewrite Rabs_left1 by exact Hn.
    rewrite (Rsum_split_sign (map pnl trades)) at 1. lra.
  - unfold PerformanceMetrics.calculate_profit_factor, pd.sum.
    destruct trades as [|t trades]; [congruence|].
    cbn [length Nat.eqb].
    rewrite <- (map_pnl_filter (fun x => Rltb 0 x)).
    rewrite <- (map_pnl_filter (fun x => Rltb x 0)).
    set (gl := Rabs _). destruct (Reqb gl 0) eqn:E; [reflexivity|].
    unfold Float.div. now rewrite E.
Qed.

(** X8.  The profit factor is never negative, whatever the ledger: no path
    through the function returns a value below 0. *)
Theorem calculate_profit_factor_nonneg (trades : list Trade) :
  Float.ltb (PerformanceMetrics.calculate_profit_factor trades) (Fin 0)
  = false.
Proof.
  destruct trades as [|t rest] eqn:E.
  - cbn. apply Rltb_false_iff. lra.
  - rewrite <- E. assert (trades <> []) as Hne by (subst; discriminate).
    destruct (profit_factor_parts trades Hne)
      as (gp & gl & Hgp & Hgl & _ & ->).
    destruct (Reqb gl 0) eqn:Ez.
    + destruct (Rltb 0 gp); [reflexivity|].
      cbn. apply Rltb_false_iff. lra.
    + cbn. apply Rltb_false_iff.
      apply Reqb_false_iff in Ez. apply Rle_mult_inv_pos; lra.
Qed.

Lemma filter_length_le {A : Type} (f : A -> bool) (l : list A) :
  (length (filter f l) <= length l)%nat.
Proof.
  induction l as [|a l IH]; simpl; [lia|]. destruct (f a); simpl; lia.
Qed.

Lemma filter_length_all {A : Type} (f : A -> bool) (l : list A) :
  length (filter f l) = length l <-> (forall x, In x l -> f x = true).
Proof.
  induction l as [|a l IH]; simpl; [tauto|].
  pose proof (filter_length_le f l) as Hle.
  destruct (f a) eqn:E; simpl.
  - split.
    + intros H x [<-|Hx]; [exact E|]. apply IH; [lia|exact Hx].
    + intros H. f_equal. apply IH. intros x Hx. apply H. now right.
  - split; [lia|]. intros H. specialize (H a (or_introl eq_refl)). congruence.
Qed.

Lemma filter_length_none {A : Type} (f : A -> bool) (l : list A) :
  length (filter f l) = 0%nat <-> (forall x, In x l -> f x = false).
Proof.
  induction l as [|a l IH]; simpl; [tauto|].
  destruct (f a) eqn:E; simpl.
  - split; [lia|]. intros H. specialize (H a (or_introl eq_refl)). congruence.
  - rewrite IH. split.
    + intros H x [<-|Hx]; [exact E|now apply H].
    + intros H x Hx. apply H. now right.
Qed.

(** X10.  The win rate is a percentage between 0 and 100.  It is 0 exactly
    when no trade has a positive pnl (an empty ledger included) and 100
    exactly when the ledger is not empty and every trade has a positive
    pnl; a break-even trade counts as not won. *)
Theorem calculate_win_rate_range (trades : list Trade) :
  exists w,
    PerformanceMetrics.calculate_win_rate trades = Fin w
    /\ 0 <= w <= 100
    /\ (w = 0 <-> forall t, In t trades -> pnl t <= 0)
    /\ (w = 100 <-> trades <> [] /\ forall t, In t trades -> 0 < pnl t).
Proof.
  unfold PerformanceMetrics.calculate_win_rate.
  destruct trades as [|t0 trades'] eqn:E.
  - exists 0. cbn. repeat split; try lra; try tauto.
  - rewrite <- E. assert (trades <> []) as Hne by (subst; discriminate).
    clear E t0 trades'.
    assert ((length trades =? 0)%nat = false) as ->
      by (apply Nat.eqb_neq; destruct trades; [congruence|discriminate]).
    set (won := filter (fun t => Rltb 0 (pnl t)) trades).
    pose proof (filter_length_le (fun t => Rltb 0 (pnl t)) trades) as Hle.
    fold won in Hle.
    pose proof (INR_length_pos trades Hne) as Hn.
    assert (0 <= INR (length won)) as Hw0 by apply pos_INR.
    assert (INR (length won) <= INR (length trades)) as Hw1 by now apply le_INR.
    assert (0 < / INR (length trades)) as Hi by now apply Rinv_0_lt_compat.
    assert (INR (length trades) * / INR (length trades) = 1) as Hnn
      by (apply Rinv_r; lra).
    eexists. split; [reflexivity|].
    set (w := INR (length won)) in *. set (n := INR (length trades)) in *.
    split; [unfold Rdiv; split; nra|]. split.
    + split.
      * intros H. assert (w = 0) as Hz by (unfold Rdiv in H; nra).
        unfold w in Hz. apply (INR_eq _ 0) in Hz.
        intros t Ht. apply Rltb_false_iff.
        apply (proj1 (filter_length_none _ _) Hz t Ht).
      * intros H.
        assert (length won = 0%nat) as Hz.
        { apply filter_length_none. intros t Ht. apply Rltb_false_iff.
          now apply H. }
        unfold w. rewrite Hz. cbn. unfold Rdiv. ring.
    + split.
      * intros H. split; [exact Hne|].
        assert (w = n) as Hz by (unfold Rdiv in H; nra).
        apply INR_eq in Hz. intros t Ht. apply Rltb_true_iff.
        apply (proj1 (filter_length_all _ _) Hz t Ht).
      * intros [_ H].
        assert (length won = length trades) as Hz.
        { apply filter_length_all. intros t Ht. apply Rltb_true_iff.
          now apply H. }
        unfold w, n. rewrite Hz. fold n. unfold Rdiv. rewrite Hnn. ring.
Qed.

(** *** Calmar ratio and the full report *)

(** X11.  The Calmar ratio is 0 when the maximum drawdown is 0, whatever the
    returns; and with a positive drawdown it is never negative when there
    are returns and none of them is negative. *)
Theorem calculate_calmar_ratio_sign (returns : list R) (d : R) :
  PerformanceMetrics.calculate_calmar_ratio returns (Fin 0) = Fin 0
  /\ (returns <> [] -> (forall x, In x returns -> 0 <= x) -> 0 < d ->
      Float.ltb (PerformanceMetrics.calculate_calmar_ratio returns (Fin d))
                (Fin 0) = false).
Proof.
  split.
  - unfold PerformanceMetrics.calculate_calmar_ratio. cbn [Float.eqb].
    now rewrite (proj2 (Reqb_true_iff 0 0) eq_refl).
  - intros Hne Hpos Hd.
    unfold PerformanceMetrics.calculate_calmar_ratio. cbn [Float.eqb].
    assert (Reqb d 0 = false) as -> by (apply Reqb_false_iff; lra).
    rewrite (pd_mean_finite returns Hne). cbn [annualize].
    rewrite (Float_div_finite d 100) by lra.
    rewrite Float_div_finite
      by (apply Rgt_not_eq; apply Rdiv_lt_0_compat; lra).
    cbn [Float.ltb]. apply Rltb_false_iff.
    assert (0 <= Rmean returns) as Hm.
    { unfold Rmean. apply Rle_mult_inv_pos.
      - now apply Rsum_nonneg.
      - now apply INR_length_pos. }
    assert (1 <= (1 + Rmean returns) ^ 252) as Hp by (apply pow_R1_Rle; lra).
    apply Rle_mult_inv_pos; [lra|]. apply Rdiv_lt_0_compat; lra.
Qed.

(** Two daily returns of 1% over a drawdown of 20%. *)
Lemma calculate_calmar_ratio_sign_witness :
  Float.ltb
    (PerformanceMetrics.calculate_calmar_ratio [1 / 100; 1 / 100] (Fin 20))
    (Fin 0) = false.
Proof.
  apply (calculate_calmar_ratio_sign [1 / 100; 1 / 100] 20).
  - discriminate.
  - intros x [<-|[<-|[]]]; lra.
  - lra.
Defined.

(** X12.  The full report fails with an [IndexError] exactly when the equity
    curve is empty, whatever the returns and the trades; otherwise it is a
    dictionary with the nine metrics, and its total return is never below
    -100% when the equity values are positive. *)
Theorem calculate_all_metrics_outcome (returns equity_curve : list R)
    (trades : list Trade) :
  (equity_curve = [] ->
   MetricsReport.calculate_all_metrics returns equity_curve trades
   = Raise index_error)
  /\ (equity_curve <> [] ->
      exists d,
        MetricsReport.calculate_all_metrics returns equity_curve trades = Ok d
        /\ Dict.keys d = all_metrics_keys
        /\ ((forall x, In x equity_curve -> 0 < x) ->
            exists r, Dict.get d "total_return" = Some (VFloat r)
                      /\ Float.ltb r (Fin (-100)) = false)).
Proof.
  split.
  - intros ->. reflexivity.
  - intros Hne. destruct equity_curve as [|e0 rest] eqn:E; [congruence|].
    eexists. split; [reflexivity|]. split; [reflexivity|].
    intros Hpos. cbn [Dict.get String.eqb Ascii.eqb Bool.eqb].
    unfold total_return_pct.
    assert (0 < e0) as H0 by (apply Hpos; now left).
    assert (0 < last (e0 :: rest) 0) as Hl.
    { destruct (exists_last Hne) as (l' & x & Hx).
      rewrite Hx, last_last. apply Hpos. rewrite Hx. apply in_or_app.
      right. now left. }
    rewrite Float_div_finite by lra.
    cbn [Float.sub Float.neg Float.add Float.mul].
    eexists. split; [reflexivity|].
    assert (0 < last (e0 :: rest) 0 / e0) by (apply Rdiv_lt_0_compat; lra).
    cbn [Float.ltb]. apply Rltb_false_iff. lra.
Qed.

Lemma calculate_all_metrics_outcome_witness :
  exists d,
    MetricsReport.calculate_all_metrics [1 / 10] [100; 110] [mkTrade 10] = Ok d
    /\ Dict.keys d = all_metrics_keys.
Proof.
  destruct (proj2 (calculate_all_metrics_outcome [1 / 10] [100; 110]
                     [mkTrade 10])) as (d & Hd & Hk & _).
  - discriminate.
  - exists d. split; assumption.
Defined.

(** X13.  On an equity curve of positive values that never falls, the full
    report has a maximum drawdown of 0 and therefore a Calmar ratio of 0,
    however large the returns are. *)
Theorem calculate_all_metrics_no_drawdown (returns equity_curve : list R)
    (trades : list Trade) :
  equity_curve <> [] -> (forall x, In x equity_curve -> 0 < x) ->
  non_decreasing equity_curve ->
  exists d,
    MetricsReport.calculate_all_metrics returns equity_curve trades = Ok d
    /\ Dict.get d "max_drawdown" = Some (VFloat (Fin 0))
    /\ Dict.get d "calmar_ratio" = Some (VFloat (Fin 0)).
Proof.
  intros Hne Hpos Hmono.
  assert (PerformanceMetrics.calculate_max_drawdown equity_curve = Fin 0)
    as Hdd.
  { rewrite (calculate_max_drawdown_finite _ Hne Hpos). f_equal.
    now apply (max_drawdown_formula_cases equity_curve Hne Hpos). }
  unfold MetricsReport.calculate_all_metrics. rewrite Hdd.
  destruct equity_curve as [|e0 rest]; [congruence|].
  eexists. split; [reflexivity|]. split; [reflexivity|].
  cbn [Dict.get String.eqb Ascii.eqb Bool.eqb].
  unfold PerformanceMetrics.calculate_calmar_ratio. cbn [Float.eqb].
  now rewrite (proj2 (Reqb_true_iff 0 0) eq_refl).
Qed.

Lemma calculate_all_metrics_no_drawdown_witness :
  exists d,
    MetricsReport.calculate_all_metrics [1 / 10] [100; 110] [] = Ok d
    /\ Dict.get d "max_drawdown" = Some (VFloat (Fin 0))
    /\ Dict.get d "calmar_ratio" = Some (VFloat (Fin 0)).
Proof.
  apply (calculate_all_metrics_no_drawdown [1 / 10] [100; 110] []).
  - discriminate.
  - simpl. intros x [<-|[<-|[]]]; lra.
  - intros i j Hij. simpl in Hij.
    assert ((i = 0 /\ j = 0) \/ (i = 0 /\ j = 1) \/ (i = 1 /\ j = 1))%nat
      as [[-> ->]|[[-> ->]|[-> ->]]] by lia; simpl; lra.
Defined.

(* ================================================================== *)
(** ** Further properties of the benchmark comparison *)
(* ================================================================== *)

(** *** Alignment on duplicate-free indices *)

Lemma mem_true_In (t : Z) (idx : list Z) :
  Series.mem t idx = true -> In t idx.
Proof.
  unfold Series.mem. intros H. apply existsb_exists in H as (u & Hu & E).
  apply Z.eqb_eq in E. now subst.
Qed.

Lemma unique_In (t : Z) (idx : list Z) :
  In t (Series.unique idx) <-> In t idx.
Proof.
  induction idx as [|u idx IH]; [tauto|]. cbn [Series.unique]. split.
  - intros [->|H]; [now left|]. apply filter_In in H as [H _].
    right. now apply IH.
  - intros [->|H]; [now left|].
    destruct (Z.eq_dec t u) as [->|Hne]; [now left|right].
    apply filter_In. split; [now apply IH|].
    apply negb_true_iff, Z.eqb_neq. exact Hne.
Qed.

Lemma unique_is_NoDup (idx : list Z) : NoDup (Series.unique idx).
Proof.
  induction idx as [|u idx IH]; [constructor|]. cbn [Series.unique].
  constructor.
  - intros H. apply filter_In in H as [_ H].
    apply negb_true_iff, Z.eqb_neq in H. congruence.
  - now apply NoDup_filter.
Qed.

Lemma intersection_In (t : Z) (a b : list Z) :
  In t (Series.intersection a b) <-> In t a /\ In t b.
Proof.
  unfold Series.intersection. rewrite filter_In, unique_In. split.
  - intros [Ha Hb]. split; [exact Ha|now apply mem_true_In].
  - intros [Ha Hb]. split; [exact Ha|now apply mem_In].
Qed.

Lemma intersection_NoDup (a b : list Z) : NoDup (Series.intersection a b).
Proof. apply NoDup_filter, unique_is_NoDup. Qed.

(** The common index is no longer than either index. *)
Lemma intersection_length (a b : list Z) :
  (length (Series.intersection a b) <= length a)%nat
  /\ (length (Series.intersection a b) <= length b)%nat.
Proof.
  split; apply NoDup_incl_length; try apply intersection_NoDup;
    intros t Ht; now apply intersection_In in Ht.
Qed.

Lemma filter_label_length {A : Type} (s : list (Z * A)) (t : Z) :
  NoDup (map fst s) -> In t (map fst s) ->
  length (filter (fun row => Z.eqb (fst row) t) s) = 1%nat.
Proof.
  induction s as [|row s IH]; [contradiction|]. intros Hnd Hin.
  inversion Hnd as [|u idx Hnotin Hnd']; subst. cbn [filter].
  destruct (Z.eqb_spec (fst row) t) as [E|E].
  - rewrite filter_none; [reflexivity|].
    intros r Hr. apply Z.eqb_neq. intros E'. apply Hnotin.
    rewrite E, <- E'. now apply in_map.
  - apply IH; [exact Hnd'|]. destruct Hin as [Hin|Hin]; [contradiction|exact Hin].
Qed.

(** On a duplicate-free index, [loc] picks one row per label. *)
Lemma loc_length {A : Type} (s : list (Z * A)) (idx : list Z) :
  NoDup (map fst s) -> (forall t, In t idx -> In t (map fst s)) ->
  length (Series.loc s idx) = length idx.
Proof.
  intros Hnd. unfold Series.loc.
  induction idx as [|t idx IH]; intros Hin; [reflexivity|].
  cbn [flat_map]. rewrite length_app, filter_label_length; auto.
  - cbn [length Nat.add]. f_equal. apply IH. intros u Hu. apply Hin.
    now right.
  - apply Hin. now left.
Qed.

Lemma loc_In {A : Type} (s : list (Z * A)) (idx : list Z) (row : Z * A) :
  In row (Series.loc s idx) -> In row s.
Proof.
  unfold Series.loc. intros H. apply in_flat_map in H as (t & _ & H).
  now apply filter_In in H.
Qed.

(** X14.  On two series without repeated timestamps the alpha/beta
    computation never raises, whatever their lengths and overlap, and its
    result has exactly the entries alpha, beta and correlation. *)
Theorem calculate_alpha_beta_total (s b : Series) :
  NoDup (Series.index s) -> NoDup (Series.index b) ->
  exists d,
    snd (BenchmarkComparison.calculate_alpha_beta s b) = Ok d
    /\ Dict.keys d = alpha_beta_keys.
Proof.
  intros Hs Hb. unfold BenchmarkComparison.calculate_alpha_beta.
  set (common := Series.intersection (Series.index s) (Series.index b)).
  destruct (length common <? 30)%nat; [eexists; split; reflexivity|].
  unfold Series.values. rewrite !length_map.
  rewrite !loc_length;
    try assumption;
    try (intros t Ht; apply intersection_In in Ht; tauto).
  rewrite Nat.eqb_refl. cbn [negb snd]. eexists. split; reflexivity.
Qed.

Lemma calculate_alpha_beta_total_witness :
  exists d,
    snd (BenchmarkComparison.calculate_alpha_beta [(1%Z, 1); (2%Z, 2)]
                                                  [(2%Z, 5)]) = Ok d
    /\ Dict.keys d = alpha_beta_keys.
Proof.
  apply (calculate_alpha_beta_total [(1%Z, 1); (2%Z, 2)] [(2%Z, 5)]).
  - repeat constructor; simpl; intuition discriminate.
  - repeat constructor; simpl; intuition.
Defined.

Lemma co_dev_const_r (a b : list R) (c : R) :
  b <> [] -> (forall x, In x b -> x = c) -> co_dev a b = 0.
Proof.
  intros Hne Hc. unfold co_dev. rewrite (Rmean_const b c Hne Hc).
  apply Rsum_all_zero. intros x Hx.
  apply in_map_iff in Hx as ([u v] & <- & Hin).
  apply in_combine_r in Hin. cbn [fst snd]. rewrite (Hc v Hin). ring.
Qed.

(** X15.  Against a benchmark that did not move, all of its returns being 0
    (on duplicate-free timestamps, with at least 30 common points), the
    variance is 0: beta falls back to 1.0 and the correlation is NaN. *)
Theorem calculate_alpha_beta_flat_benchmark (s b : Series) :
  NoDup (Series.index s) -> NoDup (Series.index b) ->
  (30 <= overlap s b)%nat ->
  (forall row, In row b -> snd row = 0) ->
  exists d,
    snd (BenchmarkComparison.calculate_alpha_beta s b) = Ok d
    /\ Dict.get d "beta" = Some (VFloat (Fin 1))
    /\ Dict.get d "correlation" = Some (VFloat NaN).
Proof.
  intros Hs Hb Hov Hconst. unfold overlap in Hov.
  unfold BenchmarkComparison.calculate_alpha_beta.
  set (common := Series.intersection (Series.index s) (Series.index b)) in *.
  assert ((length common <? 30)%nat = false) as -> by (apply Nat.ltb_ge; lia).
  set (sa := Series.values (Series.loc s common)).
  set (ba := Series.values (Series.loc b common)).
  assert (length sa = length common) as Hsa.
  { unfold sa, Series.values. rewrite length_map. apply loc_length; auto.
    intros t Ht. apply intersection_In in Ht. tauto. }
  assert (length ba = length common) as Hba.
  { unfold ba, Series.values. rewrite length_map. apply loc_length; auto.
    intros t Ht. apply intersection_In in Ht. tauto. }
  rewrite Hsa, Hba, Nat.eqb_refl. cbn [negb snd].
  assert (ba <> []) as Hne by (destruct ba; [simpl in Hba; lia|discriminate]).
  set (c := 0) in Hconst.
  assert (forall x, In x ba -> x = c) as Hc.
  { intros x Hx. unfold ba, Series.values in Hx.
    apply in_map_iff in Hx as (row & <- & Hrow).
    apply Hconst. now apply loc_In in Hrow. }
  assert (np.var ba = Fin 0) as Hvar.
  { rewrite (np_var_finite ba Hne), (sq_dev_const ba c Hne Hc).
    f_equal. unfold Rdiv. ring. }
  eexists. split; [reflexivity|].
  cbn [Dict.get String.eqb Ascii.eqb Bool.eqb]. rewrite Hvar.
  unfold Float.neqb, Float.eqb.
  rewrite (proj2 (Reqb_true_iff 0 0) eq_refl). cbn [negb].
  split; [reflexivity|]. do 2 f_equal.
  unfold np.corrcoef01. rewrite leb_length_false by lia. cbv zeta.
  rewrite (co_dev_const_r sa ba c Hne Hc), (sq_dev_const ba c Hne Hc).
  replace (0 / (INR (length sa) - 1)) with 0 by (unfold Rdiv; ring).
  rewrite sqrt_0. set (sd := sqrt _).
  assert (Float.signed_inf 0 = NaN) as Hinf.
  { unfold Float.signed_inf.
    now rewrite (proj2 (Rltb_false_iff 0 0) (Rle_refl 0)). }
  unfold Float.div at 2. destruct (Reqb sd 0).
  - rewrite Hinf. reflexivity.
  - unfold Float.div. rewrite (proj2 (Reqb_true_iff 0 0) eq_refl).
    replace (0 / sd) with 0 by (unfold Rdiv; ring). now rewrite Hinf.
Qed.

Lemma flat_returns_index :
  Series.index flat_returns = Series.index zigzag_returns.
Proof.
  unfold Series.index, flat_returns, zigzag_returns. now rewrite !map_map.
Qed.

(** The zigzag series against a benchmark that returns 0 every day. *)
Lemma calculate_alpha_beta_flat_benchmark_witness :
  exists d,
    snd (BenchmarkComparison.calculate_alpha_beta zigzag_returns flat_returns)
    = Ok d
    /\ Dict.get d "beta" = Some (VFloat (Fin 1))
    /\ Dict.get d "correlation" = Some (VFloat NaN).
Proof.
  apply (calculate_alpha_beta_flat_benchmark zigzag_returns flat_returns).
  - exact zigzag_index_NoDup.
  - rewrite flat_returns_index. exact zigzag_index_NoDup.
  - unfold overlap. rewrite flat_returns_index.
    rewrite (intersection_self _ zigzag_index_NoDup).
    unfold Series.index, zigzag_returns. rewrite !length_map, length_seq.
    apply Nat.le_refl.
  - intros row Hrow. unfold flat_returns in Hrow.
    apply in_map_iff in Hrow as (i & <- & _). reflexivity.
Defined.

(** *** The complete comparison *)

(** Comparing two floats and testing the sign of their difference agree. *)
Lemma Float_gtb_sub (a b : float) :
  Float.gtb a b = Float.gtb (Float.sub a b) (Fin 0).
Proof.
  destruct a as [x| | |], b as [y| | |]; try reflexivity.
  unfold Float.gtb, Float.sub. cbn [Float.neg Float.add Float.ltb].
  unfold Rltb. destruct (Rlt_dec y x), (Rlt_dec 0 (x + - y));
    try reflexivity; exfalso; lra.
Qed.

Lemma dropna_pct_change_length (s : Series) :
  (length (pdf.dropna (BenchmarkReport.pct_change s)) <= length s - 1)%nat.
Proof.
  unfold BenchmarkReport.pct_change, Series.index, Series.values, pdf.dropna.
  destruct s as [|[t x] s]; [simpl; lia|].
  cbn [map pdf.pct_change combine filter snd fst Float.is_nan negb].
  match goal with
  | |- (length (filter ?f ?l) <= _)%nat =>
      pose proof (filter_length_le f l) as H
  end.
  rewrite length_combine, length_map in H. cbn [length]. lia.
Qed.

Lemma compare_short_alpha_beta (s b : Series) :
  (length s <= 30)%nat \/ (length b <= 30)%nat ->
  BenchmarkReport.calculate_alpha_beta
    (pdf.dropna (BenchmarkReport.pct_change s))
    (pdf.dropna (BenchmarkReport.pct_change b))
  = ([(WARNING, BenchmarkComparison.insufficient_msg)], Ok degenerate_result).
Proof.
  intros H. unfold BenchmarkReport.calculate_alpha_beta.
  set (sr := pdf.dropna (BenchmarkReport.pct_change s)).
  set (br := pdf.dropna (BenchmarkReport.pct_change b)).
  pose proof (dropna_pct_change_length s) as Hs. fold sr in Hs.
  pose proof (dropna_pct_change_length b) as Hb. fold br in Hb.
  destruct (intersection_length (map fst sr) (map fst br)) as [Hl Hr].
  rewrite length_map in Hl, Hr.
  assert ((length (Series.intersection (map fst sr) (map fst br)) <? 30)%nat
          = true) as ->; [|reflexivity].
  apply Nat.ltb_lt.
  destruct H; [destruct s|destruct b]; simpl in *; lia.
Qed.

Lemma compare_empty (s b : Series) :
  s = [] \/ b = [] ->
  BenchmarkReport.compare s b
  = ([(WARNING, BenchmarkComparison.insufficient_msg)], Raise index_error).
Proof.
  intros H. unfold BenchmarkReport.compare.
  rewrite compare_short_alpha_beta
    by (destruct H as [->| ->]; simpl; lia).
  f_equal. cbn [bind].
  destruct H as [->| ->]; [reflexivity|].
  destruct (Series.values s); reflexivity.
Qed.

(** X16.  [compare] fails with an [IndexError] as soon as one of the two
    equity series is empty, after logging the insufficient-data warning.
    This is what happens downstream of a failed benchmark download, which
    [fetch_benchmark_data] turns into an empty series. *)
Theorem compare_empty_series (s b : Series) :
  (s = [] \/ b = [] ->
   BenchmarkReport.compare s b
   = ([(WARNING, BenchmarkComparison.insufficient_msg)], Raise index_error))
  /\ (forall yf_download ticker start_date end_date e,
        yf_download ticker start_date end_date = Raise e ->
        snd (BenchmarkReport.compare s
               (snd (BenchmarkReport.fetch_benchmark_data
                       yf_download ticker start_date end_date)))
        = Raise index_error).
Proof.
  split; [apply compare_empty|].
  intros yf_download ticker start_date end_date e He.
  unfold BenchmarkReport.fetch_benchmark_data. rewrite He. cbn [snd].
  now rewrite compare_empty by now right.
Qed.

Lemma compare_empty_series_witness :
  BenchmarkReport.compare [(0%Z, 100); (1%Z, 110)] []
  = ([(WARNING, BenchmarkComparison.insufficient_msg)], Raise index_error).
Proof.
  apply (compare_empty_series [(0%Z, 100); (1%Z, 110)] []). now right.
Defined.

(** X17.  Whenever [compare] returns a record, its [beats_benchmark] flag is
    the comparison of the two total returns and agrees with the sign of
    [outperformance]: the flag is set exactly when the outperformance is
    positive, and never when it is NaN. *)
Theorem compare_beats_benchmark (s b : Series) (d : dict) :
  snd (BenchmarkReport.compare s b) = Ok d ->
  exists sr br,
    Dict.get d "strategy_return" = Some (VFloat sr)
    /\ Dict.get d "benchmark_return" = Some (VFloat br)
    /\ Dict.get d "outperformance" = Some (VFloat (Float.sub sr br))
    /\ Dict.get d "beats_benchmark" = Some (VBool (Float.gtb sr br))
    /\ Float.gtb sr br = Float.gtb (Float.sub sr br) (Fin 0).
Proof.
  unfold BenchmarkReport.compare.
  destruct (BenchmarkReport.calculate_alpha_beta _ _) as [log [ab|e]];
    cbn [snd bind]; [|discriminate].
  destruct (Series.values s) as [|s0 ss]; [discriminate|].
  destruct (Series.values b) as [|b0 bs]; [discriminate|].
  destruct (getitem ab "alpha") as [alpha|]; cbn [bind]; [|discriminate].
  destruct (getitem ab "beta") as [beta|]; cbn [bind]; [|discriminate].
  destruct (getitem ab "correlation") as [corr|]; cbn [bind]; [|discriminate].
  intros [= <-]. do 2 eexists.
  repeat (split; [reflexivity|]). apply Float_gtb_sub.
Qed.

(** X18.  The statistics need 30 common returns, hence 31 equity points on
    each side: when either equity series has 30 points or fewer (and none is
    empty), [compare] reports alpha 0, beta 1 and correlation 0 next to the
    actual total returns. *)
Theorem compare_short_series (s b : Series) :
  s <> [] -> b <> [] -> (length s <= 30)%nat \/ (length b <= 30)%nat ->
  exists d,
    BenchmarkReport.compare s b
    = ([(WARNING, BenchmarkComparison.insufficient_msg)], Ok d)
    /\ Dict.get d "alpha" = Some (VInt 0)
    /\ Dict.get d "beta" = Some (VInt 1)
    /\ Dict.get d "correlation" = Some (VInt 0)
    /\ Dict.get d "strategy_return"
       = Some (VFloat (total_return_pct (hd 0 (Series.values s))
                                        (Series.values s))).
Proof.
  intros Hs Hb Hshort. unfold BenchmarkReport.compare.
  rewrite (compare_short_alpha_beta s b Hshort). cbn [bind].
  assert (Series.values s <> []) as Hs'
    by (destruct s; [congruence|discriminate]).
  assert (Series.values b <> []) as Hb'
    by (destruct b; [congruence|discriminate]).
  destruct (Series.values s) as [|s0 ss]; [congruence|].
  destruct (Series.values b) as [|b0 bs]; [congruence|].
  eexists. split; [reflexivity|]. repeat split; reflexivity.
Qed.

(** A strategy that went from 100 to 110 against a benchmark that went from
    50 to 52. *)
Lemma compare_short_series_witness :
  exists d,
    BenchmarkReport.compare [(0%Z, 100); (1%Z, 110)] [(0%Z, 50); (1%Z, 52)]
    = ([(WARNING, BenchmarkComparison.insufficient_msg)], Ok d)
    /\ Dict.get d "beta" = Some (VInt 1).
Proof.
  destruct (compare_short_series [(0%Z, 100); (1%Z, 110)]
              [(0%Z, 50); (1%Z, 52)])
    as (d & Hd & _ & Hbeta & _).
  - discriminate.
  - discriminate.
  - left. simpl. lia.
  - exists d. split; assumption.
Defined.

Lemma compare_beats_benchmark_witness :
  exists d sr br,
    snd (BenchmarkReport.compare [(0%Z, 100); (1%Z, 110)]
                                 [(0%Z, 50); (1%Z, 52)]) = Ok d
    /\ Dict.get d "beats_benchmark" = Some (VBool (Float.gtb sr br))
    /\ Dict.get d "outperformance" = Some (VFloat (Float.sub sr br)).
Proof.
  assert (exists d,
            snd (BenchmarkReport.compare [(0%Z, 100); (1%Z, 110)]
                                         [(0%Z, 50); (1%Z, 52)]) = Ok d)
    as (d & Hok).
  { unfold BenchmarkReport.compare.
    rewrite compare_short_alpha_beta by (left; simpl; lia).
    eexists. reflexivity. }
  destruct (compare_beats_benchmark _ _ d Hok)
    as (sr & br & _ & _ & Hout & Hbeats & _).
  exists d, sr, br. repeat split; assumption.
Defined.

(* ================================================================== *)
(** ** Further properties of the engine *)
(* ================================================================== *)

(** *** The synthetic social data *)

Lemma map_combine_ext {A B C : Type} (f : A * B -> C) (g : A -> C)
    (a : list A) (b : list B) :
  length a = length b -> (forall x y, f (x, y) = g x) ->
  map f (combine a b) = map g a.
Proof.
  intros Hlen Hf. revert b Hlen.
  induction a as [|x a IH]; intros [|y b] Hlen; try discriminate;
    [reflexivity|].
  cbn [combine map]. rewrite Hf. f_equal. apply IH. now injection Hlen.
Qed.

Lemma pct_change_length (l : list R) :
  length (pdf.pct_change l) = length l.
Proof.
  destruct l as [|x l]; [reflexivity|]. cbn [pdf.pct_change length]. f_equal.
  revert x. induction l as [|y l IH]; intros x; [reflexivity|].
  cbn [pdf.pct_change_from length]. now rewrite IH.
Qed.

Lemma rolling_mean_length (k : nat) (l : list float) :
  length (pdf.rolling_mean k l) = length l.
Proof. unfold pdf.rolling_mean. now rewrite length_map, length_seq. Qed.

Lemma normal_length (loc scale : R) (size : nat) (g : rng) :
  length (fst (random.normal loc scale size g)) = size.
Proof. unfold random.normal. cbn [fst]. now rewrite length_map, length_seq. Qed.

Lemma firstn_seq (k start len : nat) :
  firstn k (seq start len) = seq start (Nat.min k len).
Proof.
  revert start len. induction k as [|k IH]; intros start [|len];
    try reflexivity.
  cbn [seq firstn Nat.min]. now rewrite IH.
Qed.

(** The first five values of [rolling(5).mean()] over a percentage change
    are missing: the first change is, and four more rows are needed to fill
    a window. *)
Lemma rolling_mean_pct_change_warmup (l : list R) (x : float) :
  In x (firstn 5 (pdf.rolling_mean 5 (pdf.pct_change l))) -> x = NaN.
Proof.
  unfold pdf.rolling_mean. rewrite firstn_map, firstn_seq.
  intros H. apply in_map_iff in H as (i & <- & Hi). apply in_seq in Hi.
  destruct (S i <? 5)%nat eqn:E; [reflexivity|].
  apply Nat.ltb_ge in E. assert (i = 4%nat) as -> by lia.
  rewrite pct_change_length in Hi.
  destruct l as [|a l]; [simpl in Hi; lia|]. reflexivity.
Qed.

Section SocialData.

Variable yf_download : string -> Z -> outcome PriceData.

#[local] Abbreviation fetch_historical_data :=
  (BacktestEngine.fetch_historical_data yf_download).
#[local] Abbreviation fetch_social_historical_data :=
  (BacktestEngine.fetch_social_historical_data yf_download).

(** X19.  When price data is available, the synthetic social frame has one
    row per price bar, with the same timestamps in the same order; its
    mention counts are never negative and its first five sentiment values
    are NaN.  When price data is unavailable there is no social frame. *)
Theorem fetch_social_historical_data_shape (ticker : string) (years : Z)
    (g : rng) :
  match fetch_historical_data ticker years with
  | None => fst (fetch_social_historical_data ticker years g) = None
  | Some price_data =>
      exists social,
        fst (fetch_social_historical_data ticker years g) = Some social
        /\ map social_timestamp social = map timestamp price_data
        /\ (forall row, In row social -> 0 <= mentions row)
        /\ (forall row, In row (firstn 5 social) -> sentiment row = NaN)
  end.
Proof.
  unfold BacktestEngine.fetch_social_historical_data.
  destruct (fetch_historical_data ticker years) as [price_data|];
    [|reflexivity].
  set (n := length price_data).
  set (trend := pdf.rolling_mean 5 (pdf.pct_change (map close price_data))).
  destruct (random.normal 0 (1 / 10) n g) as [noise g1] eqn:E1.
  destruct (random.normal 100 50 n g1) as [raw g2] eqn:E2.
  assert (length noise = n) as Hnoise
    by (rewrite <- (normal_length 0 (1 / 10) n g); now rewrite E1).
  assert (length raw = n) as Hraw
    by (rewrite <- (normal_length 100 50 n g1); now rewrite E2).
  assert (length trend = n) as Htrend
    by (unfold trend; now rewrite rolling_mean_length, pct_change_length,
                                  length_map).
  set (sentiments :=
         map (fun p => Float.add (fst p) (Fin (snd p))) (combine trend noise)).
  assert (length sentiments = n) as Hsent
    by (unfold sentiments; rewrite length_map, length_combine; lia).
  eexists. split; [reflexivity|]. split; [|split].
  - rewrite map_map. apply map_combine_ext; [|reflexivity].
    rewrite length_combine, length_map. fold n. lia.
  - intros row Hrow. apply in_map_iff in Hrow as ([b [s m]] & <- & Hin).
    cbn [mentions fst snd]. apply in_combine_r, in_combine_r in Hin.
    apply in_map_iff in Hin as (r & <- & _). apply Rabs_pos.
  - intros row Hrow. rewrite firstn_map in Hrow.
    apply in_map_iff in Hrow as ([b [s m]] & <- & Hin).
    cbn [sentiment fst snd]. rewrite !combine_firstn in Hin.
    apply in_combine_r, in_combine_l in Hin.
    unfold sentiments in Hin. rewrite firstn_map, combine_firstn in Hin.
    apply in_map_iff in Hin as ([t z] & <- & Hin).
    apply in_combine_l in Hin. cbn [fst snd].
    now rewrite (rolling_mean_pct_change_warmup _ t Hin).
Qed.

End SocialData.

Lemma fetch_social_historical_data_shape_witness :
  exists social,
    fst (BacktestEngine.fetch_social_historical_data one_bar "AAPL" 1 loud)
    = Some social
    /\ map social_timestamp social = [0%Z].
Proof.
  pose proof (fetch_social_historical_data_shape one_bar "AAPL" 1 loud) as H.
  cbn [BacktestEngine.fetch_historical_data one_bar] in H.
  destruct H as (social & Hs & Ht & _). exists social. split; assumption.
Defined.

(** *** The random generator *)

Section Generator.

Context {V : vbt.API}.
Variable yf_download : string -> Z -> outcome PriceData.
Variable exec_code : string -> rand (option StrategyClass).
Variable month_of : Z -> Z.



End Generator.


(** *** The result of a run *)

Section RunResult.

Context {V : vbt.API}.
Variable yf_download : string -> Z -> outcome PriceData.
Variable exec_code : string -> rand (option StrategyClass).
Variable month_of : Z -> Z.

#[local] Abbreviation run_backtest :=
  (BacktestEngine.run_backtest yf_download exec_code month_of).
#[local] Abbreviation report_of :=
  (BacktestEngine.report_of yf_download month_of).
#[local] Abbreviation _compare_with_benchmark :=
  (BacktestEngine._compare_with_benchmark yf_download).


(** X22.  A run returns either a record whose only entry is ['error'], or a
    report with the seventeen entries of a backtest, none of them
    ['error'], which echoes the ticker and the period it was asked for. *)
Theorem run_backtest_shape (code ticker : string) (years : Z)
    (initial_capital : R) (g : rng) :
  let d := fst (run_backtest code ticker years initial_capital g) in
  (exists msg, d = error_dict msg)
  \/ (Dict.keys d = report_keys
      /\ Dict.contains d "error" = false
      /\ Dict.get d "ticker" = Some (VStr ticker)
      /\ Dict.get d "backtest_period"
         = Some (VStr (string_of_Z years ++ " years"))).
Proof.
  destruct (run_backtest_cases yf_download exec_code month_of code ticker
              years initial_capital g)
    as [H|(p & c & s & sg & pf & _ & _ & _ & _ & _ & H)];
    [left; exact H|right].
  cbv zeta. rewrite H. repeat split; reflexivity.
Qed.

(** X23.  A failed benchmark comparison does not fail the run: when the
    simulation yields a portfolio but the benchmark data is unavailable, the
    run still returns a report, with the error nested under
    ['benchmark_comparison'], and the window counts as successful in the
    consistency analysis. *)
Theorem run_backtest_benchmark_unavailable (code ticker : string) (years : Z)
    (initial_capital : R) (g g1 g2 g3 : rng) price_data strategy_class
    strategy signals portfolio :
  BacktestEngine.fetch_historical_data yf_download ticker years
  = Some price_data ->
  exec_code code
    (snd (BacktestEngine.fetch_social_historical_data yf_download ticker
            years g))
  = (Ok (Some strategy_class), g1) ->
  strategy_class g1 = (Ok strategy, g2) ->
  generate_signals strategy price_data
    (fst (BacktestEngine.fetch_social_historical_data yf_download ticker
            years g)) g2 = (Ok signals, g3) ->
  vbt.from_signals (BacktestEngine.close_series price_data)
    (fst signals) (snd signals) initial_capital (1 / 1000) (5 / 10000)
  = Ok portfolio ->
  BacktestEngine.fetch_historical_data yf_download
    BacktestEngine.benchmark_ticker years = None ->
  let d := fst (run_backtest code ticker years initial_capital g) in
  Dict.get d "benchmark_comparison"
  = Some (VDict (error_dict "Benchmark data unavailable"))
  /\ Dict.contains d "error" = false
  /\ Dict.get d "sharpe_ratio" = Some (VFloat (vbt.sharpe_ratio portfolio))
  /\ successful_windows [(BacktestEngine.period_key years, VDict d)] = [d].
Proof.
  intros Hp Hx Hc Hs Hf Hb d. unfold d.
  rewrite (run_backtest_report yf_download exec_code month_of code ticker
             years initial_capital g g1 g2 g3 price_data strategy_class
             strategy signals portfolio Hp Hx Hc Hs Hf).
  cbn [fst].
  assert (BacktestEngine._compare_with_benchmark yf_download portfolio ticker
            years = error_dict "Benchmark data unavailable") as Hcmp.
  { unfold BacktestEngine._compare_with_benchmark. now rewrite Hb. }
  unfold BacktestEngine.report_of. rewrite Hcmp.
  repeat split; reflexivity.
Qed.

End RunResult.

Lemma run_backtest_benchmark_unavailable_witness :
  let d :=
    fst (BacktestEngine.run_backtest (V := PortfolioSimulator.api)
           no_benchmark (class_of hold_strategy)
           thirty_day_months "" "AAPL" 1 100000 quiet) in
  Dict.get d "benchmark_comparison"
  = Some (VDict (error_dict "Benchmark data unavailable"))
  /\ Dict.contains d "error" = false.
Proof.
  set (ep := 100 * (1 + 5 / 10000)).
  set (q := 100000 / ep).
  set (fee := 1 / 1000 * (q * ep)).
  assert (0 < ep) as Hep by (unfold ep; lra).
  destruct (run_backtest_benchmark_unavailable (V := PortfolioSimulator.api)
              no_benchmark (class_of hold_strategy)
              thirty_day_months "" "AAPL" 1 100000 quiet quiet quiet quiet
              [mkBar 0 100 100 100 100 1000] (lift (Ok hold_strategy))
              hold_strategy ([true], [false])
              (PortfolioSimulator.mkPortfolio 100000
                 (PortfolioSimulator.mkState
                    (PortfolioSimulator.LONG 0 ep q fee) 100000 []
                    [(0%Z, q * 100 - fee)] (0 + fee))))
    as (Hcmp & Herr & _).
  - reflexivity.
  - reflexivity.
  - reflexivity.
  - reflexivity.
  - cbn. fold ep.
    assert (Rleb ep 0 = false) as -> by (apply Rleb_false_iff; exact Hep).
    reflexivity.
  - reflexivity.
  - split; assumption.
Defined.


(** *** Monthly returns *)

Lemma last_default {A : Type} (l : list A) (d d' : A) :
  l <> [] -> last l d = last l d'.
Proof.
  induction l as [|a [|b l] IH]; intros H; [congruence|reflexivity|].
  change (last (b :: l) d = last (b :: l) d'). apply IH. discriminate.
Qed.

Lemma monthly_returns_eq (month_of : Z -> Z) (returns : Series)
    (t0 : Z) (r0 : R) (rest : Series) :
  returns = (t0, r0) :: rest ->
  BacktestEngine.monthly_returns month_of returns
  = map (fun i =>
           month_product month_of returns (month_of t0 + Z.of_nat i) - 1)
        (seq 0 (Z.to_nat (month_of (fst (last returns (t0, 0)))
                          - month_of t0 + 1))).
Proof. intros ->. reflexivity. Qed.

(** *** The monthly statistics of a report *)

Lemma fold_left_Rmax_ge (l : list R) (a : R) :
  a <= fold_left Rmax l a /\ forall x, In x l -> x <= fold_left Rmax l a.
Proof.
  revert a. induction l as [|y l IH]; intros a; cbn [fold_left].
  - split; [lra|contradiction].
  - destruct (IH (Rmax a y)) as [Ha Hl].
    pose proof (Rmax_l a y). pose proof (Rmax_r a y).
    split; [lra|]. intros x [<-|Hx]; [lra|now apply Hl].
Qed.

Lemma fold_left_Rmin_le (l : list R) (a : R) :
  fold_left Rmin l a <= a /\ forall x, In x l -> fold_left Rmin l a <= x.
Proof.
  revert a. induction l as [|y l IH]; intros a; cbn [fold_left].
  - split; [lra|contradiction].
  - destruct (IH (Rmin a y)) as [Ha Hl].
    pose proof (Rmin_l a y). pose proof (Rmin_r a y).
    split; [lra|]. intros x [<-|Hx]; [lra|now apply Hl].
Qed.

Lemma fold_left_Rmax_In (l : list R) (a : R) :
  fold_left Rmax l a = a \/ In (fold_left Rmax l a) l.
Proof.
  revert a. induction l as [|y l IH]; intros a; cbn [fold_left];
    [now left|].
  destruct (IH (Rmax a y)) as [H|H]; [|right; now right].
  rewrite H. unfold Rmax. destruct (Rle_dec a y); [right; now left|now left].
Qed.

Lemma fold_left_Rmin_In (l : list R) (a : R) :
  fold_left Rmin l a = a \/ In (fold_left Rmin l a) l.
Proof.
  revert a. induction l as [|y l IH]; intros a; cbn [fold_left];
    [now left|].
  destruct (IH (Rmin a y)) as [H|H]; [|right; now right].
  rewrite H. unfold Rmin. destruct (Rle_dec a y); [now left|right; now left].
Qed.

Lemma filter_sign_length (l : list R) :
  (length (filter (fun m => Rltb 0 m) l)
   + length (filter (fun m => Rltb m 0) l) <= length l)%nat.
Proof.
  induction l as [|x l IH]; [reflexivity|]. cbn [filter].
  destruct (Rltb 0 x) eqn:Hp; destruct (Rltb x 0) eqn:Hn; cbn [length];
    try lia.
  apply Rltb_true_iff in Hp. apply Rltb_true_iff in Hn. exfalso; lra.
Qed.

Lemma filter_nonempty_In {A : Type} (f : A -> bool) (l : list A) :
  (0 < length (filter f l))%nat <-> exists x, In x l /\ f x = true.
Proof.
  split.
  - destruct (filter f l) as [|x t] eqn:E; [cbn; lia|]. intros _.
    exists x. apply filter_In. rewrite E. now left.
  - intros (x & Hx & Hf).
    assert (In x (filter f l)) as Hin by (apply filter_In; now split).
    destruct (filter f l); [contradiction|cbn; lia].
Qed.

Lemma Z_of_nat_pos (n : nat) : (0 < Z.of_nat n)%Z <-> (0 < n)%nat.
Proof. lia. Qed.

Section MonthlyStatistics.

Context {V : vbt.API}.
Variable month_of : Z -> Z.

#[local] Abbreviation _calculate_metrics :=
  (BacktestEngine._calculate_metrics month_of).
#[local] Abbreviation monthly_returns :=
  (BacktestEngine.monthly_returns month_of).

(** X25.  In the metrics of a portfolio with at least one daily return
    (on a chronological index), the worst month is a number not above the
    best month; the counts of positive and of negative months together do
    not exceed the number of months; and there is a positive month exactly
    when the best month is positive, a negative one exactly when the worst
    month is negative. *)
Theorem calculate_metrics_months (portfolio : vbt.Portfolio)
    (price_data : PriceData) (ticker : string) (first : Z * R) :
  hd_error (vbt.returns portfolio) = Some first ->
  (month_of (fst first)
   <= month_of (fst (last (vbt.returns portfolio) first)))%Z ->
  let metrics := _calculate_metrics portfolio price_data ticker in
  exists best worst positive negative,
    Dict.get metrics "best_month" = Some (VFloat (Fin best))
    /\ Dict.get metrics "worst_month" = Some (VFloat (Fin worst))
    /\ Dict.get metrics "positive_months" = Some (VInt positive)
    /\ Dict.get metrics "negative_months" = Some (VInt negative)
    /\ worst <= best
    /\ (0 <= positive /\ 0 <= negative
        /\ positive + negative
           <= Z.of_nat (length (monthly_returns (vbt.returns portfolio))))%Z
    /\ ((0 < positive)%Z <-> 0 < best)
    /\ ((0 < negative)%Z <-> worst < 0).
Proof.
  intros Hfirst Horder metrics.
  set (monthly := monthly_returns (vbt.returns portfolio)).
  assert (monthly <> []) as Hne.
  { unfold monthly. destruct (vbt.returns portfolio) as [|[t0 r0] rest] eqn:E;
      [discriminate|].
    injection Hfirst as <-. cbn [fst] in Horder.
    rewrite (monthly_returns_eq month_of _ t0 r0 rest eq_refl).
    rewrite (last_default _ (t0, 0) (t0, r0)) by discriminate.
    intros H. apply (f_equal (@length R)) in H.
    rewrite length_map, length_seq in H. cbn [length] in H. lia. }
  destruct monthly as [|m ms] eqn:Em; [congruence|]. clear Hne.
  exists (fold_left Rmax ms m * 100), (fold_left Rmin ms m * 100),
         (Z.of_nat (length (filter (fun x => Rltb 0 x) (m :: ms)))),
         (Z.of_nat (length (filter (fun x => Rltb x 0) (m :: ms)))).
  pose proof (fold_left_Rmax_ge ms m) as [Hbm Hbl].
  pose proof (fold_left_Rmin_le ms m) as [Hwm Hwl].
  assert (forall x, In x (m :: ms) -> x <= fold_left Rmax ms m) as Hb
    by (intros x [<-|Hx]; [exact Hbm|now apply Hbl]).
  assert (forall x, In x (m :: ms) -> fold_left Rmin ms m <= x) as Hw
    by (intros x [<-|Hx]; [exact Hwm|now apply Hwl]).
  assert (In (fold_left Rmax ms m) (m :: ms)) as Hbin
    by (destruct (fold_left_Rmax_In ms m) as [->|H]; [now left|now right]).
  assert (In (fold_left Rmin ms m) (m :: ms)) as Hwin
    by (destruct (fold_left_Rmin_In ms m) as [->|H]; [now left|now right]).
  unfold metrics, BacktestEngine._calculate_metrics. fold monthly.
  rewrite Em.
  split; [reflexivity|]. split; [reflexivity|].
  split; [reflexivity|]. split; [reflexivity|].
  split; [specialize (Hw _ Hbin); lra|]. split.
  - pose proof (filter_sign_length (m :: ms)). lia.
  - split.
    + rewrite Z_of_nat_pos, filter_nonempty_In. split.
      * intros (x & Hx & Hpos). apply Rltb_true_iff in Hpos.
        specialize (Hb x Hx). lra.
      * intros Hpos. exists (fold_left Rmax ms m). split; [exact Hbin|].
        apply Rltb_true_iff. lra.
    + rewrite Z_of_nat_pos, filter_nonempty_In. split.
      * intros (x & Hx & Hneg). apply Rltb_true_iff in Hneg.
        specialize (Hw x Hx). lra.
      * intros Hneg. exists (fold_left Rmin ms m). split; [exact Hwin|].
        apply Rltb_true_iff. lra.
Qed.

End MonthlyStatistics.

Lemma calculate_metrics_months_witness :
  exists best worst,
    Dict.get (BacktestEngine._calculate_metrics (V := PortfolioSimulator.api)
                thirty_day_months two_month_portfolio [] "AAPL")
             "best_month" = Some (VFloat (Fin best))
    /\ Dict.get (BacktestEngine._calculate_metrics
                   (V := PortfolioSimulator.api)
                   thirty_day_months two_month_portfolio [] "AAPL")
                "worst_month" = Some (VFloat (Fin worst))
    /\ worst <= best.
Proof.
  destruct (calculate_metrics_months (V := PortfolioSimulator.api)
              thirty_day_months two_month_portfolio [] "AAPL" (0%Z, 0))
    as (best & worst & _ & _ & Hb & Hw & _ & _ & Hle & _).
  - reflexivity.
  - cbn. unfold thirty_day_months. cbn. lia.
  - exists best, worst. repeat split; assumption.
Defined.

Lemma month_product_bounds (month_of : Z -> Z) (rows : Series) (m : Z) :
  ((forall row, In row rows -> 0 <= snd row) ->
   1 <= month_product month_of rows m)
  /\ ((forall row, In row rows -> -1 <= snd row <= 0) ->
      0 <= month_product month_of rows m <= 1).
Proof.
  unfold month_product. induction rows as [|row rows [IHge IHle]].
  - cbn. split; intros _; lra.
  - cbn [filter]. split; intros H.
    + assert (1 <= fold_right Rmult 1
                     (map (fun r => 1 + snd r)
                          (filter (fun r => Z.eqb (month_of (fst r)) m)
                                  rows))) as IH
        by (apply IHge; intros r Hr; apply H; now right).
      destruct (Z.eqb (month_of (fst row)) m); [|exact IH].
      cbn [map fold_right]. specialize (H row (or_introl eq_refl)). nra.
    + assert (0 <= fold_right Rmult 1
                     (map (fun r => 1 + snd r)
                          (filter (fun r => Z.eqb (month_of (fst r)) m)
                                  rows)) <= 1) as IH
        by (apply IHle; intros r Hr; apply H; now right).
      destruct (Z.eqb (month_of (fst row)) m); [|exact IH].
      cbn [map fold_right]. specialize (H row (or_introl eq_refl)). nra.
Qed.

Lemma monthly_returns_In (month_of : Z -> Z) (returns : Series) (x : R) :
  In x (BacktestEngine.monthly_returns month_of returns) ->
  exists m, x = month_product month_of returns m - 1.
Proof.
  destruct returns as [|[t0 r0] rest]; [contradiction|].
  rewrite (monthly_returns_eq month_of _ t0 r0 rest eq_refl).
  intros H. apply in_map_iff in H as (i & <- & _). now eexists.
Qed.

Section MonthlySigns.

Context {V : vbt.API}.
Variable month_of : Z -> Z.

(** X24.  A portfolio without a losing day has no losing month: when no
    daily return is negative, [negative_months] is 0 and [worst_month] is
    not negative.  Likewise, when no daily return is positive (and none is
    below -100%), [positive_months] is 0 and [best_month] is not
    positive. *)
Theorem calculate_metrics_month_signs (portfolio : vbt.Portfolio)
    (price_data : PriceData) (ticker : string) :
  let metrics :=
    BacktestEngine._calculate_metrics month_of portfolio price_data ticker in
  ((forall row, In row (vbt.returns portfolio) -> 0 <= snd row) ->
   Dict.get metrics "negative_months" = Some (VInt 0)
   /\ exists worst,
        Dict.get metrics "worst_month" = Some (VFloat worst)
        /\ Float.ltb worst (Fin 0) = false)
  /\ ((forall row, In row (vbt.returns portfolio) -> -1 <= snd row <= 0) ->
      Dict.get metrics "positive_months" = Some (VInt 0)
      /\ exists best,
           Dict.get metrics "best_month" = Some (VFloat best)
           /\ Float.gtb best (Fin 0) = false).
Proof.
  intros metrics. unfold metrics, BacktestEngine._calculate_metrics.
  set (monthly :=
         BacktestEngine.monthly_returns month_of (vbt.returns portfolio)).
  cbn [Dict.get String.eqb Ascii.eqb Bool.eqb].
  split; intros Hsign.
  - assert (forall x, In x monthly -> 0 <= x) as Hm.
    { intros x Hx. apply monthly_returns_In in Hx as (m & ->).
      pose proof (proj1 (month_product_bounds month_of
                           (vbt.returns portfolio) m) Hsign). lra. }
    split.
    + rewrite filter_none; [reflexivity|].
      intros x Hx. apply Rltb_false_iff. now apply Hm.
    + eexists. split; [reflexivity|].
      destruct monthly as [|m ms]; [reflexivity|].
      cbn [pdf.min Float.mul Float.ltb]. apply Rltb_false_iff.
      assert (0 <= fold_left Rmin ms m); [|lra].
      destruct (fold_left_Rmin_In ms m) as [->|Hin].
      * apply Hm. now left.
      * apply Hm. now right.
  - assert (forall x, In x monthly -> x <= 0) as Hm.
    { intros x Hx. apply monthly_returns_In in Hx as (m & ->).
      pose proof (proj2 (month_product_bounds month_of
                           (vbt.returns portfolio) m) Hsign). lra. }
    split.
    + rewrite filter_none; [reflexivity|].
      intros x Hx. apply Rltb_false_iff. now apply Hm.
    + eexists. split; [reflexivity|].
      destruct monthly as [|m ms]; [reflexivity|].
      unfold Float.gtb. cbn [pdf.max Float.mul Float.ltb].
      apply Rltb_false_iff.
      assert (fold_left Rmax ms m <= 0); [|lra].
      destruct (fold_left_Rmax_In ms m) as [->|Hin].
      * apply Hm. now left.
      * apply Hm. now right.
Qed.

End MonthlySigns.

Lemma calculate_metrics_month_signs_witness :
  Dict.get (BacktestEngine._calculate_metrics (V := PortfolioSimulator.api)
              thirty_day_months two_month_portfolio [] "AAPL")
           "negative_months" = Some (VInt 0).
Proof.
  apply (calculate_metrics_month_signs (V := PortfolioSimulator.api)
           thirty_day_months two_month_portfolio [] "AAPL").
  intros row [<-|[<-|[]]]; cbn; lra.
Defined.

(** *** The consistency analysis on arbitrary results *)

Lemma collect_windows_app_raise (before after : dict) (e : exn) :
  window_results before ->
  BacktestEngine.collect_windows after = Raise e ->
  BacktestEngine.collect_windows (before ++ after) = Raise e.
Proof.
  intros Hbefore Hafter.
  induction Hbefore as [|[k v] rest (Hk & d & Hv & Hd) Hrest IH];
    [exact Hafter|].
  cbn [fst snd] in Hk, Hv. subst v.
  cbn [app BacktestEngine.collect_windows].
  rewrite (proj2 (String.eqb_neq _ _) Hk). cbn [negb].
  destruct Hd as [Herr|(Herr & s & r & Hs & Hr)]; rewrite Herr; cbn [negb].
  - exact IH.
  - unfold getitem. rewrite Hs, Hr. cbn [bind]. rewrite IH. reflexivity.
Qed.

(** X26.  The consistency analysis reads ['sharpe_ratio'] from every window
    without an ['error'] entry: a window that has neither, coming after
    well-formed windows, makes the analysis raise [KeyError], whatever
    follows it. *)
Theorem analyze_consistency_key_error (before after : dict) (period : string)
    (d : dict) :
  window_results before ->
  period <> "consistency_analysis"%string ->
  Dict.contains d "error" = false ->
  Dict.get d "sharpe_ratio" = None ->
  BacktestEngine._analyze_consistency (before ++ (period, VDict d) :: after)
  = Raise (key_error "sharpe_ratio").
Proof.
  intros Hbefore Hperiod Herr Hsharpe.
  unfold BacktestEngine._analyze_consistency.
  rewrite (collect_windows_app_raise before _ (key_error "sharpe_ratio"));
    [reflexivity|exact Hbefore|].
  cbn [BacktestEngine.collect_windows].
  rewrite (proj2 (String.eqb_neq _ _) Hperiod), Herr. cbn [negb].
  unfold getitem. rewrite Hsharpe. reflexivity.
Qed.

Lemma analyze_consistency_key_error_witness :
  BacktestEngine._analyze_consistency
    (steady_results ++ [("10Y"%string, VDict partial_window)])
  = Raise (key_error "sharpe_ratio").
Proof.
  apply (analyze_consistency_key_error steady_results [] "10Y" partial_window).
  - repeat constructor; try discriminate;
      eexists; (split; [reflexivity|]); right;
      (split; [reflexivity|]); do 2 eexists; split; reflexivity.
  - discriminate.
  - reflexivity.
  - reflexivity.
Defined.

Lemma collect_windows_set_analysis (results : dict) (v : value) :
  BacktestEngine.collect_windows
    (Dict.set results "consistency_analysis" v)
  = BacktestEngine.collect_windows results.
Proof.
  induction results as [|[k w] rest IH]; [reflexivity|].
  cbn [Dict.set].
  destruct (String.eqb k "consistency_analysis") eqn:E.
  - cbn [BacktestEngine.collect_windows]. rewrite E. reflexivity.
  - cbn [BacktestEngine.collect_windows]. rewrite E, IH. reflexivity.
Qed.

(** X27.  The analysis skips the ['consistency_analysis'] entry of the
    results, whatever is stored there: analysing results that already carry
    an analysis gives what analysing them without it gave. *)
Theorem analyze_consistency_skips_analysis (results : dict) (v : value) :
  BacktestEngine._analyze_consistency
    (Dict.set results "consistency_analysis" v)
  = BacktestEngine._analyze_consistency results.
Proof.
  unfold BacktestEngine._analyze_consistency.
  now rewrite collect_windows_set_analysis.
Qed.

(** *** The entries of a multi-window run *)

Lemma keys_set_new (d : dict) (k : string) (v : value) :
  ~ In k (Dict.keys d) -> Dict.keys (Dict.set d k v) = (Dict.keys d ++ [k])%list.
Proof.
  unfold Dict.keys. induction d as [|[k' v'] d IH]; intros H; [reflexivity|].
  cbn [Dict.set map fst app] in *.
  destruct (String.eqb_spec k' k) as [->|Hne]; [exfalso; apply H; now left|].
  cbn [map fst]. f_equal. apply IH. intros Hin. apply H. now right.
Qed.

Section WindowKeys.

Context {V : vbt.API}.
Variable yf_download : string -> Z -> outcome PriceData.
Variable exec_code : string -> rand (option StrategyClass).
Variable month_of : Z -> Z.

#[local] Abbreviation run_periods :=
  (BacktestEngine.run_periods yf_download exec_code month_of).
#[local] Abbreviation run_multiple_backtests :=
  (BacktestEngine.run_multiple_backtests yf_download exec_code month_of).

Lemma run_periods_keys (code ticker : string) (periods : list Z)
    (results : dict) (g : rng) :
  NoDup periods ->
  (forall years, In years periods ->
     ~ In (BacktestEngine.period_key years) (Dict.keys results)) ->
  Dict.keys (fst (run_periods code ticker periods results g))
  = (Dict.keys results ++ map BacktestEngine.period_key periods)%list.
Proof.
  revert results g.
  induction periods as [|years rest IH]; intros results g Hnodup Hfresh.
  - cbn. now rewrite app_nil_r.
  - cbn [BacktestEngine.run_periods].
    destruct (BacktestEngine.run_backtest _ _ _ _ _ _ _ _) as [result g'].
    inversion Hnodup as [|? ? Hnotin Hnodup']; subst.
    rewrite IH.
    + rewrite keys_set_new by (apply Hfresh; now left).
      rewrite <- app_assoc. reflexivity.
    + exact Hnodup'.
    + intros y Hy. rewrite keys_set_new by (apply Hfresh; now left).
      rewrite in_app_iff. intros [Hin|[Heq|[]]].
      * apply (Hfresh y); [now right|exact Hin].
      * apply period_key_inj in Heq. subst. contradiction.
Qed.

(** X28.  For distinct periods, the result of a multi-window run has one
    entry per period, in the order requested, followed by the consistency
    analysis, and no other entry. *)
Theorem run_multiple_backtests_keys (code ticker : string) (periods : list Z)
    (g : rng) :
  NoDup periods ->
  exists results,
    fst (run_multiple_backtests code ticker periods g) = Ok results
    /\ Dict.keys results
       = (map BacktestEngine.period_key periods
          ++ ["consistency_analysis"%string])%list.
Proof.
  intros Hnodup.
  pose proof (run_periods_keys code ticker periods [] g Hnodup
                (fun _ _ H => H)) as Hkeys.
  change (Dict.keys []) with (@nil string) in Hkeys. cbn [app] in Hkeys.
  pose proof (run_periods_window_results yf_download exec_code month_of
                code ticker periods [] g (Forall_nil _)) as Hw.
  unfold BacktestEngine.run_multiple_backtests.
  destruct (BacktestEngine.run_periods _ _ _ _ _ _ _ _) as [w g'].
  cbn [fst] in *.
  rewrite (analyze_consistency_results w Hw). cbn [bind fst].
  eexists. split; [reflexivity|].
  rewrite keys_set_new; [now rewrite Hkeys|].
  rewrite Hkeys, in_map_iff.
  intros (y & Hy & _). revert Hy. apply period_key_not_analysis.
Qed.

End WindowKeys.

Lemma run_multiple_backtests_keys_witness :
  exists results,
    fst (BacktestEngine.run_multiple_backtests (V := PortfolioSimulator.api)
           no_data no_class thirty_day_months "" "AAPL"
           [1%Z; 5%Z] quiet) = Ok results
    /\ Dict.keys results = ["1Y"; "5Y"; "consistency_analysis"]%string.
Proof.
  apply (run_multiple_backtests_keys (V := PortfolioSimulator.api)
           no_data no_class thirty_day_months "" "AAPL"
           [1%Z; 5%Z] quiet).
  repeat constructor; cbn; intuition discriminate.
Defined.

(** *** The two readings of [calculate_alpha_beta] *)

Lemma fold_left_add_Fin (rs : list R) (a : R) :
  fold_left Float.add (map Fin rs) (Fin a) = Fin (a + Rsum rs).
Proof.
  revert a. induction rs as [|r rs IH]; intros a; cbn [map fold_left].
  - unfold Rsum. cbn. f_equal. ring.
  - cbn [Float.add]. rewrite IH. f_equal.
    change (Rsum (r :: rs)) with (r + Rsum rs). ring.
Qed.

Lemma filter_nan_Fin (rs : list R) :
  filter (fun x => negb (Float.is_nan x)) (map Fin rs) = map Fin rs.
Proof.
  induction rs as [|r rs IH]; [reflexivity|]. cbn. now rewrite IH.
Qed.

Lemma mean_finite (rs : list R) :
  BenchmarkReport.mean (map Fin rs) = pd.mean rs.
Proof.
  unfold BenchmarkReport.mean, npf.mean. rewrite filter_nan_Fin.
  rewrite fold_left_add_Fin, length_map.
  destruct rs as [|r rs].
  - unfold Float.div, Float.signed_inf. cbn [length INR Rsum fold_right].
    assert (Reqb 0 0 = true) as -> by (now apply Reqb_true_iff).
    destruct (Rltb 0 (0 + 0)) eqn:E1;
      [apply Rltb_true_iff in E1; exfalso; lra|].
    destruct (Rltb (0 + 0) 0) eqn:E2;
      [apply Rltb_true_iff in E2; exfalso; lra|].
    reflexivity.
  - unfold pd.mean, Rmean, Float.div.
    assert (Reqb (INR (length (r :: rs))) 0 = false) as ->.
    { apply Reqb_false_iff. apply not_0_INR. discriminate. }
    f_equal. f_equal. ring.
Qed.

Lemma loc_finite_series (s : Series) (idx : list Z) :
  map snd (Series.loc (finite_series s) idx)
  = map Fin (Series.values (Series.loc s idx)).
Proof.
  unfold Series.loc, Series.values, finite_series.
  induction idx as [|t idx IH]; [reflexivity|].
  cbn [flat_map]. rewrite !map_app, IH. f_equal.
  clear IH. induction s as [|[u x] s IHs]; [reflexivity|].
  cbn [map filter fst snd]. destruct (Z.eqb u t); cbn [map snd];
    now rewrite IHs.
Qed.

Lemma index_finite_series (s : Series) :
  map fst (finite_series s) = Series.index s.
Proof.
  unfold finite_series, Series.index. rewrite map_map. reflexivity.
Qed.

(** On series without infinities, what [compare] hands to
    [calculate_alpha_beta] is computed as on series of reals. *)
Lemma calculate_alpha_beta_finite (s b : Series) :
  BenchmarkReport.calculate_alpha_beta (finite_series s) (finite_series b)
  = BenchmarkComparison.calculate_alpha_beta s b.
Proof.
  unfold BenchmarkReport.calculate_alpha_beta,
    BenchmarkComparison.calculate_alpha_beta.
  rewrite !index_finite_series, !loc_finite_series, !length_map.
  unfold npf.cov01, npf.var, BenchmarkReport.corrcoef01.
  rewrite !finite_values_Fin, !mean_finite. reflexivity.
Qed.

Lemma calculate_win_rate_range_witness :
  exists w,
    PerformanceMetrics.calculate_win_rate [mkTrade 5; mkTrade 0] = Fin w
    /\ 0 <= w <= 100.
Proof.
  destruct (calculate_win_rate_range [mkTrade 5; mkTrade 0])
    as (w & Hw & Hrange & _).
  exists w. split; assumption.
Defined.

(** *** [compare] and [calculate_alpha_beta] *)

Lemma dropna_pct_change_from (prev : R) (s : Series) :
  prev <> 0 -> (forall row, In row s -> snd row <> 0) ->
  pdf.dropna (combine (Series.index s)
                      (pdf.pct_change_from prev (Series.values s)))
  = finite_series (daily_returns_from prev s).
Proof.
  revert prev. induction s as [|[t x] s IH]; intros prev Hprev Hs;
    [reflexivity|].
  unfold Series.index, Series.values in *.
  cbn [map fst snd pdf.pct_change_from combine daily_returns_from
       finite_series].
  rewrite (Float_div_finite x prev Hprev).
  cbn [Float.sub Float.neg Float.add pdf.dropna filter snd Float.is_nan negb].
  f_equal. apply IH.
  - apply (Hs (t, x)). now left.
  - intros row Hrow. apply Hs. now right.
Qed.

Lemma dropna_pct_change (s : Series) :
  (forall row, In row s -> snd row <> 0) ->
  pdf.dropna (BenchmarkReport.pct_change s) = finite_series (daily_returns s).
Proof.
  intros Hs. destruct s as [|[t x] s]; [reflexivity|].
  unfold BenchmarkReport.pct_change, Series.index, Series.values.
  cbn [map fst snd pdf.pct_change combine pdf.dropna filter Float.is_nan negb
       daily_returns].
  apply dropna_pct_change_from.
  - apply (Hs (t, x)). now left.
  - intros row Hrow. apply Hs. now right.
Qed.

Lemma calculate_alpha_beta_entries (s b : Series) (stats : dict) :
  snd (BenchmarkComparison.calculate_alpha_beta s b) = Ok stats ->
  exists alpha beta correlation,
    stats = [ ("alpha", alpha); ("beta", beta);
              ("correlation", correlation) ]%string.
Proof.
  unfold BenchmarkComparison.calculate_alpha_beta.
  destruct (_ <? 30)%nat; [intros [= <-]; now do 3 eexists|].
  destruct (negb _); [discriminate|].
  intros [= <-]. now do 3 eexists.
Qed.

(** X29.  On equity curves without a zero value, [compare] is
    [calculate_alpha_beta] applied to the simple daily returns
    [E_t / E_(t-1) - 1] of the two curves from their second bar on: it logs
    what that call logs, fails when it fails, and otherwise passes its
    alpha, beta and correlation through unchanged. *)
Theorem compare_statistics (s b : Series) :
  s <> [] -> b <> [] ->
  (forall row, In row s -> snd row <> 0) ->
  (forall row, In row b -> snd row <> 0) ->
  let stats :=
    BenchmarkComparison.calculate_alpha_beta (daily_returns s)
                                             (daily_returns b) in
  fst (BenchmarkReport.compare s b) = fst stats
  /\ (forall e, snd stats = Raise e ->
        snd (BenchmarkReport.compare s b) = Raise e)
  /\ (forall d', snd stats = Ok d' ->
        exists d,
          snd (BenchmarkReport.compare s b) = Ok d
          /\ Dict.get d "alpha" = Dict.get d' "alpha"
          /\ Dict.get d "beta" = Dict.get d' "beta"
          /\ Dict.get d "correlation" = Dict.get d' "correlation").
Proof.
  intros Hs Hb Hs0 Hb0 stats.
  unfold BenchmarkReport.compare.
  rewrite (dropna_pct_change s Hs0), (dropna_pct_change b Hb0).
  rewrite calculate_alpha_beta_finite. fold stats.
  destruct stats as [log result] eqn:E. cbn [fst snd].
  split; [reflexivity|]. split.
  - intros e ->. reflexivity.
  - intros d' ->.
    destruct (calculate_alpha_beta_entries (daily_returns s) (daily_returns b)
                d') as (alpha & beta & correlation & ->).
    { fold stats. now rewrite E. }
    destruct s as [|[t0 x0] s']; [congruence|].
    destruct b as [|[u0 y0] b']; [congruence|].
    cbn [bind Series.values map snd]. eexists. split; [reflexivity|].
    repeat split; reflexivity.
Qed.

Lemma compare_statistics_witness :
  fst (BenchmarkReport.compare (rising_curve (1 / 100))
                               (rising_curve (2 / 100)))
  = fst (BenchmarkComparison.calculate_alpha_beta
           (daily_returns (rising_curve (1 / 100)))
           (daily_returns (rising_curve (2 / 100)))).
Proof.
  assert (forall rate row, 0 < 1 + rate -> In row (rising_curve rate) ->
                           snd row <> 0) as Hpos.
  { intros rate row Hrate Hrow. unfold rising_curve in Hrow.
    apply in_map_iff in Hrow. destruct Hrow as (i & <- & _). cbn [snd].
    apply pow_nonzero. lra. }
  apply (compare_statistics (rising_curve (1 / 100))
                            (rising_curve (2 / 100))).
  - discriminate.
  - discriminate.
  - intros row. apply Hpos. lra.
  - intros row. apply Hpos. lra.
Defined.

Lemma Float_ltb_irrefl (a : float) : Float.ltb a a = false.
Proof.
  destruct a as [x| | |]; try reflexivity.
  cbn [Float.ltb]. apply Rltb_false_iff. lra.
Qed.

Lemma calculate_alpha_beta_same (x : FloatSeries) :
  exists alpha beta correlation,
    snd (BenchmarkReport.calculate_alpha_beta x x)
    = Ok [ ("alpha", alpha); ("beta", beta);
           ("correlation", correlation) ]%string.
Proof.
  unfold BenchmarkReport.calculate_alpha_beta.
  destruct (_ <? 30)%nat; [now do 3 eexists|].
  rewrite Nat.eqb_refl. cbn [negb snd]. now do 3 eexists.
Qed.

Lemma Float_sub_self (a : float) :
  Float.gtb (Float.sub a a) (Fin 0) = false
  /\ Float.ltb (Float.sub a a) (Fin 0) = false.
Proof.
  destruct a as [x| | |]; try (split; reflexivity).
  unfold Float.gtb, Float.sub. cbn [Float.neg Float.add Float.ltb].
  split; apply Rltb_false_iff; lra.
Qed.

(** X30.  Comparing an equity curve with itself never raises on a
    non-empty curve and never reports that the benchmark was beaten; the
    outperformance is neither positive nor negative (it is 0, or NaN when
    the total return is not finite). *)
Theorem compare_self (s : Series) :
  s <> [] ->
  exists d outperformance,
    snd (BenchmarkReport.compare s s) = Ok d
    /\ Dict.get d "beats_benchmark" = Some (VBool false)
    /\ Dict.get d "outperformance" = Some (VFloat outperformance)
    /\ Float.gtb outperformance (Fin 0) = false
    /\ Float.ltb outperformance (Fin 0) = false.
Proof.
  intros Hne. destruct s as [|[t0 x0] rest]; [congruence|].
  set (s := (t0, x0) :: rest).
  unfold BenchmarkReport.compare.
  destruct (calculate_alpha_beta_same
              (pdf.dropna (BenchmarkReport.pct_change s)))
    as (alpha & beta & correlation & Hab).
  destruct (BenchmarkReport.calculate_alpha_beta _ _) as [log result].
  cbn [snd] in Hab |- *. subst result. cbn [bind].
  change (Series.values s) with (x0 :: Series.values rest).
  cbn [getitem Dict.get String.eqb Ascii.eqb Bool.eqb bind].
  do 2 eexists. split; [reflexivity|].
  cbn [Dict.get String.eqb Ascii.eqb Bool.eqb].
  split; [unfold Float.gtb; now rewrite Float_ltb_irrefl|].
  split; [reflexivity|]. apply Float_sub_self.
Qed.

Lemma compare_self_witness :
  exists d,
    snd (BenchmarkReport.compare [(0%Z, 100); (1%Z, 110)]
                                 [(0%Z, 100); (1%Z, 110)]) = Ok d
    /\ Dict.get d "beats_benchmark" = Some (VBool false).
Proof.
  destruct (compare_self [(0%Z, 100); (1%Z, 110)])
    as (d & out & Hok & Hbeats & _); [discriminate|].
  exists d. split; assumption.
Defined.
